(** * The training / evaluation loop of [engine/trainer_accelerate.py]

    A shallow embedding of [Trainer.train] and [Trainer.val].  The two
    procedures drive external objects (model, teacher, optimizer, scheduler,
    accelerator, metric accumulator, pruner, logger).  Those objects are
    collaborators: their behaviour is a parameter ([Collab]), their joint
    state is an abstract [world], and every call the trainer makes on them is
    recorded, in order, in a trace of [event]s.  Python exceptions are explicit
    results.  A dataloader is the list of the batches it yields, and
    [len(dataloader)] the length of that list.  Wall-clock and device-memory
    readings only reach the text of log lines and are left out of the log
    records; [utils.misc.get_grad_norm] is not among the sources and is a
    collaborator like the others. *)

From Stdlib Require Import ZArith List Bool Lia.
Import ListNotations.

Set Implicit Arguments.

(** ** Python values and exceptions *)

Inductive exn : Type :=
| AssertionError
| ZeroDivisionError
| TypeError
| AttributeError
| KeyError.

Inductive result (A : Type) : Type :=
| Ok (a : A)
| Raise (e : exn).

Arguments Ok {A} a.
Arguments Raise {A} e.

(** What one forward pass returns ([outputs.loss], [outputs.logits],
    [outputs.hidden_states], [outputs.attentions]); [loss] is [None] when the
    model produced none. *)
Record ModelOutput (tensor : Type) : Type := mkOutput {
  loss : option tensor;
  logits : tensor;
  hidden_states : list tensor;
  attentions : list tensor
}.

(** ** Collaborators *)

Record Collab : Type := mkCollab {
  world : Type;
  batch : Type;
  tensor : Type;
  pyfloat : Type;
  metrics : Type;
  sparsity_t : Type;
  (* calling the model on a batch: the first flag is the ambient gradient mode, the
     second says whether attentions and hidden states are requested *)
  model_call : bool -> bool -> batch -> world -> world * ModelOutput tensor;
  model_train : world -> world;
  model_eval : world -> world;
  (* batch["labels"] *)
  batch_labels : batch -> option tensor;
  (* tensor arithmetic *)
  tensor_add : tensor -> tensor -> tensor;
  tensor_add_float : tensor -> pyfloat -> tensor;
  float_add_tensor : pyfloat -> tensor -> tensor;
  tensor_div : tensor -> Z -> tensor;
  item : tensor -> pyfloat;
  argmax : tensor -> tensor;
  squeeze : tensor -> tensor;
  (* float arithmetic *)
  float_of_Z : Z -> pyfloat;
  float_add : pyfloat -> pyfloat -> pyfloat;
  float_div : pyfloat -> pyfloat -> pyfloat;
  float_truthy : pyfloat -> bool;
  (* accelerator *)
  accelerator_backward : tensor -> world -> world;
  accelerator_gather : tensor -> world -> world * tensor;
  (* gradient norm: torch's clip_grad_norm_ and utils.misc.get_grad_norm *)
  clip_grad_norm_ : pyfloat -> world -> world * pyfloat;
  get_grad_norm : world -> world * pyfloat;
  (* optimizer, scheduler, progress bar *)
  optimizer_lr : world -> pyfloat;
  optimizer_step : world -> world;
  lr_scheduler_step : world -> world;
  optimizer_zero_grad : world -> world;
  progress_bar_update : world -> world;
  (* metric accumulator *)
  metric_add_batch : tensor -> tensor -> world -> world;
  metric_compute : world -> world * metrics;
  (* torch.cuda.empty_cache *)
  empty_cache : world -> world
}.

Section Trainer.

Variable C : Collab.

#[local] Abbreviation output := (ModelOutput (tensor C)).
#[local] Abbreviation world := (world C).
#[local] Abbreviation batch := (batch C).
#[local] Abbreviation tensor := (tensor C).
#[local] Abbreviation pyfloat := (pyfloat C).
#[local] Abbreviation metrics := (metrics C).
#[local] Abbreviation sparsity_t := (sparsity_t C).

(** A callable network: the teacher argument of [train]. *)
Definition module : Type := bool -> bool -> batch -> world -> world * output.

(** A binary loss function ([kd_cls_loss], [kd_reg_loss]). *)
Definition loss_fn : Type := tensor -> tensor -> tensor.

(** The pruner argument of [train]. *)
Record Pruner : Type := mkPruner {
  prune : world -> world * option sparsity_t;
  _update_mask_conditions : world -> world * bool;
  sparsity : world -> world * (sparsity_t * sparsity_t)
}.

(** The options of [config] that the trainer reads. *)
Record Config : Type := mkConfig {
  GRADIENT_ACCUMULATION_STEPS : Z;
  CLIP_GRAD : option pyfloat;
  BEGIN_LAYER : Z;
  EPOCHS : Z;
  PRINT_FREQ : Z
}.

(** ** Log records and events *)

Inductive logmsg : Type :=
| LogCurrentSparsity (cur : sparsity_t)
| LogWeightSparsity (total layer : sparsity_t)
| LogTrainStep (epoch : Z) (step len : nat) (lr loss_raw loss_acc : pyfloat)
    (kd : option (pyfloat * pyfloat * pyfloat)) (grad_norm : pyfloat)
| LogTrainEpoch (epoch : Z) (train_loss : pyfloat) (results : metrics)
| LogValStep (teacher_mode : bool) (epoch : Z) (step len : nat) (loss_item : pyfloat)
| LogValEpoch (teacher_mode : bool) (epoch : Z) (val_loss : pyfloat) (results : metrics).

Inductive event : Type :=
| EModelTrain
| EModelEval
| EForward (grad extras : bool) (b : batch) (out : output)
| ETeacherForward (grad extras : bool) (b : batch) (out : output)
| EBackward (l : tensor)
| EClipGradNorm (max_norm norm : pyfloat)
| EGetGradNorm (norm : pyfloat)
| EOptimizerStep
| ESchedulerStep
| EZeroGrad
| EProgressUpdate
| EPrune (cur : option sparsity_t)
| EUpdateMaskConditions (due : bool)
| ESparsity (layer total : sparsity_t)
| EGather (arg gathered : tensor)
| EAddBatch (predictions references : tensor)
| ECompute (results : metrics)
| ELog (m : logmsg)
| EEmptyCache.

(** ** The monad of the trainer

    A computation reads the ambient gradient mode, threads the world, emits
    events and either returns or raises. *)

Record outcome (A : Type) : Type := mkOutcome {
  events : list event;
  final : world;
  res : result A
}.

Definition M (A : Type) : Type := bool -> world -> outcome A.

Definition ret {A} (a : A) : M A :=
  fun _ w => mkOutcome [] w (Ok a).

Definition raise {A} (e : exn) : M A :=
  fun _ w => mkOutcome [] w (Raise e).

Definition bind {A B} (m : M A) (f : A -> M B) : M B :=
  fun g w =>
    let o := m g w in
    match res o with
    | Ok a =>
        let o' := f a g (final o) in
        mkOutcome (events o ++ events o') (final o') (res o')
    | Raise e => mkOutcome (events o) (final o) (Raise e)
    end.

(** A call that changes the world and returns nothing. *)
Definition act (e : event) (f : world -> world) : M unit :=
  fun _ w => mkOutcome [e] (f w) (Ok tt).

(** A call that returns a value; the event records it. *)
Definition call {A} (e : A -> event) (f : world -> world * A) : M A :=
  fun _ w => let r := f w in mkOutcome [e (snd r)] (fst r) (Ok (snd r)).

(** A forward pass: the callee sees the ambient gradient mode. *)
Definition forward (e : bool -> bool -> batch -> output -> event)
    (net : module) (extras : bool) (b : batch) : M output :=
  fun g w => let r := net g extras b w in
             mkOutcome [e g extras b (snd r)] (fst r) (Ok (snd r)).

(** [with torch.no_grad(): body] *)
Definition no_grad {A} (body : M A) : M A :=
  fun _ w => body false w.

(** A read of the world that calls nothing. *)
Definition peek {A} (f : world -> A) : M A :=
  fun _ w => mkOutcome [] w (Ok (f w)).

(** [logger.info(...)] *)
Definition log (m : logmsg) : M unit :=
  fun _ w => mkOutcome [ELog m] w (Ok tt).

Notation "x <- m ;; k" := (bind m (fun x => k))
  (at level 100, m at next level, right associativity).
Notation "' p <- m ;; k" := (bind m (fun x => match x with p => k end))
  (at level 100, p pattern, m at next level, right associativity).
Notation "m ;;; k" := (bind m (fun _ => k))
  (at level 100, right associativity).

(** ** Python arithmetic used by the trainer *)

(** A loss accumulator is the float literal [0.] or a tensor. *)
Inductive pynum : Type :=
| PyFloat (x : pyfloat)
| PyTensor (t : tensor).

(** [acc + t] with a tensor on the right. *)
Definition num_add_tensor (acc : pynum) (t : tensor) : pynum :=
  match acc with
  | PyFloat x => PyTensor (float_add_tensor C x t)
  | PyTensor s => PyTensor (tensor_add C s t)
  end.

(** [t + n] with a tensor on the left. *)
Definition tensor_add_num (t : tensor) (n : pynum) : tensor :=
  match n with
  | PyFloat x => tensor_add_float C t x
  | PyTensor s => tensor_add C t s
  end.

(** [n.item()]: a Python float has no such attribute. *)
Definition num_item (n : pynum) : result pyfloat :=
  match n with
  | PyFloat _ => Raise AttributeError
  | PyTensor t => Ok (item C t)
  end.

(** [xs[b:]] *)
Definition slice_from {A} (b : Z) (xs : list A) : list A :=
  if (b <? 0)%Z
  then skipn (Z.to_nat (Z.max (Z.of_nat (length xs) + b) 0)) xs
  else skipn (Z.to_nat b) xs.

(** [sum(xs)]: starts from the integer 0. *)
Definition py_sum (xs : list pyfloat) : pyfloat :=
  fold_left (float_add C) xs (float_of_Z C 0).

(** [sum(xs) / len(xs)] *)
Definition py_mean (xs : list pyfloat) : result pyfloat :=
  match xs with
  | [] => Raise ZeroDivisionError
  | _ => Ok (float_div C (py_sum xs) (float_of_Z C (Z.of_nat (length xs))))
  end.

(** [not a % m], for Python integers. *)
Definition not_mod (a m : Z) : result bool :=
  if (m =? 0)%Z then Raise ZeroDivisionError else Ok ((a mod m =? 0)%Z).

Definition lift {A} (r : result A) : M A :=
  match r with
  | Ok a => ret a
  | Raise e => raise e
  end.

(** ** [Trainer.train], one iteration of the loop *)

(** Lines 43-46 and 49-52: a per-layer loss summed from the float [0.] over
    the pairs of [zip(student[begin:], teacher[begin:])]. *)
Definition layer_loss (kd_reg_loss : loss_fn) (begin : Z)
    (student teacher : list tensor) : pynum :=
  fold_left (fun acc p => num_add_tensor acc (kd_reg_loss (fst p) (snd p)))
    (combine (slice_from begin student) (slice_from begin teacher))
    (PyFloat (float_of_Z C 0)).

(** What the forward block leaves in the local variables [outputs],
    [loss_raw] and, with a teacher, [logit_loss], [hs_loss], [attn_loss]. *)
Record Composed : Type := mkComposed {
  outputs : output;
  loss_raw : option tensor;
  kd_losses : option (tensor * pynum * pynum)
}.

(** Lines 21-59. *)
Definition forward_and_loss (config : Config) (teacher : option module)
    (kd_cls_loss kd_reg_loss : option loss_fn) (b : batch) : M Composed :=
  match teacher with
  | Some teacher_net =>
      match kd_cls_loss, kd_reg_loss with
      | Some cls, Some reg =>
          out <- forward EForward (model_call C) true b ;;
          teacher_out <- no_grad (forward ETeacherForward teacher_net true b) ;;
          let logit_loss := cls (logits out) (logits teacher_out) in
          let hs_loss :=
            layer_loss reg (BEGIN_LAYER config)
              (hidden_states out) (hidden_states teacher_out) in
          let attn_loss :=
            layer_loss reg (BEGIN_LAYER config)
              (attentions out) (attentions teacher_out) in
          ret (mkComposed out
                 (Some (tensor_add_num (tensor_add_num logit_loss hs_loss) attn_loss))
                 (Some (logit_loss, hs_loss, attn_loss)))
      | _, _ => raise AssertionError
      end
  | None =>
      out <- forward EForward (model_call C) false b ;;
      ret (mkComposed out (loss out) None)
  end.

(** Line 62: [loss_raw / config.TRAIN.GRADIENT_ACCUMULATION_STEPS]; dividing
    [None] is a type error, dividing a tensor by zero is not an error.  The
    result pairs the tensor [loss_raw] with the tensor [loss]. *)
Definition scale_loss (config : Config) (raw : option tensor)
  : result (tensor * tensor) :=
  match raw with
  | Some t => Ok (t, tensor_div C t (GRADIENT_ACCUMULATION_STEPS config))
  | None => Raise TypeError
  end.

(** Lines 69-73; [accelerator.unwrap_model(model).parameters()] only selects
    the gradients the call works on. *)
Definition clip_gradient (config : Config) : M pyfloat :=
  match CLIP_GRAD config with
  | Some max_norm =>
      if float_truthy C max_norm
      then call (EClipGradNorm max_norm) (clip_grad_norm_ C max_norm)
      else call EGetGradNorm (get_grad_norm C)
  | None => call EGetGradNorm (get_grad_norm C)
  end.

(** Line 79:
    [not (step + 1) % GRADIENT_ACCUMULATION_STEPS or step == len(dataloader) - 1] *)
Definition should_update (step len : nat) (window : Z) : result bool :=
  match not_mod (Z.of_nat step + 1) window with
  | Ok true => Ok true
  | Ok false => Ok (Z.of_nat step =? Z.of_nat len - 1)%Z
  | Raise e => Raise e
  end.

(** Lines 87-99. *)
Definition pruning (pruner : option Pruner) : M unit :=
  match pruner with
  | Some p =>
      cur_sparsity <- call EPrune (prune p) ;;
      match cur_sparsity with
      | Some s => log (LogCurrentSparsity s)
      | None => ret tt
      end ;;;
      due <- call EUpdateMaskConditions (_update_mask_conditions p) ;;
      if due
      then
        rates <- call (fun r => ESparsity (fst r) (snd r)) (sparsity p) ;;
        log (LogWeightSparsity (snd rates) (fst rates))
      else ret tt
  | None => ret tt
  end.

(** Lines 80-99. *)
Definition update_parameters (pruner : option Pruner) : M unit :=
  act EOptimizerStep (optimizer_step C) ;;;
  act ESchedulerStep (lr_scheduler_step C) ;;;
  act EZeroGrad (optimizer_zero_grad C) ;;;
  act EProgressUpdate (progress_bar_update C) ;;;
  pruning pruner.

(** Lines 104-105 and 164-165. *)
Definition predictions_of (is_regression : bool) (out : output) : tensor :=
  if negb is_regression then argmax C (logits out) else squeeze C (logits out).

(** Lines 104-109 and 164-169. *)
Definition for_evaluation (is_regression : bool) (out : output) (b : batch) : M unit :=
  gathered_predictions <-
    call (EGather (predictions_of is_regression out))
         (accelerator_gather C (predictions_of is_regression out)) ;;
  labels <- lift (match batch_labels C b with
                  | Some l => Ok l
                  | None => Raise KeyError
                  end) ;;
  gathered_references <- call (EGather labels) (accelerator_gather C labels) ;;
  act (EAddBatch gathered_predictions gathered_references)
      (metric_add_batch C gathered_predictions gathered_references).

(** Lines 117-120: the three [.item()] calls of [kd_loss_info]. *)
Definition kd_loss_info (kd : option (tensor * pynum * pynum))
  : result (option (pyfloat * pyfloat * pyfloat)) :=
  match kd with
  | None => Ok None
  | Some (logit_loss, hs_loss, attn_loss) =>
      match num_item hs_loss with
      | Ok hs =>
          match num_item attn_loss with
          | Ok attn => Ok (Some (item C logit_loss, hs, attn))
          | Raise e => Raise e
          end
      | Raise e => Raise e
      end
  end.

(** Lines 115-131. *)
Definition log_train_step (config : Config) (epoch : Z) (step len : nat)
    (lr grad_norm : pyfloat) (raw loss_acc : tensor)
    (kd : option (tensor * pynum * pynum)) : M unit :=
  due <- lift (not_mod (Z.of_nat step) (PRINT_FREQ config)) ;;
  if due
  then
    info <- lift (kd_loss_info kd) ;;
    log (LogTrainStep epoch step len lr (item C raw) (item C loss_acc) info grad_norm)
  else ret tt.

(** Lines 21-138, the body of the loop; it returns what the iteration
    appends to [batch_loss] and [step_lr]. *)
Definition train_step (config : Config) (epoch : Z) (is_regression : bool)
    (pruner : option Pruner) (teacher : option module)
    (kd_cls_loss kd_reg_loss : option loss_fn)
    (len step : nat) (b : batch) : M (pyfloat * pyfloat) :=
  c <- forward_and_loss config teacher kd_cls_loss kd_reg_loss b ;;
  scaled <- lift (scale_loss config (loss_raw c)) ;;
  act (EBackward (snd scaled)) (accelerator_backward C (snd scaled)) ;;;
  grad_norm <- clip_gradient config ;;
  lr <- peek (optimizer_lr C) ;;
  update <- lift (should_update step len (GRADIENT_ACCUMULATION_STEPS config)) ;;
  (if update then update_parameters pruner else ret tt) ;;;
  for_evaluation is_regression (outputs c) b ;;;
  log_train_step config epoch step len lr grad_norm
    (fst scaled) (snd scaled) (kd_losses c) ;;;
  ret (item C (snd scaled), lr).

(** How far an iteration gets.  [composed_loss]: the forward block returned
    and [loss_raw] is a tensor, so the iteration reaches line 66. *)
Definition composed_loss (config : Config) (teacher : option module)
    (kd_cls_loss kd_reg_loss : option loss_fn) (b : batch) (g : bool) (w : world)
  : option (Composed * tensor) :=
  match res (forward_and_loss config teacher kd_cls_loss kd_reg_loss b g w) with
  | Ok c =>
      match loss_raw c with
      | Some raw => Some (c, raw)
      | None => None
      end
  | Raise _ => None
  end.

(** [update_decision]: the iteration moreover evaluated the condition of
    line 79, with this value. *)
Definition update_decision (config : Config) (teacher : option module)
    (kd_cls_loss kd_reg_loss : option loss_fn) (len step : nat) (b : batch)
    (g : bool) (w : world) : option (Composed * bool) :=
  match composed_loss config teacher kd_cls_loss kd_reg_loss b g w with
  | Some (c, _) =>
      match should_update step len (GRADIENT_ACCUMULATION_STEPS config) with
      | Ok update => Some (c, update)
      | Raise _ => None
      end
  | None => None
  end.

(** [for step, batch in enumerate(dataloader): body], the body updating the
    local state [s]. *)
Fixpoint for_enumerate {A St : Type} (body : nat -> A -> St -> M St)
    (step : nat) (xs : list A) (s : St) : M St :=
  match xs with
  | [] => ret s
  | x :: rest => s' <- body step x s ;; for_enumerate body (S step) rest s'
  end.

(** ** [Trainer.train] *)

(** One iteration on the local lists [batch_loss] and [step_lr]. *)
Definition train_body (config : Config) (epoch : Z) (is_regression : bool)
    (pruner : option Pruner) (teacher : option module)
    (kd_cls_loss kd_reg_loss : option loss_fn) (len : nat)
    (step : nat) (b : batch) (logs : list pyfloat * list pyfloat)
  : M (list pyfloat * list pyfloat) :=
  r <- train_step config epoch is_regression pruner teacher
         kd_cls_loss kd_reg_loss len step b ;;
  ret (fst logs ++ [fst r], snd logs ++ [snd r]).

Definition train (config : Config) (epoch : Z) (is_regression : bool)
    (pruner : option Pruner) (teacher : option module)
    (kd_cls_loss kd_reg_loss : option loss_fn)
    (dataloader : list batch) : M (pyfloat * metrics * list pyfloat) :=
  act EModelTrain (model_train C) ;;;
  logs <- for_enumerate
            (train_body config epoch is_regression pruner teacher
               kd_cls_loss kd_reg_loss (length dataloader))
            0%nat dataloader ([], []) ;;
  train_loss <- lift (py_mean (fst logs)) ;;
  train_results <- call ECompute (metric_compute C) ;;
  log (LogTrainEpoch epoch train_loss train_results) ;;;
  act EEmptyCache (empty_cache C) ;;;
  ret (train_loss, train_results, snd logs).

(** ** [Trainer.val] *)

(** Lines 158-183, the body of the loop; it returns what the iteration
    appends to [batch_loss]. *)
Definition val_step (config : Config) (epoch : Z) (is_regression teacher_mode : bool)
    (len step : nat) (b : batch) : M pyfloat :=
  loss_item <- no_grad (
      out <- forward EForward (model_call C) false b ;;
      loss_item <- lift (match loss out with
                         | Some l => Ok (item C l)
                         | None => Raise AttributeError
                         end) ;;
      for_evaluation is_regression out b ;;;
      ret loss_item) ;;
  due <- lift (not_mod (Z.of_nat step) (PRINT_FREQ config)) ;;
  (if due then log (LogValStep teacher_mode epoch step len loss_item) else ret tt) ;;;
  ret loss_item.

(** One iteration on the local list [batch_loss]. *)
Definition val_body (config : Config) (epoch : Z) (is_regression teacher_mode : bool)
    (len : nat) (step : nat) (b : batch) (batch_loss : list pyfloat)
  : M (list pyfloat) :=
  l <- val_step config epoch is_regression teacher_mode len step b ;;
  ret (batch_loss ++ [l]).

Definition val (config : Config) (epoch : Z) (is_regression teacher_mode : bool)
    (dataloader : list batch) : M (pyfloat * metrics) :=
  act EModelEval (model_eval C) ;;;
  batch_loss <- for_enumerate
                  (val_body config epoch is_regression teacher_mode
                     (length dataloader))
                  0%nat dataloader [] ;;
  val_loss <- lift (py_mean batch_loss) ;;
  val_results <- call ECompute (metric_compute C) ;;
  log (LogValEpoch teacher_mode epoch val_loss val_results) ;;;
  act EEmptyCache (empty_cache C) ;;;
  ret (val_loss, val_results).

(** ** Reading traces *)

Definition count (p : event -> bool) (evs : list event) : nat :=
  length (filter p evs).

Definition is_optimizer_step (e : event) : bool :=
  match e with EOptimizerStep => true | _ => false end.

Definition is_scheduler_step (e : event) : bool :=
  match e with ESchedulerStep => true | _ => false end.

Definition is_zero_grad (e : event) : bool :=
  match e with EZeroGrad => true | _ => false end.

Definition is_progress_update (e : event) : bool :=
  match e with EProgressUpdate => true | _ => false end.

Definition is_add_batch (e : event) : bool :=
  match e with EAddBatch _ _ => true | _ => false end.

(** Calls on the optimizer, the scheduler and the progress bar. *)
Definition is_update_call (e : event) : bool :=
  match e with
  | EOptimizerStep | ESchedulerStep | EZeroGrad | EProgressUpdate => true
  | _ => false
  end.

(** Calls on the accelerator's gather and on the metric accumulator. *)
Definition is_metric_call (e : event) : bool :=
  match e with
  | EGather _ _ | EAddBatch _ _ => true
  | _ => false
  end.

(** Calls on the pruner. *)
Definition is_pruner_call (e : event) : bool :=
  match e with
  | EPrune _ | EUpdateMaskConditions _ | ESparsity _ _ => true
  | _ => false
  end.

(** Log lines about sparsity. *)
Definition is_sparsity_log (e : event) : bool :=
  match e with
  | ELog (LogCurrentSparsity _) | ELog (LogWeightSparsity _ _) => true
  | _ => false
  end.

(** The work of a step: forward passes, backward, gradient norm, parameter
    update, gathering and metric accumulation. *)
Definition is_step_work (e : event) : bool :=
  match e with
  | EForward _ _ _ _ | ETeacherForward _ _ _ _ | EBackward _
  | EClipGradNorm _ _ | EGetGradNorm _
  | EOptimizerStep | ESchedulerStep | EZeroGrad | EProgressUpdate
  | EPrune _ | EUpdateMaskConditions _ | ESparsity _ _
  | EGather _ _ | EAddBatch _ _ | ECompute _ => true
  | _ => false
  end.

(** The arguments of the [accelerator.backward] calls, in order. *)
Definition backward_args (evs : list event) : list tensor :=
  flat_map (fun e => match e with EBackward l => [l] | _ => [] end) evs.

(** The gradient-norm calls, in order: [Some m] for a clipping call with
    max-norm [m], [None] for a measuring call. *)
Definition norm_calls (evs : list event) : list (option pyfloat) :=
  flat_map (fun e => match e with
                     | EClipGradNorm m _ => [Some m]
                     | EGetGradNorm _ => [None]
                     | _ => []
                     end) evs.

(** The gradient mode of every teacher forward pass, in order. *)
Definition teacher_grad_modes (evs : list event) : list bool :=
  flat_map (fun e => match e with ETeacherForward g _ _ _ => [g] | _ => [] end) evs.

(** The [loss raw] field of every per-step training log line, in order. *)
Definition logged_raw_losses (evs : list event) : list pyfloat :=
  flat_map (fun e => match e with
                     | ELog (LogTrainStep _ _ _ _ raw _ _ _) => [raw]
                     | _ => []
                     end) evs.

(** The [.item()] of the task loss of every student forward pass, in order. *)
Definition forward_loss_items (evs : list event) : list pyfloat :=
  flat_map (fun e => match e with
                     | EForward _ _ _ out =>
                         match loss out with Some l => [item C l] | None => [] end
                     | _ => []
                     end) evs.

(** What only a training epoch may do: switch the model to training mode,
    run the teacher, back-propagate, clip or measure gradients, update
    parameters and schedule, advance the progress bar, prune. *)
Definition is_training_call (e : event) : bool :=
  match e with
  | EModelTrain | ETeacherForward _ _ _ _ | EBackward _
  | EClipGradNorm _ _ | EGetGradNorm _
  | EOptimizerStep | ESchedulerStep | EZeroGrad | EProgressUpdate
  | EPrune _ | EUpdateMaskConditions _ | ESparsity _ _ => true
  | _ => false
  end.

(** The gradient mode and the request for extras of every forward pass of
    the model, in order. *)
Definition forward_modes (evs : list event) : list (bool * bool) :=
  flat_map (fun e => match e with
                     | EForward g extras _ _ => [(g, extras)]
                     | _ => []
                     end) evs.

(** What belongs to the end of an epoch: [metric_computor.compute()], the
    epoch summary line and [torch.cuda.empty_cache()]. *)
Definition is_epoch_exit (e : event) : bool :=
  match e with
  | ECompute _ | EEmptyCache
  | ELog (LogTrainEpoch _ _ _) | ELog (LogValEpoch _ _ _ _) => true
  | _ => false
  end.

(** The step index of every per-step log line of [train], in order. *)
Definition logged_train_steps (evs : list event) : list nat :=
  flat_map (fun e => match e with
                     | ELog (LogTrainStep _ step _ _ _ _ _ _) => [step]
                     | _ => []
                     end) evs.

(** The step index of every per-step log line of [val], in order. *)
Definition logged_val_steps (evs : list event) : list nat :=
  flat_map (fun e => match e with
                     | ELog (LogValStep _ _ step _ _) => [step]
                     | _ => []
                     end) evs.

(** The steps of an epoch of [len] steps whose index is a multiple of the
    telemetry stride. *)
Definition log_steps (len : nat) (print_freq : Z) : list nat :=
  filter (fun step => (Z.of_nat step mod print_freq =? 0)%Z) (seq 0 len).

(** ** The properties, in the words of the specification *)

(** [ceil(n / w)] for [w >= 1]. *)
Definition ceil_div (n w : Z) : Z := ((n + w - 1) / w)%Z.

(** The rule of the gradient accumulation scheduler. *)
Definition update_rule (step len : nat) (window : Z) : bool :=
  (((Z.of_nat step + 1) mod window =? 0) || (Z.of_nat step =? Z.of_nat len - 1))%Z.

(** The steps of an epoch of [len] steps on which an update is triggered. *)
Definition update_steps (len : nat) (window : Z) : list nat :=
  filter (fun step => match should_update step len window with
                      | Ok true => true
                      | _ => false
                      end) (seq 0 len).



(** Sum divided by number of elements. *)
Definition arithmetic_mean (xs : list pyfloat) : pyfloat :=
  float_div C (fold_left (float_add C) xs (float_of_Z C 0))
            (float_of_Z C (Z.of_nat (length xs))).

(** The gradient-norm call that the configuration asks for. *)
Definition configured_norm (config : Config) : option pyfloat :=
  match CLIP_GRAD config with
  | Some m => if float_truthy C m then Some m else None
  | None => None
  end.

(** The two hooks of the pruning controller in their fixed order, from the
    world [w]: refresh, then the report when the mask update is due. *)
Definition pruner_protocol (p : Pruner) (w : world) : list event :=
  let refreshed := prune p w in
  let due := _update_mask_conditions p (fst refreshed) in
  [EPrune (snd refreshed)]
  ++ match snd refreshed with
     | Some s => [ELog (LogCurrentSparsity s)]
     | None => []
     end
  ++ [EUpdateMaskConditions (snd due)]
  ++ (if snd due
      then let report := snd (sparsity p (fst due)) in
           [ESparsity (fst report) (snd report);
            ELog (LogWeightSparsity (snd report) (fst report))]
      else []).

(** Everything that belongs to a parameter update and to pruning. *)
Definition pruning_related (e : event) : bool :=
  (is_update_call e || is_pruner_call e || is_sparsity_log e)%bool.

(** A parameter update from the world [w]: optimizer step, schedule step,
    gradient zeroing and one progress advance, then the pruning hooks when a
    controller is configured and nothing when none is. *)
Definition update_protocol (pruner : option Pruner) (w : world) : list event :=
  [EOptimizerStep; ESchedulerStep; EZeroGrad; EProgressUpdate]
  ++ match pruner with
     | Some p =>
         pruner_protocol p
           (progress_bar_update C
              (optimizer_zero_grad C (lr_scheduler_step C (optimizer_step C w))))
     | None => []
     end.

(** Metric accumulation from the world [w]: the predictions are the argmax
    of the logits for classification and the squeezed logits for regression;
    predictions and references both go through the gather, and the gathered
    tensors are what [add_batch] receives. *)
Definition metric_protocol (is_regression : bool) (out : output)
    (labels : tensor) (w : world) : list event :=
  let predictions :=
    if is_regression then squeeze C (logits out) else argmax C (logits out) in
  let gp := accelerator_gather C predictions w in
  let gr := accelerator_gather C labels (fst gp) in
  [EGather predictions (snd gp); EGather labels (snd gr);
   EAddBatch (snd gp) (snd gr)].

(** "The gradient norm is clipped or measured only on steps where
    [should_update] is true", for the steps of one run configuration. *)
Definition norm_only_on_update (config : Config) (epoch : Z) (is_regression : bool)
    (pruner : option Pruner) (teacher : option module)
    (kd_cls_loss kd_reg_loss : option loss_fn) : Prop :=
  forall len step b g w,
    norm_calls (events (train_step config epoch is_regression pruner teacher
                          kd_cls_loss kd_reg_loss len step b g w)) <> [] ->
    should_update step len (GRADIENT_ACCUMULATION_STEPS config) = Ok true.

(** ** The contract of the automatic-differentiation engine

    [view] projects the teacher's parameters and their gradients out of the
    world; [tracks t] says that tensor [t] carries a gradient path into the
    teacher.  Tensors computed by the teacher with gradient tracking disabled
    carry no such path, arithmetic on tensors without a path gives tensors
    without a path, back-propagating such a tensor leaves the teacher alone,
    and so does every call made on the student, the optimizer (which owns
    the student's parameters only), the accelerator's gather, the metric
    accumulator and the pruner. *)

Section Frame.

Variable V : Type.
Variable view : world -> V.
Variable tracks : tensor -> bool.

Definition untracked_output (o : output) : Prop :=
  (forall l, loss o = Some l -> tracks l = false)
  /\ tracks (logits o) = false
  /\ Forall (fun t => tracks t = false) (hidden_states o)
  /\ Forall (fun t => tracks t = false) (attentions o).

Definition keeps (f : world -> world) : Prop :=
  forall w, view (f w) = view w.

Definition keeps_ret {A} (f : world -> world * A) : Prop :=
  forall w, view (fst (f w)) = view w.

Record autograd_contract (teacher : module) (kd_cls_loss kd_reg_loss : loss_fn)
    (pruner : option Pruner) : Prop := mkContract {
  teacher_no_grad : forall extras b w,
    view (fst (teacher false extras b w)) = view w
    /\ untracked_output (snd (teacher false extras b w));
  student_forward : forall g extras b w,
    view (fst (model_call C g extras b w)) = view w
    /\ untracked_output (snd (model_call C g extras b w));
  backward_untracked : forall l w,
    tracks l = false -> view (accelerator_backward C l w) = view w;
  add_untracked : forall s t,
    tracks s = false -> tracks t = false -> tracks (tensor_add C s t) = false;
  add_float_untracked : forall t x,
    tracks t = false -> tracks (tensor_add_float C t x) = false;
  float_add_untracked : forall x t,
    tracks t = false -> tracks (float_add_tensor C x t) = false;
  div_untracked : forall t n,
    tracks t = false -> tracks (tensor_div C t n) = false;
  cls_untracked : forall s t,
    tracks s = false -> tracks t = false -> tracks (kd_cls_loss s t) = false;
  reg_untracked : forall s t,
    tracks s = false -> tracks t = false -> tracks (kd_reg_loss s t) = false;
  clip_keeps : forall m, keeps_ret (clip_grad_norm_ C m);
  norm_keeps : keeps_ret (get_grad_norm C);
  optimizer_keeps : keeps (optimizer_step C);
  scheduler_keeps : keeps (lr_scheduler_step C);
  zero_grad_keeps : keeps (optimizer_zero_grad C);
  progress_keeps : keeps (progress_bar_update C);
  gather_keeps : forall t, keeps_ret (accelerator_gather C t);
  add_batch_keeps : forall p r, keeps (metric_add_batch C p r);
  pruner_keeps : forall p, pruner = Some p ->
    keeps_ret (prune p) /\ keeps_ret (_update_mask_conditions p)
    /\ keeps_ret (sparsity p)
}.

(** Untracked loss accumulators. *)
Definition untracked_num (n : pynum) : Prop :=
  match n with
  | PyFloat _ => True
  | PyTensor t => tracks t = false
  end.

(** A computation that, run under gradient mode [g], leaves the teacher
    alone and whose result, when it returns, satisfies [Q]. *)
Definition framed (g : bool) {A} (Q : A -> Prop) (m : M A) : Prop :=
  forall w,
    view (final (m g w)) = view w
    /\ forall a, res (m g w) = Ok a -> Q a.

End Frame.

End Trainer.

(** ** A small concrete instance

    Tensors are integers tagged with a flag telling whether they carry a
    gradient path into the teacher; the world counts, in its first component,
    the gradient mass that reached the teacher and, in its second, the
    optimizer updates. *)

Module Toy.

Definition ttensor : Type := Z * bool.

Definition toy_output (tracked : bool) (b : Z) : ModelOutput ttensor :=
  mkOutput (Some (b, tracked)) (b + 1, tracked)%Z
           [(b, tracked); (b + 2, tracked); (b + 4, tracked)]%Z
           [(b + 3, tracked); (b + 5, tracked)]%Z.

Definition collab : Collab :=
  {| world := Z * Z;
     batch := Z;
     tensor := ttensor;
     pyfloat := Z;
     metrics := Z;
     sparsity_t := Z;
     model_call := fun _ _ b w => (w, toy_output false b);
     model_train := fun w => w;
     model_eval := fun w => w;
     batch_labels := fun b => Some (b, false);
     tensor_add := fun s t => (fst s + fst t, orb (snd s) (snd t))%Z;
     tensor_add_float := fun t x => (fst t + x, snd t)%Z;
     float_add_tensor := fun x t => (x + fst t, snd t)%Z;
     tensor_div := fun t n => (fst t / n, snd t)%Z;
     item := fun t => fst t;
     argmax := fun t => t;
     squeeze := fun t => t;
     float_of_Z := fun z => z;
     float_add := Z.add;
     float_div := Z.div;
     float_truthy := fun x => negb (x =? 0)%Z;
     accelerator_backward :=
       fun l w => if snd l then (fst w + 1, snd w)%Z else w;
     accelerator_gather := fun t w => (w, t);
     clip_grad_norm_ := fun m w => (w, m);
     get_grad_norm := fun w => (w, 7%Z);
     optimizer_lr := fun _ => 1%Z;
     optimizer_step := fun w => (fst w, snd w + 1)%Z;
     lr_scheduler_step := fun w => w;
     optimizer_zero_grad := fun w => w;
     progress_bar_update := fun w => w;
     metric_add_batch := fun _ _ w => w;
     metric_compute := fun w => (w, 0%Z);
     empty_cache := fun w => w |}.

(** The teacher: its outputs carry a gradient path exactly when it is called
    with gradient tracking on. *)
Definition teacher : module collab :=
  fun grad _ b w => (w, toy_output grad (b + 10)%Z).

Definition kd_cls_loss : loss_fn collab :=
  fun s t => (fst s - fst t, orb (snd s) (snd t))%Z.

Definition kd_reg_loss : loss_fn collab :=
  fun s t => ((fst s - fst t) * (fst s - fst t), orb (snd s) (snd t))%Z.

Definition pruner : Pruner collab :=
  @mkPruner collab
    (fun w => (w, Some 5%Z))
    (fun w => (w, true))
    (fun w => (w, (3%Z, 4%Z))).

Definition config (window : Z) (clip : option Z) : Config collab :=
  @mkConfig collab window clip 1 3 1.

Definition w0 : world collab := (0, 0)%Z.

Definition batches : list (batch collab) := [1; 2; 3]%Z.

End Toy.

(** A second instance, for the edges: the same collaborators, except that
    the model produces no loss for batch 0 and that negative batches have no
    labels. *)

Module Edge.

Definition collab : Collab :=
  {| world := Z * Z;
     batch := Z;
     tensor := Toy.ttensor;
     pyfloat := Z;
     metrics := Z;
     sparsity_t := Z;
     model_call :=
       fun _ _ b w =>
         (w, mkOutput (if (b =? 0)%Z then None else Some (b, false))
               (b + 1, false)%Z
               [(b, false); (b + 2, false); (b + 4, false)]%Z
               [(b + 3, false); (b + 5, false)]%Z);
     model_train := fun w => w;
     model_eval := fun w => w;
     batch_labels := fun b => if (b <? 0)%Z then None else Some (b, false);
     tensor_add := tensor_add Toy.collab;
     tensor_add_float := tensor_add_float Toy.collab;
     float_add_tensor := float_add_tensor Toy.collab;
     tensor_div := tensor_div Toy.collab;
     item := item Toy.collab;
     argmax := argmax Toy.collab;
     squeeze := squeeze Toy.collab;
     float_of_Z := float_of_Z Toy.collab;
     float_add := float_add Toy.collab;
     float_div := float_div Toy.collab;
     float_truthy := float_truthy Toy.collab;
     accelerator_backward := accelerator_backward Toy.collab;
     accelerator_gather := accelerator_gather Toy.collab;
     clip_grad_norm_ := clip_grad_norm_ Toy.collab;
     get_grad_norm := get_grad_norm Toy.collab;
     optimizer_lr := optimizer_lr Toy.collab;
     optimizer_step := optimizer_step Toy.collab;
     lr_scheduler_step := lr_scheduler_step Toy.collab;
     optimizer_zero_grad := optimizer_zero_grad Toy.collab;
     progress_bar_update := progress_bar_update Toy.collab;
     metric_add_batch := metric_add_batch Toy.collab;
     metric_compute := metric_compute Toy.collab;
     empty_cache := empty_cache Toy.collab |}.

Definition teacher : module collab :=
  fun grad _ b w => (w, Toy.toy_output grad (b + 10)%Z).

(** Window, stride and first distilled layer are arguments. *)
Definition config (window print_freq begin_layer : Z) : Config collab :=
  @mkConfig collab window None begin_layer 3 print_freq.

Definition w0 : world collab := (0, 0)%Z.

End Edge.


(** * Preparing a GLUE dataset: [data/glue/process.py]

    [preprocess_data] chooses the text columns, settles the correspondence
    between labels and class ids, writes it into [model.config], and hands
    the closure [generate_features] to [data.map].  Labels are Python ints or
    strs ([pyval]); a [dict] is its list of items in insertion order.
    [TASK_TO_KEYS] (of [configs.glue.cfg]), [PretrainedConfig(num_labels)
    .label2id], [str.lower], the tokenizer and [data.map] are defined outside
    the two source files and are parameters.  Python exceptions are explicit
    results, and the lines given to the logger are kept in order.
    [accelerator.main_process_first()] only makes the other processes wait
    for the main one and is left out. *)

From Stdlib Require String DecimalString.

Module Process.

Import String.StringSyntax.
Delimit Scope string_scope with string.

#[local] Abbreviation string := String.string.

Inductive pyexn : Type :=
| PyKeyError
| PyIndexError
| PyTypeError
| PyAttributeError
| PyValueError.

Inductive attempt (A : Type) : Type :=
| Done (a : A)
| Failed (e : pyexn).

Arguments Done {A} a.
Arguments Failed {A} e.

Definition and_then (A B : Type) (m : attempt A) (k : A -> attempt B)
  : attempt B :=
  match m with
  | Done a => k a
  | Failed e => Failed e
  end.

#[local] Notation "x <- m ;; k" := (and_then m (fun x => k))
  (at level 61, m at next level, right associativity).

(** A label, or the key or value of a label dict. *)
Inductive pyval : Type :=
| PInt (z : Z)
| PStr (s : string).

(** [a == b]: an int never equals a str. *)
Definition pyval_eqb (a b : pyval) : bool :=
  match a, b with
  | PInt x, PInt y => (x =? y)%Z
  | PStr x, PStr y => String.eqb x y
  | _, _ => false
  end.

Fixpoint list_eqb (a b : list pyval) : bool :=
  match a, b with
  | [], [] => true
  | x :: a', y :: b' => pyval_eqb x y && list_eqb a' b'
  | _, _ => false
  end.

(** ** Dicts *)

Section Dict.

Variables K V : Type.
Variable eqb : K -> K -> bool.

(** [d.get(k)] *)
Fixpoint dict_get (k : K) (d : list (K * V)) : option V :=
  match d with
  | [] => None
  | (k', v) :: rest => if eqb k k' then Some v else dict_get k rest
  end.

(** [d[k] = v]: a key already there keeps its place and takes the new value. *)
Fixpoint dict_set (k : K) (v : V) (d : list (K * V)) : list (K * V) :=
  match d with
  | [] => [(k, v)]
  | (k', v') :: rest =>
      if eqb k k' then (k', v) :: rest else (k', v') :: dict_set k v rest
  end.

(** [{k: v for ...}] over the items produced, in order. *)
Definition dict_of (items : list (K * V)) : list (K * V) :=
  fold_left (fun d kv => dict_set (fst kv) (snd kv) d) items [].

End Dict.

(** A dict between labels and ids, as [label2id], [id2label], [label_to_id]. *)
Definition ldict : Type := list (pyval * pyval).

Definition lget : pyval -> ldict -> option pyval := dict_get pyval_eqb.

(** [a == b] on dicts: as many items, and each item of [a] found in [b]. *)
Definition dict_eqb (a b : ldict) : bool :=
  (length a =? length b)%nat
  && forallb (fun kv => match lget (fst kv) b with
                        | Some v => pyval_eqb (snd kv) v
                        | None => false
                        end) a.

(** [enumerate(xs)] *)
Definition enumerate (A : Type) (xs : list A) : list (nat * A) :=
  combine (seq 0 (length xs)) xs.

Definition index (i : nat) : pyval := PInt (Z.of_nat i).

(** ** [sorted]: only [<] is used, and an int against a str raises. *)

Definition py_lt (a b : pyval) : attempt bool :=
  match a, b with
  | PInt x, PInt y => Done (x <? y)%Z
  | PStr x, PStr y => Done (String.ltb x y)
  | _, _ => Failed PyTypeError
  end.

Fixpoint py_insert (x : pyval) (sorted : list pyval) : attempt (list pyval) :=
  match sorted with
  | [] => Done [x]
  | y :: rest =>
      below <- py_lt y x ;;
      if below then (rest' <- py_insert x rest ;; Done (y :: rest'))
      else Done (x :: y :: rest)
  end.

Fixpoint py_sorted (xs : list pyval) : attempt (list pyval) :=
  match xs with
  | [] => Done []
  | x :: rest => sorted <- py_sorted rest ;; py_insert x sorted
  end.

(** ** The label configuration of the model *)

Record LabelConfig : Type := mkLabelConfig {
  label2id : ldict;
  id2label : ldict
}.

Inductive logline : Type :=
| UsingModelLabels (label_name_to_id : ldict)
| LabelsMismatch (model_labels dataset_labels : list pyval)
| ConfigLabels (label2id id2label : ldict).

(** A column of the tokenized batch: what the tokenizer made, or labels
    (an entry is [None] where [label_to_id.get] found nothing). *)
Inductive column (enc : Type) : Type :=
| Encoded (x : enc)
| Values (vs : list (option pyval)).

Arguments Values {enc} vs.

Record Ran (features : Type) : Type := mkRan {
  config_after : LabelConfig;
  logged : list logline;
  returned : attempt features
}.

Section Glue.

(** [TASK_TO_KEYS.get]: the two text columns of a task (the second may be
    [None]). *)
Variable TASK_TO_KEYS : string -> option (string * option string).
(** [PretrainedConfig(num_labels=n).label2id] *)
Variable default_label2id : Z -> ldict.
(** [str.lower] *)
Variable lower : string -> string.
(** The tokenizer, called on one or two text columns with the padding flag
    and the maximal length; it returns the items of its encoding. *)
Variable enc : Type.
Variable tokenizer : list (list pyval) -> bool -> Z -> list (string * enc).
(** [data.map(function, batched=True, remove_columns=..., load_from_cache_file=...)] *)
Variable features : Type.
Variable data_map :
  (list (string * list pyval) -> attempt (list (string * column enc))) ->
  list string -> bool -> features.

(** Line 14: [name != "label"] *)
Definition not_label (name : string) : bool :=
  negb (String.eqb name "label"%string).

(** Lines 10-21.  [train_columns] is [data["train"].column_names], [None]
    when [data] has no train split. *)
Definition sentence_keys (task_name : option string)
    (train_columns : option (list string))
  : attempt (string * option string) :=
  match task_name with
  | Some task =>
      match TASK_TO_KEYS task with
      | Some keys => Done keys
      | None => Failed PyKeyError
      end
  | None =>
      match train_columns with
      | None => Failed PyKeyError
      | Some column_names =>
          let non_label_column_names :=
            filter not_label column_names in
          if existsb (String.eqb "sentence1"%string) non_label_column_names
             && existsb (String.eqb "sentence2"%string) non_label_column_names
          then Done ("sentence1"%string, Some "sentence2"%string)
          else if (2 <=? length non_label_column_names)%nat
          then match firstn 2 non_label_column_names with
               | [k1; k2] => Done (k1, Some k2)
               | _ => Failed PyValueError
               end
          else match non_label_column_names with
               | k1 :: _ => Done (k1, None)
               | [] => Failed PyIndexError
               end
      end
  end.

(** Line 31: [{k.lower(): v for k, v in model.config.label2id.items()}];
    an int has no [lower]. *)
Definition label_name_to_id (model_label2id : ldict) : attempt ldict :=
  fold_left
    (fun acc kv =>
       d <- acc ;;
       match fst kv with
       | PStr k => Done (dict_set pyval_eqb (PStr (lower k)) (snd kv) d)
       | PInt _ => Failed PyAttributeError
       end)
    model_label2id (Done []).

(** Line 37: [{i: label_name_to_id[label_list[i]] for i in range(num_labels)}] *)
Definition model_label_to_id (name_to_id : ldict) (label_list : list pyval)
    (num_labels : Z) : attempt ldict :=
  fold_left
    (fun acc i =>
       d <- acc ;;
       match nth_error label_list i with
       | None => Failed PyIndexError
       | Some label =>
           match lget label name_to_id with
           | None => Failed PyKeyError
           | Some id => Done (dict_set pyval_eqb (index i) id d)
           end
       end)
    (seq 0 (Z.to_nat num_labels)) (Done []).

(** Line 45: [{v: i for i, v in enumerate(label_list)}] *)
Definition enumerated_label_to_id (label_list : list pyval) : ldict :=
  dict_of pyval_eqb (map (fun iv => (snd iv, index (fst iv))) (enumerate label_list)).

(** Line 55: [{i: l for i, l in enumerate(label_list)}] *)
Definition enumerated_id_to_label (label_list : list pyval) : ldict :=
  dict_of pyval_eqb (map (fun il => (index (fst il), snd il)) (enumerate label_list)).

(** Lines 24-47: the lines logged, and [label_to_id] or the exception. *)
Definition choose_label_to_id (model_label2id : ldict)
    (task_name : option string) (is_regression : bool)
    (label_list : list pyval) (num_labels : Z)
  : list logline * attempt (option ldict) :=
  if negb (dict_eqb model_label2id (default_label2id num_labels))
     && (match task_name with Some _ => true | None => false end)
     && negb is_regression
  then
    match label_name_to_id model_label2id with
    | Failed e => ([], Failed e)
    | Done name_to_id =>
        match py_sorted (map fst name_to_id) with
        | Failed e => ([], Failed e)
        | Done model_labels =>
            match py_sorted label_list with
            | Failed e => ([], Failed e)
            | Done dataset_labels =>
                if list_eqb model_labels dataset_labels
                then ([UsingModelLabels name_to_id],
                      d <- model_label_to_id name_to_id label_list num_labels ;;
                      Done (Some d))
                else ([LabelsMismatch model_labels dataset_labels], Done None)
            end
        end
    end
  else
    match task_name with
    | None => ([], Done (Some (enumerated_label_to_id label_list)))
    | Some _ => ([], Done None)
    end.

(** Line 51: [{i: label for label, i in label_to_id.items()}] *)
Definition inverted (label_to_id : ldict) : ldict :=
  dict_of pyval_eqb (map (fun li => (snd li, fst li)) label_to_id).

(** Lines 49-56. *)
Definition update_config (config : LabelConfig) (label_to_id : option ldict)
    (task_name : option string) (is_regression : bool)
    (label_list : list pyval) : LabelConfig :=
  match label_to_id with
  | Some d => {| label2id := d; id2label := inverted d |}
  | None =>
      if (match task_name with Some _ => true | None => false end)
         && negb is_regression
      then {| label2id := enumerated_label_to_id label_list;
              id2label := enumerated_id_to_label label_list |}
      else config
  end.

(** Lines 62-93.  [pad_to_max] is the truth of [cfg.DATA.PAD_TO_MAX_SEQ_LENGTH]. *)
Definition generate_features (keys : string * option string)
    (label_to_id : option ldict) (pad_to_max : bool) (max_seq_length : Z)
    (examples : list (string * list pyval))
  : attempt (list (string * column enc)) :=
  let column_of key :=
    match dict_get String.eqb key examples with
    | Some texts => Done texts
    | None => Failed PyKeyError
    end in
  texts <- match snd keys with
           | None => t1 <- column_of (fst keys) ;; Done [t1]
           | Some sentence2_key =>
               t1 <- column_of (fst keys) ;;
               t2 <- column_of sentence2_key ;;
               Done [t1; t2]
           end ;;
  let result :=
    map (fun kx => (fst kx, Encoded (snd kx)))
        (tokenizer texts pad_to_max max_seq_length) in
  match dict_get String.eqb "label"%string examples with
  | Some labels =>
      Done (dict_set String.eqb "labels"%string
              (Values (match label_to_id with
                       | Some d => map (fun l => lget l d) labels
                       | None => map Some labels
                       end))
              result)
  | None => Done result
  end.

(** Lines 7-104.  [model_config] is [model.config] on entry; the record
    returned tells what it is afterwards, also when an exception ends the
    call. *)
Definition preprocess_data (train_columns : option (list string))
    (model_config : LabelConfig) (num_labels : Z) (label_list : list pyval)
    (is_regression pad_to_max : bool) (max_seq_length : Z)
    (load_from_cache : bool) (task_name : option string) : Ran features :=
  match sentence_keys task_name train_columns with
  | Failed e => mkRan model_config [] (Failed e)
  | Done keys =>
      match choose_label_to_id (label2id model_config) task_name
                               is_regression label_list num_labels with
      | (lines, Failed e) => mkRan model_config lines (Failed e)
      | (lines, Done label_to_id) =>
          let config :=
            update_config model_config label_to_id task_name is_regression
                          label_list in
          let lines' :=
            lines ++ [ConfigLabels (label2id config) (id2label config)] in
          match train_columns with
          | None => mkRan config lines' (Failed PyKeyError)
          | Some column_names =>
              mkRan config lines'
                (Done (data_map
                         (generate_features keys label_to_id pad_to_max
                                            max_seq_length)
                         column_names load_from_cache))
          end
      end
  end.

End Glue.

End Process.

(** A concrete preparation: three GLUE tasks, the default labels
    [LABEL_0], [LABEL_1], ... of a fresh configuration, ASCII lower-casing, a
    tokenizer that files the text columns under [input_ids], and a dataset
    of one batch. *)
Module Glue.

Import Process.
Import String.StringSyntax.
#[local] Open Scope string_scope.

Definition TASK_TO_KEYS (task : String.string)
  : option (String.string * option String.string) :=
  if String.eqb task "cola" then Some ("sentence"%string, None)
  else if String.eqb task "mnli"
  then Some ("premise"%string, Some "hypothesis"%string)
  else if String.eqb task "stsb"
  then Some ("sentence1"%string, Some "sentence2"%string)
  else None.

Definition default_label2id (num_labels : Z) : ldict :=
  map (fun i =>
         (PStr (String.append "LABEL_"
                  (DecimalString.NilZero.string_of_uint (Nat.to_uint i))),
          index i))
      (seq 0 (Z.to_nat num_labels)).

Definition lower_char (c : Ascii.ascii) : Ascii.ascii :=
  let n := Ascii.nat_of_ascii c in
  if (65 <=? n)%nat && (n <=? 90)%nat then Ascii.ascii_of_nat (n + 32) else c.

Fixpoint lower (s : String.string) : String.string :=
  match s with
  | String.EmptyString => String.EmptyString
  | String.String c rest => String.String (lower_char c) (lower rest)
  end.

Definition enc : Type := list (list pyval).

Definition tokenizer (texts : list (list pyval)) (pad_to_max : bool)
    (max_seq_length : Z) : list (String.string * enc) :=
  [("input_ids"%string, texts)].

Definition batch : list (String.string * list pyval) :=
  [("premise"%string, [PStr "a b"; PStr "c"; PStr "d e"]);
   ("hypothesis"%string, [PStr "b"; PStr "f"; PStr "e"]);
   ("label"%string, [PStr "neutral"; PStr "entailment"; PInt (-1)])].

Definition features : Type := attempt (list (String.string * column enc)).

Definition data_map
    (function : list (String.string * list pyval) ->
                attempt (list (String.string * column enc)))
    (remove_columns : list String.string) (load_from_cache : bool)
  : features :=
  function batch.

Definition mnli_labels : list pyval :=
  [PStr "entailment"; PStr "neutral"; PStr "contradiction"].

(** A model trained on MNLI with its own order of the classes. *)
Definition mnli_model : LabelConfig :=
  {| label2id := [(PStr "CONTRADICTION", PInt 0); (PStr "ENTAILMENT", PInt 1);
                  (PStr "NEUTRAL", PInt 2)];
     id2label := [(PInt 0, PStr "CONTRADICTION"); (PInt 1, PStr "ENTAILMENT");
                  (PInt 2, PStr "NEUTRAL")] |}.


(** A batch of a regression task. *)
Definition stsb_batch : list (String.string * list pyval) :=
  [("sentence1", [PStr "a b"; PStr "c"]);
   ("sentence2", [PStr "a"; PStr "d"]);
   ("label", [PInt 5; PInt 0])].

End Glue.


(** * Facts *)

Section MonadFacts.

Variable C : Collab.

Lemma events_bind A B (m : M C A) (f : A -> M C B) g w :
  events (bind m f g w) =
  events (m g w) ++ match res (m g w) with
                    | Ok a => events (f a g (final (m g w)))
                    | Raise _ => []
                    end.
Proof.
  unfold bind. destruct (res (m g w)); simpl; [reflexivity|].
  now rewrite app_nil_r.
Qed.

Lemma res_bind A B (m : M C A) (f : A -> M C B) g w :
  res (bind m f g w) =
  match res (m g w) with
  | Ok a => res (f a g (final (m g w)))
  | Raise e => Raise e
  end.
Proof. unfold bind. destruct (res (m g w)); reflexivity. Qed.

Lemma final_bind A B (m : M C A) (f : A -> M C B) g w :
  final (bind m f g w) =
  match res (m g w) with
  | Ok a => final (f a g (final (m g w)))
  | Raise _ => final (m g w)
  end.
Proof. unfold bind. destruct (res (m g w)); reflexivity. Qed.

(** A successful sequence: both halves succeeded, and the trace is the
    concatenation of theirs. *)
Lemma bind_ok A B (m : M C A) (f : A -> M C B) g w b :
  res (bind m f g w) = Ok b ->
  exists a,
    res (m g w) = Ok a
    /\ res (f a g (final (m g w))) = Ok b
    /\ events (bind m f g w) = events (m g w) ++ events (f a g (final (m g w)))
    /\ final (bind m f g w) = final (f a g (final (m g w))).
Proof.
  rewrite res_bind, events_bind, final_bind.
  destruct (res (m g w)) as [a|e]; [|discriminate].
  intros H. exists a. auto.
Qed.

Lemma lift_ok A (r : result A) g w a :
  res (lift C r g w) = Ok a -> r = Ok a.
Proof. destruct r; simpl; congruence. Qed.

Lemma events_lift A (r : result A) g w : events (lift C r g w) = [].
Proof. destruct r; reflexivity. Qed.

Lemma final_lift A (r : result A) g w : final (lift C r g w) = w.
Proof. destruct r; reflexivity. Qed.

Lemma res_lift A (r : result A) g w : res (lift C r g w) = r.
Proof. destruct r; reflexivity. Qed.

End MonadFacts.

Section EpochFacts.

Variable C : Collab.

(** C10.  [train] and [val] both need a dataloader that yields at least one
    batch.  The epoch mean loss is [sum(batch_loss) / len(batch_loss)], a
    division by the number of recorded per-step losses: it is defined on a
    non-empty list and raises [ZeroDivisionError] on the empty one, so on an
    empty dataloader both procedures raise instead of returning a result,
    whatever their other arguments are. *)
Theorem empty_dataloader_division_by_zero :
  forall (config : Config C) epoch is_regression teacher_mode pruner teacher
         kd_cls_loss kd_reg_loss g w,
    py_mean C [] = Raise ZeroDivisionError
    /\ (forall x xs, py_mean C (x :: xs) = Ok (arithmetic_mean C (x :: xs)))
    /\ res (train config epoch is_regression pruner teacher kd_cls_loss kd_reg_loss
              [] g w) = Raise ZeroDivisionError
    /\ res (val config epoch is_regression teacher_mode [] g w)
       = Raise ZeroDivisionError.
Proof. intros. repeat split; reflexivity. Qed.

End EpochFacts.

Section ScheduleFacts.

(** *** The arithmetic of the update schedule *)

Lemma should_update_rule (step len : nat) (window : Z) :
  (1 <= window)%Z ->
  should_update step len window = Ok (update_rule step len window).
Proof.
  intros Hw. unfold should_update, update_rule, not_mod.
  destruct (window =? 0)%Z eqn:E; [lia|].
  destruct ((Z.of_nat step + 1) mod window =? 0)%Z; reflexivity.
Qed.

Lemma div_succ (a w : Z) :
  (0 <= a)%Z -> (1 <= w)%Z ->
  ((a + 1) / w = a / w + if (a + 1) mod w =? 0 then 1 else 0)%Z.
Proof.
  intros Ha Hw.
  destruct ((a + 1) mod w =? 0)%Z eqn:E.
  - apply Z.eqb_eq in E.
    pose proof (Z.div_mod (a + 1) w ltac:(lia)) as H1.
    pose proof (Z.div_mod a w ltac:(lia)) as H2.
    pose proof (Z.mod_pos_bound a w ltac:(lia)) as H3.
    rewrite E in H1. nia.
  - apply Z.eqb_neq in E.
    pose proof (Z.div_mod (a + 1) w ltac:(lia)) as H1.
    pose proof (Z.div_mod a w ltac:(lia)) as H2.
    pose proof (Z.mod_pos_bound a w ltac:(lia)) as H3.
    pose proof (Z.mod_pos_bound (a + 1) w ltac:(lia)) as H4.
    nia.
Qed.

(** Among the steps [0 .. m-1], those closing a full window number [m / w]. *)
Lemma full_windows (w : Z) (m : nat) :
  (1 <= w)%Z ->
  Z.of_nat (length (filter (fun s => ((Z.of_nat s + 1) mod w =? 0)%Z) (seq 0 m)))
  = (Z.of_nat m / w)%Z.
Proof.
  intros Hw. induction m as [|m IH].
  - simpl. now rewrite Z.div_0_l by lia.
  - rewrite seq_S, filter_app, length_app, Nat2Z.inj_add, IH.
    rewrite Nat2Z.inj_succ, <- Z.add_1_r, (div_succ (a := Z.of_nat m)) by lia.
    simpl. destruct ((Z.of_nat m + 1) mod w =? 0)%Z; reflexivity.
Qed.

Lemma update_steps_snoc (w : Z) (m : nat) :
  (1 <= w)%Z ->
  update_steps (S m) w
  = filter (fun s => ((Z.of_nat s + 1) mod w =? 0)%Z) (seq 0 m) ++ [m].
Proof.
  intros Hw. unfold update_steps.
  rewrite seq_S, filter_app. cbn [filter Nat.add]. f_equal.
  - apply filter_ext_in. intros s Hs. apply in_seq in Hs.
    rewrite should_update_rule by assumption. unfold update_rule.
    replace (Z.of_nat s =? Z.of_nat (S m) - 1)%Z with false
      by (symmetry; apply Z.eqb_neq; lia).
    rewrite orb_false_r.
    now destruct ((Z.of_nat s + 1) mod w =? 0)%Z.
  - rewrite should_update_rule by assumption. unfold update_rule.
    replace (Z.of_nat m =? Z.of_nat (S m) - 1)%Z with true
      by (symmetry; apply Z.eqb_eq; lia).
    now rewrite orb_true_r.
Qed.

Lemma update_steps_count (w : Z) (n : nat) :
  (1 <= w)%Z ->
  Z.of_nat (length (update_steps n w)) = ceil_div (Z.of_nat n) w.
Proof.
  intros Hw. unfold ceil_div. destruct n as [|m].
  - simpl. symmetry. apply Z.div_small. lia.
  - rewrite update_steps_snoc, length_app, Nat2Z.inj_add, full_windows by assumption.
    simpl length.
    replace (Z.of_nat (S m) + w - 1)%Z with (Z.of_nat m + 1 * w)%Z by lia.
    rewrite Z.div_add by lia. reflexivity.
Qed.

Lemma update_steps_last (w : Z) (n : nat) :
  (1 <= w)%Z -> (1 <= n)%nat ->
  last (update_steps n w) 0%nat = (n - 1)%nat.
Proof.
  intros Hw Hn. destruct n as [|m]; [lia|].
  rewrite update_steps_snoc, last_last by assumption. lia.
Qed.

(** [ceil_div n w] is the least [k] with [n <= k * w]. *)
Lemma ceil_div_spec (n w : Z) :
  (1 <= w)%Z ->
  ((ceil_div n w - 1) * w < n <= ceil_div n w * w)%Z.
Proof.
  intros Hw. unfold ceil_div.
  pose proof (Z.div_mod (n + w - 1) w ltac:(lia)).
  pose proof (Z.mod_pos_bound (n + w - 1) w ltac:(lia)).
  nia.
Qed.

End ScheduleFacts.

Ltac unfold_blocks :=
  repeat progress
    unfold forward_and_loss, scale_loss, clip_gradient, update_parameters, pruning,
      for_evaluation, log_train_step, kd_loss_info, num_item, configured_norm,
      pruner_protocol,
      bind, act, call, forward, no_grad, peek, log, lift, ret, raise, not_mod.

Ltac split_match :=
  match goal with
  | |- context [match ?x with _ => _ end] =>
      lazymatch x with
      | context [match _ with _ => _ end] => fail
      | _ => destruct x eqn:?
      end
  end.

Ltac run_block := intros; unfold_blocks; repeat (simpl; split_match); simpl; auto.

Section BlockFacts.

Variable C : Collab.

(** *** The blocks of a training step, in closed form *)

Lemma events_clip_gradient (config : Config C) g w :
  events (clip_gradient config g w) =
  match configured_norm config with
  | Some m => [EClipGradNorm C m (snd (clip_grad_norm_ C m w))]
  | None => [EGetGradNorm C (snd (get_grad_norm C w))]
  end.
Proof. run_block; congruence. Qed.

Lemma res_clip_gradient (config : Config C) g w :
  exists norm, res (clip_gradient config g w) = Ok norm.
Proof. run_block; eauto. Qed.

Lemma res_pruning (pruner : option (Pruner C)) g w :
  res (pruning pruner g w) = Ok tt.
Proof. run_block. Qed.

Lemma events_pruning (pruner : option (Pruner C)) g w :
  events (pruning pruner g w) =
  match pruner with
  | Some p => pruner_protocol p w
  | None => []
  end.
Proof. run_block. Qed.

Lemma res_update_parameters (pruner : option (Pruner C)) g w :
  res (update_parameters pruner g w) = Ok tt.
Proof.
  unfold update_parameters.
  rewrite !res_bind. simpl. apply res_pruning.
Qed.

Lemma events_update_parameters (pruner : option (Pruner C)) g w :
  events (update_parameters pruner g w) =
  [EOptimizerStep C; ESchedulerStep C; EZeroGrad C; EProgressUpdate C]
  ++ match pruner with
     | Some p =>
         pruner_protocol p
           (progress_bar_update C
              (optimizer_zero_grad C (lr_scheduler_step C (optimizer_step C w))))
     | None => []
     end.
Proof.
  unfold update_parameters.
  rewrite !events_bind. simpl. now rewrite events_pruning.
Qed.

Lemma events_for_evaluation is_regression (out : ModelOutput (tensor C)) b g w :
  events (for_evaluation C is_regression out b g w) =
  let predictions := predictions_of C is_regression out in
  let gp := accelerator_gather C predictions w in
  EGather C predictions (snd gp)
  :: match batch_labels C b with
     | Some labels =>
         let gr := accelerator_gather C labels (fst gp) in
         [EGather C labels (snd gr); EAddBatch C (snd gp) (snd gr)]
     | None => []
     end.
Proof. run_block. Qed.

Lemma res_for_evaluation is_regression (out : ModelOutput (tensor C)) b g w :
  res (for_evaluation C is_regression out b g w) =
  match batch_labels C b with
  | Some _ => Ok tt
  | None => Raise KeyError
  end.
Proof. run_block. Qed.

Lemma events_log_train_step (config : Config C) epoch step len lr gn raw l kd g w :
  events (log_train_step config epoch step len lr gn raw l kd g w) =
  match not_mod (Z.of_nat step) (PRINT_FREQ config) with
  | Ok true =>
      match kd_loss_info kd with
      | Ok info => [ELog (LogTrainStep C epoch step len lr (item C raw) (item C l) info gn)]
      | Raise _ => []
      end
  | _ => []
  end.
Proof.
  unfold log_train_step. rewrite events_bind, events_lift, res_lift. simpl.
  destruct (not_mod _ _) as [[|]|]; try reflexivity.
  rewrite events_bind, events_lift, res_lift.
  destruct (kd_loss_info kd); reflexivity.
Qed.

Lemma events_forward_and_loss (config : Config C) teacher cls reg b g w :
  events (forward_and_loss config teacher cls reg b g w) =
  match teacher with
  | Some t =>
      match cls, reg with
      | Some _, Some _ =>
          let s := model_call C g true b w in
          [EForward C g true b (snd s);
           ETeacherForward C false true b (snd (t false true b (fst s)))]
      | _, _ => []
      end
  | None => [EForward C g false b (snd (model_call C g false b w))]
  end.
Proof. run_block. Qed.

Lemma res_forward_and_loss (config : Config C) teacher cls reg b g w :
  res (forward_and_loss config teacher cls reg b g w) =
  match teacher with
  | Some t =>
      match cls, reg with
      | Some kd_cls, Some kd_reg =>
          let s := model_call C g true b w in
          let out := snd s in
          let teacher_out := snd (t false true b (fst s)) in
          let logit_loss := kd_cls (logits out) (logits teacher_out) in
          let hs_loss :=
            layer_loss kd_reg (BEGIN_LAYER config)
              (hidden_states out) (hidden_states teacher_out) in
          let attn_loss :=
            layer_loss kd_reg (BEGIN_LAYER config)
              (attentions out) (attentions teacher_out) in
          Ok (mkComposed out
                (Some (tensor_add_num (tensor_add_num logit_loss hs_loss) attn_loss))
                (Some (logit_loss, hs_loss, attn_loss)))
      | _, _ => Raise AssertionError
      end
  | None =>
      let out := snd (model_call C g false b w) in
      Ok (mkComposed out (loss out) None)
  end.
Proof. run_block. Qed.

Lemma backward_args_app (xs ys : list (event C)) :
  backward_args (xs ++ ys) = backward_args xs ++ backward_args ys.
Proof. apply flat_map_app. Qed.

(** *** A training step, in closed form *)

Lemma train_step_events (config : Config C) epoch is_regression pruner teacher
    kd_cls_loss kd_reg_loss len step b g w :
  events (train_step config epoch is_regression pruner teacher kd_cls_loss
            kd_reg_loss len step b g w) =
  let F := forward_and_loss config teacher kd_cls_loss kd_reg_loss b g w in
  events F ++
  match res F with
  | Raise _ => []
  | Ok c =>
      match scale_loss config (loss_raw c) with
      | Raise _ => []
      | Ok scaled =>
          let K := clip_gradient config g
                     (accelerator_backward C (snd scaled) (final F)) in
          EBackward C (snd scaled) :: events K ++
          match res K with
          | Raise _ => []
          | Ok grad_norm =>
              match should_update step len (GRADIENT_ACCUMULATION_STEPS config) with
              | Raise _ => []
              | Ok update =>
                  let U := (if update then update_parameters pruner else ret C tt)
                             g (final K) in
                  let E := for_evaluation C is_regression (outputs c) b g (final U) in
                  events U ++ events E ++
                  match res E with
                  | Raise _ => []
                  | Ok _ =>
                      events (log_train_step config epoch step len
                                (optimizer_lr C (final K)) grad_norm
                                (fst scaled) (snd scaled) (kd_losses c) g (final E))
                  end
              end
          end
      end
  end.
Proof.
  unfold train_step. cbv zeta.
  rewrite events_bind. f_equal.
  destruct (res (forward_and_loss _ _ _ _ _ _ _)) as [c|]; [|reflexivity].
  rewrite events_bind, events_lift, res_lift, final_lift.
  destruct (scale_loss config (loss_raw c)) as [scaled|]; [|reflexivity].
  rewrite events_bind. cbn [act events res final app]. f_equal.
  rewrite events_bind. f_equal.
  destruct (res (clip_gradient _ _ _)) as [grad_norm|]; [|reflexivity].
  rewrite events_bind. cbn [peek events res final app].
  rewrite events_bind, events_lift, res_lift, final_lift.
  destruct (should_update _ _ _) as [update|]; [|reflexivity].
  cbn [app]. rewrite events_bind. f_equal.
  assert (HU : res ((if update then update_parameters pruner else ret C tt)
                      g (final (clip_gradient config g
                                  (accelerator_backward C (snd scaled)
                                     (final (forward_and_loss config teacher
                                               kd_cls_loss kd_reg_loss b g w))))))
               = Ok tt).
  { destruct update; [apply res_update_parameters | reflexivity]. }
  rewrite HU. rewrite events_bind. f_equal.
  destruct (res (for_evaluation _ _ _ _ _ _)); [|reflexivity].
  rewrite events_bind. cbn [ret events res final].
  destruct (res (log_train_step _ _ _ _ _ _ _ _ _ _ _)); now rewrite app_nil_r.
Qed.

Lemma train_step_res (config : Config C) epoch is_regression pruner teacher
    kd_cls_loss kd_reg_loss len step b g w :
  res (train_step config epoch is_regression pruner teacher kd_cls_loss
         kd_reg_loss len step b g w) =
  let F := forward_and_loss config teacher kd_cls_loss kd_reg_loss b g w in
  match res F with
  | Raise e => Raise e
  | Ok c =>
      match scale_loss config (loss_raw c) with
      | Raise e => Raise e
      | Ok scaled =>
          let K := clip_gradient config g
                     (accelerator_backward C (snd scaled) (final F)) in
          match res K with
          | Raise e => Raise e
          | Ok grad_norm =>
              match should_update step len (GRADIENT_ACCUMULATION_STEPS config) with
              | Raise e => Raise e
              | Ok update =>
                  let U := (if update then update_parameters pruner else ret C tt)
                             g (final K) in
                  let E := for_evaluation C is_regression (outputs c) b g (final U) in
                  match res E with
                  | Raise e => Raise e
                  | Ok _ =>
                      match res (log_train_step config epoch step len
                                   (optimizer_lr C (final K)) grad_norm
                                   (fst scaled) (snd scaled) (kd_losses c) g (final E))
                      with
                      | Raise e => Raise e
                      | Ok _ => Ok (item C (snd scaled), optimizer_lr C (final K))
                      end
                  end
              end
          end
      end
  end.
Proof.
  unfold train_step. cbv zeta.
  rewrite res_bind.
  destruct (res (forward_and_loss _ _ _ _ _ _ _)) as [c|]; [|reflexivity].
  rewrite res_bind, res_lift, final_lift.
  destruct (scale_loss config (loss_raw c)) as [scaled|]; [|reflexivity].
  rewrite res_bind. cbn [act events res final].
  rewrite res_bind.
  destruct (res (clip_gradient _ _ _)) as [grad_norm|]; [|reflexivity].
  rewrite res_bind. cbn [peek events res final].
  rewrite res_bind, res_lift, final_lift.
  destruct (should_update _ _ _) as [update|]; [|reflexivity].
  rewrite res_bind.
  assert (HU : res ((if update then update_parameters pruner else ret C tt)
                      g (final (clip_gradient config g
                                  (accelerator_backward C (snd scaled)
                                     (final (forward_and_loss config teacher
                                               kd_cls_loss kd_reg_loss b g w))))))
               = Ok tt).
  { destruct update; [apply res_update_parameters | reflexivity]. }
  rewrite HU. rewrite res_bind.
  destruct (res (for_evaluation _ _ _ _ _ _)); [|reflexivity].
  rewrite res_bind. cbn [ret events res final].
  destruct (res (log_train_step _ _ _ _ _ _ _ _ _ _ _)); reflexivity.
Qed.

Lemma events_update_or_not (update : bool) (pruner : option (Pruner C)) g w :
  events ((if update then update_parameters pruner else ret C tt) g w) =
  if update then events (update_parameters pruner g w) else [].
Proof. destruct update; reflexivity. Qed.

End BlockFacts.

(** Observers of a trace distribute over the segments of a step, and the
    segments are read in closed form. *)
Ltac read_trace :=
  cbv zeta;
  unfold count, backward_args, norm_calls, teacher_grad_modes,
    logged_raw_losses, forward_loss_items;
  repeat rewrite ?flat_map_app, ?filter_app, ?length_app,
    ?events_update_or_not, ?events_clip_gradient, ?events_update_parameters,
    ?events_for_evaluation, ?events_log_train_step, ?events_forward_and_loss;
  cbv zeta; unfold pruner_protocol; cbv zeta.

Ltac finish_trace :=
  repeat (cbn [flat_map filter app length fst snd
                 is_optimizer_step is_scheduler_step is_zero_grad
                 is_progress_update is_add_batch is_pruner_call
                 is_sparsity_log is_step_work is_update_call is_metric_call
                 pruning_related orb];
          try split_match);
  try reflexivity; try congruence.

Ltac step_cases :=
  rewrite train_step_events;
  unfold update_decision, composed_loss, scale_loss; cbv zeta;
  let HF := fresh "HF" in
  destruct (res (forward_and_loss _ _ _ _ _ _ _)) as [?c|] eqn:HF;
  [ destruct (loss_raw _) as [?raw|];
    [ cbn [fst snd];
      let HK := fresh "HK" in
      destruct (res (clip_gradient _ _ _)) as [?grad_norm|] eqn:HK;
      [ destruct (should_update _ _ _) as [[|]|]
      | exfalso;
        match type of HK with
        | res (clip_gradient ?cfg ?g ?w) = _ =>
            destruct (res_clip_gradient cfg g w); congruence
        end ]
    | ]
  | ].

Section StepFacts.

Variable C : Collab.

Lemma train_step_backward_args (config : Config C) epoch is_regression pruner
    teacher kd_cls_loss kd_reg_loss len step b g w :
  backward_args
    (events (train_step config epoch is_regression pruner teacher kd_cls_loss
               kd_reg_loss len step b g w))
  = match composed_loss config teacher kd_cls_loss kd_reg_loss b g w with
    | Some (_, raw) => [tensor_div C raw (GRADIENT_ACCUMULATION_STEPS config)]
    | None => []
    end.
Proof. step_cases; read_trace; finish_trace. Qed.

Lemma train_step_norm_calls (config : Config C) epoch is_regression pruner
    teacher kd_cls_loss kd_reg_loss len step b g w :
  norm_calls
    (events (train_step config epoch is_regression pruner teacher kd_cls_loss
               kd_reg_loss len step b g w))
  = match composed_loss config teacher kd_cls_loss kd_reg_loss b g w with
    | Some _ => [configured_norm config]
    | None => []
    end.
Proof. step_cases; read_trace; finish_trace. Qed.

Lemma train_step_count_update (p : event C -> bool) (config : Config C) epoch
    is_regression pruner teacher kd_cls_loss kd_reg_loss len step b g w :
  In p [@is_optimizer_step C; @is_scheduler_step C; @is_zero_grad C;
        @is_progress_update C] ->
  count p
    (events (train_step config epoch is_regression pruner teacher kd_cls_loss
               kd_reg_loss len step b g w))
  = match update_decision config teacher kd_cls_loss kd_reg_loss len step b g w with
    | Some (_, true) => 1
    | _ => 0
    end.
Proof.
  intros Hp. simpl in Hp.
  destruct Hp as [<-|[<-|[<-|[<-|[]]]]];
    step_cases; read_trace; finish_trace.
Qed.

Lemma app_cons_assoc A (xs : list A) x ys zs :
  xs ++ x :: ys ++ zs = (xs ++ x :: ys) ++ zs.
Proof. now rewrite <- app_assoc. Qed.

(** C7.  The pruning hooks run only on update-triggering steps, after the
    optimizer step, in a fixed order.  On a step whose update condition is
    true, the trace contains the update (optimizer step, schedule step,
    gradient zeroing, progress advance) followed at once by the protocol of
    the controller: [prune], then [_update_mask_conditions], then [sparsity]
    and its log line only when the condition holds; nothing else in the step
    touches the optimizer, the pruner or the sparsity log.  Without a
    controller the protocol is empty.  With or without a controller the
    update does not fail: it returns, having made exactly these calls, and
    the step goes on with the gather of its predictions, from the world the
    update left.  On a step whose update condition is false, or that stops
    before the condition, no such call is made. *)
Theorem pruning_hooks_on_update_steps :
  forall (config : Config C) epoch is_regression pruner teacher kd_cls_loss
         kd_reg_loss len step b g w,
    let trace :=
      events (train_step config epoch is_regression pruner teacher kd_cls_loss
                kd_reg_loss len step b g w) in
    match update_decision config teacher kd_cls_loss kd_reg_loss len step b g w with
    | Some (c, true) =>
        exists pre post w',
          let update := update_parameters pruner g w' in
          let predictions := predictions_of C is_regression (outputs c) in
          trace = pre ++ update_protocol pruner w' ++ post
          /\ filter (@pruning_related C) pre = []
          /\ filter (@pruning_related C) post = []
          /\ events update = update_protocol pruner w'
          /\ res update = Ok tt
          /\ exists rest,
               post = EGather C predictions
                        (snd (accelerator_gather C predictions (final update)))
                      :: rest
    | _ => filter (@pruning_related C) trace = []
    end.
Proof.
  intros. subst trace. step_cases.
  - eexists (_ ++ _ :: _), _, _. cbv zeta.
    split; [|split; [|split; [|split; [|split]]]].
    + cbv iota. rewrite events_update_parameters.
      rewrite app_cons_assoc. unfold update_protocol. reflexivity.
    + read_trace. finish_trace.
    + read_trace. finish_trace.
    + apply events_update_parameters.
    + apply res_update_parameters.
    + rewrite events_for_evaluation. cbv zeta. cbn [app].
      eexists. reflexivity.
  - read_trace. finish_trace.
  - read_trace. finish_trace.
  - read_trace. finish_trace.
  - read_trace. finish_trace.
Qed.

(** *** A validation step, in closed form *)

Lemma val_step_events (config : Config C) epoch is_regression teacher_mode
    len step b g w :
  events (val_step config epoch is_regression teacher_mode len step b g w) =
  let fwd := model_call C false false b w in
  EForward C false false b (snd fwd)
  :: match loss (snd fwd) with
     | None => []
     | Some l =>
         let E := for_evaluation C is_regression (snd fwd) b false (fst fwd) in
         events E ++
         match res E with
         | Raise _ => []
         | Ok _ =>
             match not_mod (Z.of_nat step) (PRINT_FREQ config) with
             | Ok true =>
                 [ELog (LogValStep C teacher_mode epoch step len (item C l))]
             | _ => []
             end
         end
     end.
Proof.
  unfold val_step. cbv zeta.
  rewrite events_bind. unfold no_grad at 1 2 3.
  rewrite events_bind, res_bind. cbn [forward events res final app]. f_equal.
  rewrite events_bind, res_bind, events_lift, res_lift, final_lift.
  destruct (loss (snd (model_call C false false b w))) as [l|]; [|reflexivity].
  cbn [app]. rewrite events_bind, res_bind.
  destruct (res (for_evaluation _ _ _ _ _ _)); [|now rewrite !app_nil_r].
  cbn [ret events res final]. rewrite app_nil_r.
  rewrite events_bind, events_lift, res_lift, final_lift. cbn [app].
  f_equal.
  destruct (not_mod _ _) as [[|]|]; reflexivity.
Qed.

Lemma metric_protocol_for_evaluation is_regression (out : ModelOutput (tensor C))
    b labels g w :
  batch_labels C b = Some labels ->
  events (for_evaluation C is_regression out b g w)
  = metric_protocol C is_regression out labels w.
Proof.
  intros H. rewrite events_for_evaluation, H.
  unfold metric_protocol, predictions_of. now destruct is_regression.
Qed.

Lemma app_cons_assoc2 A (xs : list A) x ys us zs :
  xs ++ x :: ys ++ us ++ zs = (xs ++ x :: ys ++ us) ++ zs.
Proof. now rewrite <- app_assoc, <- app_comm_cons, <- app_assoc. Qed.

Lemma forward_and_loss_outputs (config : Config C) teacher cls reg b g w c :
  res (forward_and_loss config teacher cls reg b g w) = Ok c ->
  outputs c
  = snd (model_call C g (match teacher with Some _ => true | None => false end) b w).
Proof.
  rewrite res_forward_and_loss.
  destruct teacher; [destruct cls; [destruct reg|]|]; cbv zeta;
    intros H; inversion H; reflexivity.
Qed.

(** C8.  In [train] and in [val], the predictions given to the metric
    accumulator are the argmax of the logits of the step's forward pass when
    [is_regression] is false and the squeezed logits when it is true;
    predictions and labels are each passed through [accelerator.gather], and
    [add_batch] is called right after on the two gathered tensors.  A step
    that stops earlier, or whose batch has no labels, adds no batch. *)
Theorem predictions_gathered_before_add_batch :
  forall (config : Config C) epoch is_regression teacher_mode pruner teacher
         kd_cls_loss kd_reg_loss len step b g w,
    (let trace :=
       events (train_step config epoch is_regression pruner teacher kd_cls_loss
                 kd_reg_loss len step b g w) in
     match update_decision config teacher kd_cls_loss kd_reg_loss len step b g w,
           batch_labels C b with
     | Some (c, _), Some labels =>
         outputs c
         = snd (model_call C g (match teacher with Some _ => true | None => false end)
                  b w)
         /\ exists pre post w',
             trace = pre ++ metric_protocol C is_regression (outputs c) labels w' ++ post
             /\ filter (@is_metric_call C) pre = []
             /\ filter (@is_metric_call C) post = []
     | _, _ => filter (@is_add_batch C) trace = []
     end)
    /\
    (let trace :=
       events (val_step config epoch is_regression teacher_mode len step b g w) in
     let out := snd (model_call C false false b w) in
     match loss out, batch_labels C b with
     | Some _, Some labels =>
         exists pre post w',
           trace = pre ++ metric_protocol C is_regression out labels w' ++ post
           /\ filter (@is_metric_call C) pre = []
           /\ filter (@is_metric_call C) post = []
     | _, _ => filter (@is_add_batch C) trace = []
     end).
Proof.
  intros. split.
  - intros trace. subst trace.
    destruct (batch_labels C b) as [labels|] eqn:Hl.
    + step_cases;
        lazymatch goal with
        | |- _ /\ _ =>
            (split; [eapply forward_and_loss_outputs; eassumption|]);
            eexists (_ ++ _ :: _ ++ _), _, _;
            (split; [|split]);
            [ rewrite app_cons_assoc2,
                (metric_protocol_for_evaluation _ _ _ _ _ Hl); reflexivity
            | read_trace; finish_trace
            | rewrite res_for_evaluation, Hl; read_trace; finish_trace ]
        | |- _ => read_trace; rewrite ?Hl; finish_trace
        end.
    + assert (Hnone :
        filter (@is_add_batch C)
          (events (train_step config epoch is_regression pruner teacher
                     kd_cls_loss kd_reg_loss len step b g w)) = []).
      { rewrite train_step_events. cbv zeta.
        repeat split_match; read_trace; rewrite ?Hl; finish_trace. }
      destruct (update_decision _ _ _ _ _ _ _ _ _) as [[? ?]|]; exact Hnone.
  - intros trace out. subst trace out. rewrite val_step_events. cbv zeta.
    destruct (loss _) as [l|]; [|reflexivity].
    destruct (batch_labels C b) as [labels|] eqn:Hl.
    + eexists [_], _, _. split; [|split].
      * rewrite (metric_protocol_for_evaluation _ _ _ _ _ Hl). reflexivity.
      * reflexivity.
      * rewrite res_for_evaluation, Hl. finish_trace.
    + read_trace. rewrite ?Hl. finish_trace.
Qed.

(** *** The distillation loss *)





(** C2.  At every training step that composes a loss, on updating and on
    accumulating steps alike, [accelerator.backward] is called exactly once,
    on the raw composed loss divided by
    [config.TRAIN.GRADIENT_ACCUMULATION_STEPS]; a step that composes no loss
    calls it not at all. *)
Theorem backward_gets_scaled_loss :
  forall (config : Config C) epoch is_regression pruner teacher kd_cls_loss
         kd_reg_loss len step b g w,
    backward_args
      (events (train_step config epoch is_regression pruner teacher kd_cls_loss
                 kd_reg_loss len step b g w))
    = match composed_loss config teacher kd_cls_loss kd_reg_loss b g w with
      | Some (_, raw) => [tensor_div C raw (GRADIENT_ACCUMULATION_STEPS config)]
      | None => []
      end.
Proof. intros. apply train_step_backward_args. Qed.

(** C5, amended.  The gradient norm is clipped (when a truthy max-norm is
    configured, with that max-norm) or measured (otherwise) exactly once on
    every training step that reaches [accelerator.backward], right after that
    call, whatever the update condition of the step turns out to be. *)
Theorem gradient_norm_on_every_step :
  forall (config : Config C) epoch is_regression pruner teacher kd_cls_loss
         kd_reg_loss len step b g w,
    let trace :=
      events (train_step config epoch is_regression pruner teacher kd_cls_loss
                kd_reg_loss len step b g w) in
    match composed_loss config teacher kd_cls_loss kd_reg_loss b g w with
    | Some (_, raw) =>
        norm_calls trace = [configured_norm config]
        /\ exists pre post w',
            trace = pre
                    ++ EBackward C (tensor_div C raw (GRADIENT_ACCUMULATION_STEPS config))
                       :: events (clip_gradient config g w') ++ post
            /\ norm_calls pre = []
            /\ norm_calls post = []
    | None => norm_calls trace = []
    end.
Proof.
  intros. subst trace.
  pose proof (train_step_norm_calls config epoch is_regression pruner teacher
                kd_cls_loss kd_reg_loss len step b g w) as Hn.
  revert Hn. step_cases; intros Hn;
    lazymatch goal with
    | |- _ /\ _ =>
        split;
        [ exact Hn
        | eexists _, _, _; split; [reflexivity|split];
          read_trace; finish_trace ]
    | |- _ => read_trace; finish_trace
    end.
Qed.

(** *** What a completed step did *)

Lemma train_step_ok (config : Config C) epoch is_regression pruner teacher
    kd_cls_loss kd_reg_loss len step b g w r :
  res (train_step config epoch is_regression pruner teacher kd_cls_loss
         kd_reg_loss len step b g w) = Ok r ->
  exists c raw update,
    composed_loss config teacher kd_cls_loss kd_reg_loss b g w = Some (c, raw)
    /\ should_update step len (GRADIENT_ACCUMULATION_STEPS config) = Ok update
    /\ update_decision config teacher kd_cls_loss kd_reg_loss len step b g w
       = Some (c, update)
    /\ fst r = item C (tensor_div C raw (GRADIENT_ACCUMULATION_STEPS config)).
Proof.
  rewrite train_step_res. unfold update_decision, composed_loss, scale_loss.
  cbv zeta.
  destruct (res (forward_and_loss _ _ _ _ _ _ _)) as [c|]; [|discriminate].
  destruct (loss_raw c) as [raw|]; [|discriminate]. cbn [fst snd].
  destruct (res (clip_gradient _ _ _)); [|discriminate].
  destruct (should_update _ _ _) as [update|]; [|discriminate].
  destruct (res (for_evaluation _ _ _ _ _ _)); [|discriminate].
  destruct (res (log_train_step _ _ _ _ _ _ _ _ _ _ _)); [|discriminate].
  intros H. inversion H. exists c, raw, update. auto.
Qed.

Lemma val_step_ok (config : Config C) epoch is_regression teacher_mode
    len step b g w x :
  res (val_step config epoch is_regression teacher_mode len step b g w) = Ok x ->
  forward_loss_items
    (events (val_step config epoch is_regression teacher_mode len step b g w))
  = [x].
Proof.
  rewrite val_step_events. unfold val_step. cbv zeta.
  rewrite res_bind. unfold no_grad at 1.
  rewrite res_bind. cbn [forward events res final].
  rewrite res_bind, res_lift, final_lift.
  destruct (loss (snd (model_call C false false b w))) as [l|] eqn:Hl;
    [|discriminate].
  rewrite res_bind.
  destruct (res (for_evaluation _ _ _ _ _ _)) eqn:HE; [|discriminate].
  cbn [ret events res final].
  rewrite res_bind, res_lift, final_lift.
  destruct (not_mod _ _) as [due|] eqn:Hd; [|discriminate].
  rewrite res_bind.
  assert (Hlog : forall m (w0 : world C),
             res ((if due then log m else ret C tt) g w0) = Ok tt)
    by (destruct due; reflexivity).
  rewrite Hlog. cbn [ret res]. intros H. inversion H. subst x.
  unfold forward_loss_items. cbn [flat_map]. rewrite Hl.
  rewrite flat_map_app, events_for_evaluation. cbv zeta.
  destruct (batch_labels C b); destruct due; reflexivity.
Qed.

End StepFacts.

Section LoopFacts.

Variable C : Collab.
Variables A St : Type.
Variable body : nat -> A -> St -> M C St.

(** A property of traces that holds of every iteration, and is kept by
    concatenation, holds of the loop, whether it completes or raises. *)
Lemma for_enumerate_always (Q : list (event C) -> Prop) :
  Q [] ->
  (forall e1 e2, Q e1 -> Q e2 -> Q (e1 ++ e2)) ->
  (forall step x s g w, Q (events (body step x s g w))) ->
  forall xs step s g w, Q (events (for_enumerate body step xs s g w)).
Proof.
  intros Hnil Happ Hbody xs.
  induction xs as [|x xs IH]; intros step s g w; cbn [for_enumerate].
  - exact Hnil.
  - rewrite events_bind. apply Happ; [apply Hbody|].
    destruct (res (body step x s g w)); [apply IH | exact Hnil].
Qed.

(** A relation between the local state before, the trace, and the local
    state after, that holds of every completed iteration and composes, holds
    of every completed loop. *)
Lemma for_enumerate_ok (J : nat -> nat -> St -> list (event C) -> St -> Prop) :
  (forall k s, J k 0%nat s [] s) ->
  (forall k n s e1 s1 e2 s2,
      J k 1%nat s e1 s1 -> J (S k) n s1 e2 s2 -> J k (S n) s (e1 ++ e2) s2) ->
  (forall step x s g w s',
      res (body step x s g w) = Ok s' ->
      J step 1%nat s (events (body step x s g w)) s') ->
  forall xs step s g w s',
    res (for_enumerate body step xs s g w) = Ok s' ->
    J step (length xs) s (events (for_enumerate body step xs s g w)) s'.
Proof.
  intros Hnil Hcomp Hbody xs.
  induction xs as [|x xs IH]; intros step s g w s' Hok; cbn [for_enumerate] in *.
  - cbn in Hok. inversion Hok. subst. apply Hnil.
  - apply bind_ok in Hok. destruct Hok as (s1 & H1 & H2 & He & _).
    rewrite He. cbn [length]. eapply Hcomp; eauto.
Qed.

End LoopFacts.

Section TrainFacts.

Variable C : Collab.

Variable config : Config C.
Variable epoch : Z.
Variable is_regression : bool.
Variable pruner : option (Pruner C).
Variable teacher : option (module C).
Variables kd_cls_loss kd_reg_loss : option (loss_fn C).

#[local] Abbreviation train_body :=
  (train_body config epoch is_regression pruner teacher kd_cls_loss kd_reg_loss).

Lemma train_body_ok len step b logs g w logs' :
  res (train_body len step b logs g w) = Ok logs' ->
  exists r,
    res (train_step config epoch is_regression pruner teacher kd_cls_loss
           kd_reg_loss len step b g w) = Ok r
    /\ logs' = (fst logs ++ [fst r], snd logs ++ [snd r])
    /\ events (train_body len step b logs g w)
       = events (train_step config epoch is_regression pruner teacher kd_cls_loss
                   kd_reg_loss len step b g w).
Proof.
  unfold train_body.
  intros H. apply bind_ok in H. destruct H as (r & H1 & H2 & He & _).
  exists r. split; [exact H1|]. cbn in H2. inversion H2. split; [reflexivity|].
  rewrite He. cbn. apply app_nil_r.
Qed.

Lemma train_body_events len step b logs g w :
  events (train_body len step b logs g w)
  = events (train_step config epoch is_regression pruner teacher kd_cls_loss
              kd_reg_loss len step b g w).
Proof.
  unfold train_body. rewrite events_bind.
  destruct (res _); cbn; apply app_nil_r.
Qed.

(** A completed epoch: the loop completed, the mean was defined, and the
    trace is the loop's between the mode switch and the epoch summary. *)
Lemma train_ok dataloader g w train_loss results step_lr :
  res (train config epoch is_regression pruner teacher kd_cls_loss kd_reg_loss
         dataloader g w) = Ok (train_loss, results, step_lr) ->
  exists logs,
    let loop := for_enumerate (train_body (length dataloader)) 0 dataloader
                  ([], []) g (model_train C w) in
    res loop = Ok logs
    /\ py_mean C (fst logs) = Ok train_loss
    /\ step_lr = snd logs
    /\ events (train config epoch is_regression pruner teacher kd_cls_loss
                 kd_reg_loss dataloader g w)
       = EModelTrain C :: events loop
         ++ [ECompute C results; ELog (LogTrainEpoch C epoch train_loss results);
             EEmptyCache C].
Proof.
  unfold train.
  intros H. cbv zeta.
  rewrite events_bind. rewrite res_bind in H.
  cbn [act events res final app] in *.
  rewrite events_bind. rewrite res_bind in H.
  destruct (res (for_enumerate _ _ _ _ _ _)) as [logs|]; [|discriminate].
  rewrite events_bind, events_lift, res_lift, final_lift.
  rewrite res_bind, res_lift, final_lift in H.
  destruct (py_mean C (fst logs)) as [tl|] eqn:Hmean; [|discriminate].
  rewrite !events_bind. rewrite !res_bind in H.
  cbn [call log act ret events res final app] in *.
  inversion H. subst.
  exists logs. repeat split; auto.
Qed.

(** The steps of a completed loop of [train], counted. *)
Lemma train_loop_count_update (p : event C -> bool) len dataloader :
  In p [@is_optimizer_step C; @is_scheduler_step C; @is_zero_grad C;
        @is_progress_update C] ->
  forall step logs g w logs',
    res (for_enumerate (train_body len) step dataloader logs g w) = Ok logs' ->
    count p (events (for_enumerate (train_body len) step dataloader logs g w))
    = length (filter (fun s => match should_update s len
                                       (GRADIENT_ACCUMULATION_STEPS config) with
                               | Ok true => true
                               | _ => false
                               end) (seq step (length dataloader))).
Proof.
  intros Hp step logs g w logs' Hok.
  apply (for_enumerate_ok (train_body len)
           (fun k n (_ : list (pyfloat C) * list (pyfloat C)) evs _ =>
              count p evs
              = length (filter (fun s => match should_update s len
                                                 (GRADIENT_ACCUMULATION_STEPS config) with
                                         | Ok true => true
                                         | _ => false
                                         end) (seq k n)))) with (s' := logs');
    [reflexivity | | | exact Hok].
  - intros k n _ e1 _ e2 _ H1 H2. unfold count in *.
    rewrite filter_app, length_app, H1, H2.
    cbn [seq filter].
    destruct (should_update k len _) as [[|]|]; reflexivity.
  - intros k x s g0 w0 s' H.
    apply train_body_ok in H. destruct H as (r & Hr & _ & He).
    rewrite He, train_step_count_update by exact Hp.
    apply train_step_ok in Hr. destruct Hr as (c & raw & u & _ & Hu & Hd & _).
    rewrite Hd. cbn [seq filter]. rewrite Hu. destruct u; reflexivity.
Qed.

(** C1.  For an accumulation window [w >= 1] and an epoch of [n >= 1]
    steps: the update condition of line 79 is true at step [s] exactly when
    [(s + 1) mod w = 0] or [s = n - 1]; the steps on which it is true number
    [ceil(n / w)], and the last of them is the final step.  Each of the
    optimizer step, the schedule step, the gradient zeroing and the progress
    advance occurs once on a step that takes the update and not at all on any
    other step, and [ceil(n / w)] times in an epoch that completes. *)
Theorem update_schedule :
  forall (dataloader : list (batch C)) g w,
    let window := GRADIENT_ACCUMULATION_STEPS config in
    let n := length dataloader in
    (1 <= window)%Z ->
    (1 <= n)%nat ->
    (forall step, should_update step n window = Ok (update_rule step n window))
    /\ Z.of_nat (length (update_steps n window)) = ceil_div (Z.of_nat n) window
    /\ last (update_steps n window) 0%nat = (n - 1)%nat
    /\ (forall p,
           In p [@is_optimizer_step C; @is_scheduler_step C; @is_zero_grad C;
                 @is_progress_update C] ->
           (forall step b g' w',
               count p
                 (events (train_step config epoch is_regression pruner teacher
                            kd_cls_loss kd_reg_loss n step b g' w'))
               = match update_decision config teacher kd_cls_loss kd_reg_loss
                         n step b g' w' with
                 | Some (_, true) => 1%nat
                 | _ => 0%nat
                 end)
           /\ (forall r,
                  res (train config epoch is_regression pruner teacher kd_cls_loss
                         kd_reg_loss dataloader g w) = Ok r ->
                  Z.of_nat
                    (count p
                       (events (train config epoch is_regression pruner teacher
                                  kd_cls_loss kd_reg_loss dataloader g w)))
                  = ceil_div (Z.of_nat n) window)).
Proof.
  intros dataloader g w window n Hw Hn.
  split; [intros; now apply should_update_rule|].
  split; [now apply update_steps_count|].
  split; [now apply update_steps_last|].
  intros p Hp. split.
  - intros. now apply train_step_count_update.
  - intros [[tl rs] lrs] Hok.
    apply train_ok in Hok. destruct Hok as (logs & Hloop & _ & _ & He).
    rewrite He. unfold count. cbn [filter].
    assert (Hhead : p (EModelTrain C) = false)
      by (simpl in Hp; destruct Hp as [<-|[<-|[<-|[<-|[]]]]]; reflexivity).
    rewrite Hhead, filter_app, length_app.
    assert (Htail :
      filter p [ECompute C rs; ELog (LogTrainEpoch C epoch tl rs); EEmptyCache C]
      = [])
      by (simpl in Hp; destruct Hp as [<-|[<-|[<-|[<-|[]]]]]; reflexivity).
    rewrite Htail. cbn [length]. rewrite Nat.add_0_r.
    fold (count p (events (for_enumerate (train_body (length dataloader)) 0
                             dataloader ([], []) g (model_train C w)))).
    rewrite (train_loop_count_update _ _ Hp _ _ _ _ Hloop).
    fold (update_steps (length dataloader) window).
    now apply update_steps_count.
Qed.

(** The losses appended to [batch_loss] by a completed loop of [train] are
    the [.item()] of the tensors passed to [accelerator.backward], one per
    batch. *)
Lemma train_loop_batch_loss len dataloader step logs g w logs' :
  res (for_enumerate (train_body len) step dataloader logs g w) = Ok logs' ->
  let trace := events (for_enumerate (train_body len) step dataloader logs g w) in
  fst logs' = fst logs ++ map (item C) (backward_args trace)
  /\ length (backward_args trace) = length dataloader.
Proof.
  intros Hok.
  apply (for_enumerate_ok (train_body len)
           (fun (k n : nat) s evs s' =>
              fst s' = fst s ++ map (item C) (backward_args evs)
              /\ length (backward_args evs) = n)) with (s' := logs');
    [ | | | exact Hok].
  - intros. cbn. now rewrite app_nil_r.
  - intros k n s e1 s1 e2 s2 [H1 L1] [H2 L2].
    rewrite backward_args_app, map_app, length_app, H2, H1, L1, L2.
    now rewrite app_assoc.
  - intros k x s g0 w0 s' H.
    apply train_body_ok in H. destruct H as (r & Hr & -> & He).
    rewrite He, train_step_backward_args.
    apply train_step_ok in Hr. destruct Hr as (c & raw & u & Hc & _ & _ & Hi).
    rewrite Hc. cbn. now rewrite Hi.
Qed.

Lemma py_mean_ok (xs : list (pyfloat C)) m :
  py_mean C xs = Ok m -> m = arithmetic_mean C xs.
Proof.
  unfold py_mean, arithmetic_mean, py_sum.
  destruct xs; [discriminate|]. intros H. now inversion H.
Qed.

Lemma train_mean_loss dataloader g w train_loss results step_lr :
  res (train config epoch is_regression pruner teacher kd_cls_loss kd_reg_loss
         dataloader g w) = Ok (train_loss, results, step_lr) ->
  let batch_loss :=
    map (item C)
      (backward_args
         (events (train config epoch is_regression pruner teacher kd_cls_loss
                    kd_reg_loss dataloader g w))) in
  length batch_loss = length dataloader
  /\ train_loss = arithmetic_mean C batch_loss.
Proof.
  intros Hok. apply train_ok in Hok.
  destruct Hok as (logs & Hloop & Hmean & _ & He).
  apply train_loop_batch_loss in Hloop. destruct Hloop as [Hl Hn].
  cbv zeta. rewrite He.
  change (EModelTrain C :: ?l) with ([EModelTrain C] ++ l).
  rewrite !backward_args_app. cbn [backward_args flat_map app].
  rewrite app_nil_r, length_map. split; [exact Hn|].
  apply py_mean_ok in Hmean. now rewrite Hl in Hmean.
Qed.

End TrainFacts.

Section ValFacts.

Variable C : Collab.

Variable config : Config C.
Variable epoch : Z.
Variables is_regression teacher_mode : bool.

#[local] Abbreviation val_body :=
  (val_body config epoch is_regression teacher_mode).

Lemma val_loop_batch_loss len dataloader step batch_loss g w batch_loss' :
  res (for_enumerate (val_body len) step dataloader batch_loss g w)
  = Ok batch_loss' ->
  let trace :=
    events (for_enumerate (val_body len) step dataloader batch_loss g w) in
  batch_loss' = batch_loss ++ forward_loss_items trace
  /\ length (forward_loss_items trace) = length dataloader.
Proof.
  intros Hok.
  apply (for_enumerate_ok (val_body len)
           (fun (k n : nat) s evs s' =>
              s' = s ++ forward_loss_items evs
              /\ length (forward_loss_items evs) = n)) with (s' := batch_loss');
    [ | | | exact Hok].
  - intros. cbn. now rewrite app_nil_r.
  - intros k n s e1 s1 e2 s2 [H1 L1] [H2 L2].
    unfold forward_loss_items in *.
    rewrite flat_map_app, length_app, H2, H1, L1, L2.
    now rewrite app_assoc.
  - intros k x s g0 w0 s'. unfold val_body. intros H.
    apply bind_ok in H. destruct H as (l & Hl & H2 & He & _).
    cbn in H2. inversion H2. rewrite He. cbn [ret events].
    rewrite app_nil_r, (val_step_ok _ _ _ _ _ _ _ _ _ Hl). auto.
Qed.

Lemma val_mean_loss dataloader g w val_loss results :
  res (val config epoch is_regression teacher_mode dataloader g w)
  = Ok (val_loss, results) ->
  let batch_loss :=
    forward_loss_items
      (events (val config epoch is_regression teacher_mode dataloader g w)) in
  length batch_loss = length dataloader
  /\ val_loss = arithmetic_mean C batch_loss.
Proof.
  unfold val.
  intros H. cbv zeta.
  rewrite events_bind. rewrite res_bind in H.
  cbn [act events res final app] in *.
  rewrite events_bind. rewrite res_bind in H.
  destruct (res (for_enumerate _ _ _ _ _ _)) as [bl|] eqn:Hloop; [|discriminate].
  rewrite events_bind, events_lift, res_lift, final_lift.
  rewrite res_bind, res_lift, final_lift in H.
  destruct (py_mean C bl) as [vl|] eqn:Hmean; [|discriminate].
  rewrite !events_bind. rewrite !res_bind in H.
  cbn [call log act ret events res final app] in *.
  inversion H. subst.
  apply val_loop_batch_loss in Hloop. destruct Hloop as [Hl Hn].
  unfold forward_loss_items in *. cbn [flat_map app].
  rewrite flat_map_app. cbn [flat_map app]. rewrite app_nil_r.
  split; [exact Hn|].
  apply py_mean_ok in Hmean. now rewrite Hl in Hmean.
Qed.

End ValFacts.

(** C6.  When [train] returns, its mean loss is the sum of the per-step
    losses recorded during the epoch (the [.item()] of each tensor passed to
    [accelerator.backward]) divided by their number, one loss per batch; when
    [val] returns, its mean loss is the sum of the per-step losses (the
    [.item()] of the task loss of each forward pass) divided by their number,
    one loss per batch. *)
Theorem epoch_loss_is_mean_of_step_losses :
  forall (C : Collab) (config : Config C) epoch is_regression teacher_mode pruner
         teacher kd_cls_loss kd_reg_loss dataloader g w,
    (forall train_loss results step_lr,
        res (train config epoch is_regression pruner teacher kd_cls_loss
               kd_reg_loss dataloader g w) = Ok (train_loss, results, step_lr) ->
        let batch_loss :=
          map (item C)
            (backward_args
               (events (train config epoch is_regression pruner teacher
                          kd_cls_loss kd_reg_loss dataloader g w))) in
        length batch_loss = length dataloader
        /\ train_loss = arithmetic_mean C batch_loss)
    /\ (forall val_loss results,
           res (val config epoch is_regression teacher_mode dataloader g w)
           = Ok (val_loss, results) ->
           let batch_loss :=
             forward_loss_items
               (events (val config epoch is_regression teacher_mode dataloader g w)) in
           length batch_loss = length dataloader
           /\ val_loss = arithmetic_mean C batch_loss).
Proof.
  intros. split; intros.
  - eapply train_mean_loss; eassumption.
  - eapply val_mean_loss; eassumption.
Qed.

Section KdFacts.

Variable C : Collab.

Lemma train_step_assertion (config : Config C) epoch is_regression pruner
    (teacher : module C) kd_cls_loss kd_reg_loss len step b g w :
  kd_cls_loss = None \/ kd_reg_loss = None ->
  let o := train_step config epoch is_regression pruner (Some teacher)
             kd_cls_loss kd_reg_loss len step b g w in
  res o = Raise AssertionError /\ events o = [].
Proof.
  intros H. cbv zeta.
  rewrite train_step_res, train_step_events. cbv zeta.
  rewrite res_forward_and_loss, events_forward_and_loss.
  destruct H as [-> | ->]; [|destruct kd_cls_loss]; auto.
Qed.

(** C9.  When a teacher is supplied and [kd_cls_loss] or [kd_reg_loss] is
    missing, [train] raises before any step does any work: the only call it
    has made is [model.train()]; no forward pass, backward pass, optimizer
    update, gather or metric accumulation precedes the failure (the assertion
    on the first batch, or the division by zero when there is no batch). *)
Theorem kd_without_sub_losses_fails_fast :
  forall (config : Config C) epoch is_regression pruner (teacher : module C)
         kd_cls_loss kd_reg_loss dataloader g w,
    kd_cls_loss = None \/ kd_reg_loss = None ->
    let o := train config epoch is_regression pruner (Some teacher)
               kd_cls_loss kd_reg_loss dataloader g w in
    res o = Raise (match dataloader with
                   | [] => ZeroDivisionError
                   | _ :: _ => AssertionError
                   end)
    /\ events o = [EModelTrain C]
    /\ filter (@is_step_work C) (events o) = [].
Proof.
  intros config epoch is_regression pruner teacher kd_cls_loss kd_reg_loss
         dataloader g w H o.
  assert (Ho : res o = Raise (match dataloader with
                              | [] => ZeroDivisionError
                              | _ :: _ => AssertionError
                              end)
               /\ events o = [EModelTrain C]).
  { subst o. unfold train. rewrite res_bind, events_bind.
    cbn [act events res final].
    destruct dataloader as [|b rest].
    - split; reflexivity.
    - destruct (train_step_assertion config epoch is_regression pruner teacher
                  (length (b :: rest)) 0 b g (model_train C w) H) as [Hr He].
      cbv zeta in Hr, He.
      rewrite res_bind, events_bind. cbn [for_enumerate]. unfold train_body.
      rewrite res_bind, events_bind, res_bind, events_bind, Hr, He.
      split; reflexivity. }
  destruct Ho as [Hr He]. rewrite Hr, He. repeat split.
Qed.

(** *** The teacher runs without gradient tracking *)

Lemma train_step_teacher_grad_modes (config : Config C) epoch is_regression
    pruner teacher kd_cls_loss kd_reg_loss len step b g w :
  Forall (fun mode => mode = false)
    (teacher_grad_modes
       (events (train_step config epoch is_regression pruner teacher kd_cls_loss
                  kd_reg_loss len step b g w))).
Proof.
  rewrite train_step_events. cbv zeta.
  repeat split_match; read_trace; finish_trace; repeat constructor.
Qed.

Lemma train_teacher_grad_modes (config : Config C) epoch is_regression
    pruner teacher kd_cls_loss kd_reg_loss dataloader g w :
  Forall (fun mode => mode = false)
    (teacher_grad_modes
       (events (train config epoch is_regression pruner teacher kd_cls_loss
                  kd_reg_loss dataloader g w))).
Proof.
  unfold train. rewrite events_bind. cbn [act events res final app].
  rewrite events_bind. unfold teacher_grad_modes.
  cbn [flat_map app]. rewrite flat_map_app. apply Forall_app. split.
  - apply for_enumerate_always with
      (Q := fun evs => Forall (fun mode => mode = false)
                         (flat_map (fun e : event C =>
                                      match e with
                                      | ETeacherForward _ m _ _ _ => [m]
                                      | _ => []
                                      end) evs)).
    + constructor.
    + intros e1 e2 H1 H2. rewrite flat_map_app. apply Forall_app. now split.
    + intros step x s g0 w0. unfold train_body.
      rewrite events_bind, flat_map_app.
      apply Forall_app. split; [apply train_step_teacher_grad_modes|].
      destruct (res _); constructor.
  - destruct (res (for_enumerate _ _ _ _ _ _)); [|constructor].
    rewrite events_bind, events_lift, res_lift. cbn [app].
    destruct (py_mean _ _); [|constructor].
    rewrite !events_bind. cbn. constructor.
Qed.

End KdFacts.

Section FrameFacts.

Variable C : Collab.
Variable V : Type.
Variable view : world C -> V.
Variable tracks : tensor C -> bool.

Lemma framed_bind g A B (Q : A -> Prop) (R : B -> Prop) (m : M C A) (f : A -> M C B) :
  framed view g Q m ->
  (forall a, Q a -> framed view g R (f a)) ->
  framed view g R (bind m f).
Proof.
  intros Hm Hf w. destruct (Hm w) as [Hv Hq].
  rewrite final_bind, res_bind.
  destruct (res (m g w)) as [a|e].
  - destruct (Hf a (Hq a eq_refl) (final (m g w))) as [Hv' Hq'].
    split; [congruence | exact Hq'].
  - split; [exact Hv | discriminate].
Qed.

Lemma framed_ret g A (Q : A -> Prop) a : Q a -> framed view g Q (ret C a).
Proof.
  intros H w. split; [reflexivity|]. cbn. intros a0 E.
  inversion E. subst. exact H.
Qed.

Lemma framed_lift g A (Q : A -> Prop) (r : result A) :
  (forall a, r = Ok a -> Q a) -> framed view g Q (lift C r).
Proof.
  intros H w. rewrite final_lift, res_lift. split; [reflexivity | exact H].
Qed.

Lemma framed_act g e (f : world C -> world C) :
  keeps C view f -> framed view g (fun _ => True) (act e f).
Proof. intros H w. split; [apply H | trivial]. Qed.

Lemma framed_call g A (e : A -> event C) (f : world C -> world C * A) :
  keeps_ret C view f -> framed view g (fun _ => True) (call e f).
Proof. intros H w. split; [apply H | trivial]. Qed.

Lemma framed_log g m : framed view g (fun _ => True) (log (C := C) m).
Proof. intros w. split; [reflexivity | trivial]. Qed.

Lemma framed_peek g A (f : world C -> A) : framed view g (fun _ => True) (peek C f).
Proof. intros w. split; [reflexivity | trivial]. Qed.

Lemma framed_any g A (Q : A -> Prop) (m : M C A) :
  framed view g Q m -> framed view g (fun _ => True) m.
Proof. intros H w. split; [apply H | trivial]. Qed.

Lemma Forall_skipn_keep A (P : A -> Prop) n (xs : list A) :
  Forall P xs -> Forall P (skipn n xs).
Proof.
  revert xs. induction n as [|n IH]; intros xs H; [exact H|].
  destruct xs; [constructor|]. inversion H. now apply IH.
Qed.

Lemma Forall_slice_from A (P : A -> Prop) z (xs : list A) :
  Forall P xs -> Forall P (slice_from z xs).
Proof. unfold slice_from. destruct (z <? 0)%Z; apply Forall_skipn_keep. Qed.

Section UnderContract.

Variable teacher : module C.
Variables kd_cls_loss kd_reg_loss : loss_fn C.
Variable pruner : option (Pruner C).
Hypothesis contract :
  autograd_contract view tracks teacher kd_cls_loss kd_reg_loss pruner.

Lemma num_add_tensor_untracked acc t :
  untracked_num tracks acc -> tracks t = false ->
  untracked_num tracks (num_add_tensor acc t).
Proof.
  destruct acc; cbn; intros Ha Ht.
  - now apply (float_add_untracked contract).
  - now apply (add_untracked contract).
Qed.

Lemma tensor_add_num_untracked t n :
  tracks t = false -> untracked_num tracks n ->
  tracks (tensor_add_num t n) = false.
Proof.
  destruct n; cbn; intros Ht Hn.
  - now apply (add_float_untracked contract).
  - now apply (add_untracked contract).
Qed.

Lemma sum_pairs_untracked pairs acc :
  untracked_num tracks acc ->
  Forall (fun p => tracks (fst p) = false /\ tracks (snd p) = false) pairs ->
  untracked_num tracks
    (fold_left (fun a p => num_add_tensor a (kd_reg_loss (fst p) (snd p)))
       pairs acc).
Proof.
  revert acc. induction pairs as [|p pairs IH]; intros acc Ha Hp; [exact Ha|].
  inversion Hp as [|? ? [H1 H2] Hrest]; subst. cbn. apply IH; [|exact Hrest].
  apply num_add_tensor_untracked; [exact Ha|].
  now apply (reg_untracked contract).
Qed.

Lemma Forall_combine (P : tensor C -> Prop) xs ys :
  Forall P xs -> Forall P ys ->
  Forall (fun p => P (fst p) /\ P (snd p)) (combine xs ys).
Proof.
  intros Hx Hy. apply Forall_forall. intros [x y] Hin. cbn. split.
  - apply in_combine_l in Hin. now apply (proj1 (Forall_forall _ _) Hx).
  - apply in_combine_r in Hin. now apply (proj1 (Forall_forall _ _) Hy).
Qed.

Lemma layer_loss_untracked z xs ys :
  Forall (fun t => tracks t = false) xs ->
  Forall (fun t => tracks t = false) ys ->
  untracked_num tracks (layer_loss kd_reg_loss z xs ys).
Proof.
  intros Hx Hy. unfold layer_loss. apply sum_pairs_untracked; [exact I|].
  apply Forall_combine with (P := fun t => tracks t = false);
    now apply Forall_slice_from.
Qed.

(** The forward block in distillation mode leaves the teacher alone and
    composes a loss without a gradient path into the teacher. *)
Lemma forward_and_loss_framed (config : Config C) b g :
  framed view g
    (fun c => forall raw, loss_raw c = Some raw -> tracks raw = false)
    (forward_and_loss config (Some teacher) (Some kd_cls_loss) (Some kd_reg_loss) b).
Proof.
  intros w. unfold forward_and_loss, bind, no_grad, forward, ret.
  cbn [events res final].
  destruct (student_forward contract g true b w) as [Hv1 Hs].
  destruct (teacher_no_grad contract true b (fst (model_call C g true b w)))
    as [Hv2 Ht].
  split; [congruence|].
  intros c Hc. inversion Hc. subst c. cbn [loss_raw].
  intros raw Hraw. inversion Hraw. subst raw.
  destruct Hs as (_ & Hsl & Hsh & Hsa). destruct Ht as (_ & Htl & Hth & Hta).
  apply tensor_add_num_untracked; [apply tensor_add_num_untracked|].
  - now apply (cls_untracked contract).
  - now apply layer_loss_untracked.
  - now apply layer_loss_untracked.
Qed.

Lemma clip_gradient_framed (config : Config C) g :
  framed view g (fun _ => True) (clip_gradient config).
Proof.
  unfold clip_gradient.
  destruct (CLIP_GRAD config) as [m|];
    [destruct (float_truthy C m)|]; apply framed_call;
    first [apply (clip_keeps contract) | apply (norm_keeps contract)].
Qed.

Lemma pruning_framed g :
  framed view g (fun _ => True) (pruning pruner).
Proof.
  unfold pruning. pose proof (pruner_keeps contract) as Hk.
  destruct pruner as [p|]; [|now apply framed_ret].
  destruct (Hk p eq_refl) as (Hk1 & Hk2 & Hk3).
  eapply framed_bind; [now apply framed_call|]. intros cur _.
  eapply framed_bind.
  { destruct cur; [apply framed_log | now apply framed_ret]. }
  intros _ _. eapply framed_bind; [now apply framed_call|]. intros due _.
  destruct due; [|now apply framed_ret].
  eapply framed_bind; [now apply framed_call|]. intros rates _.
  apply framed_log.
Qed.

Lemma update_parameters_framed g :
  framed view g (fun _ => True) (update_parameters pruner).
Proof.
  unfold update_parameters.
  eapply framed_bind; [apply framed_act, (optimizer_keeps contract)|]. intros _ _.
  eapply framed_bind; [apply framed_act, (scheduler_keeps contract)|]. intros _ _.
  eapply framed_bind; [apply framed_act, (zero_grad_keeps contract)|]. intros _ _.
  eapply framed_bind; [apply framed_act, (progress_keeps contract)|]. intros _ _.
  apply pruning_framed.
Qed.

Lemma for_evaluation_framed is_regression out b g :
  framed view g (fun _ => True) (for_evaluation C is_regression out b).
Proof.
  unfold for_evaluation.
  eapply framed_bind; [apply framed_call, (gather_keeps contract)|]. intros gp _.
  eapply framed_bind; [apply framed_lift with (Q := fun _ => True); trivial|].
  intros labels _.
  eapply framed_bind; [apply framed_call, (gather_keeps contract)|]. intros gr _.
  apply framed_act, (add_batch_keeps contract).
Qed.

Lemma log_train_step_framed (config : Config C) epoch step len lr gn raw l kd g :
  framed view g (fun _ => True)
    (log_train_step config epoch step len lr gn raw l kd).
Proof.
  unfold log_train_step.
  eapply framed_bind; [apply framed_lift with (Q := fun _ => True); trivial|].
  intros due _. destruct due; [|now apply framed_ret].
  eapply framed_bind; [apply framed_lift with (Q := fun _ => True); trivial|].
  intros info _. apply framed_log.
Qed.

(** A distillation step leaves the teacher alone. *)
Lemma train_step_framed (config : Config C) epoch is_regression len step b g :
  framed view g (fun _ => True)
    (train_step config epoch is_regression pruner (Some teacher)
       (Some kd_cls_loss) (Some kd_reg_loss) len step b).
Proof.
  unfold train_step.
  eapply framed_bind; [apply forward_and_loss_framed|]. intros c Hc.
  eapply framed_bind.
  { apply framed_lift with (Q := fun scaled => tracks (snd scaled) = false).
    unfold scale_loss. destruct (loss_raw c) as [raw|] eqn:Hraw; [|discriminate].
    intros scaled E. inversion E. cbn [snd].
    apply (div_untracked contract). exact (Hc raw Hraw). }
  intros scaled Hs.
  eapply framed_bind.
  { apply framed_act. intros w. now apply (backward_untracked contract). }
  intros _ _.
  eapply framed_bind; [apply clip_gradient_framed|]. intros grad_norm _.
  eapply framed_bind; [apply framed_peek|]. intros lr _.
  eapply framed_bind; [apply framed_lift with (Q := fun _ => True); trivial|].
  intros update _.
  eapply framed_bind.
  { destruct update; [apply update_parameters_framed | now apply framed_ret]. }
  intros _ _.
  eapply framed_bind; [apply for_evaluation_framed|]. intros _ _.
  eapply framed_bind; [apply log_train_step_framed|]. intros _ _.
  now apply framed_ret.
Qed.

End UnderContract.

End FrameFacts.

(** C4.  In distillation mode every forward pass of the teacher, in a step
    and in a whole epoch, runs with gradient tracking disabled.  Under the
    contract of the automatic-differentiation engine, a distillation step
    therefore leaves the teacher's parameters and their gradients as they
    were. *)
Theorem teacher_forward_without_gradients :
  forall (C : Collab) (V : Type) (view : world C -> V) (tracks : tensor C -> bool)
         (config : Config C) epoch is_regression pruner (teacher : module C)
         (kd_cls_loss kd_reg_loss : loss_fn C) dataloader len step b g w,
    autograd_contract view tracks teacher kd_cls_loss kd_reg_loss pruner ->
    Forall (fun mode => mode = false)
      (teacher_grad_modes
         (events (train config epoch is_regression pruner (Some teacher)
                    (Some kd_cls_loss) (Some kd_reg_loss) dataloader g w)))
    /\ Forall (fun mode => mode = false)
         (teacher_grad_modes
            (events (train_step config epoch is_regression pruner (Some teacher)
                       (Some kd_cls_loss) (Some kd_reg_loss) len step b g w)))
    /\ view (final (train_step config epoch is_regression pruner (Some teacher)
                      (Some kd_cls_loss) (Some kd_reg_loss) len step b g w))
       = view w.
Proof.
  intros C V view tracks config epoch is_regression pruner teacher kd_cls_loss
         kd_reg_loss dataloader len step b g w Hcontract.
  split; [apply train_teacher_grad_modes|].
  split; [apply train_step_teacher_grad_modes|].
  apply (train_step_framed Hcontract).
Qed.

(** * The concrete instance at work *)

Module ToyFacts.

Import Toy.

(** The instance honours the contract of the engine: its teacher, called
    without gradient tracking, returns tensors without a gradient path. *)
Lemma toy_contract :
  autograd_contract (C := collab) fst snd teacher kd_cls_loss kd_reg_loss
    (Some pruner).
Proof.
  constructor.
  - intros extras b w. split; [reflexivity|].
    repeat split; cbn; try (repeat constructor).
    intros l H. now inversion H.
  - intros g extras b w. split; [reflexivity|].
    repeat split; cbn; try (repeat constructor).
    intros l H. now inversion H.
  - intros l w H. cbn. now rewrite H.
  - intros s t Hs Ht. cbn. now rewrite Hs, Ht.
  - intros t x Ht. exact Ht.
  - intros x t Ht. exact Ht.
  - intros t n Ht. exact Ht.
  - intros s t Hs Ht. cbn. now rewrite Hs, Ht.
  - intros s t Hs Ht. cbn. now rewrite Hs, Ht.
  - intros m w. reflexivity.
  - intros w. reflexivity.
  - intros w. reflexivity.
  - intros w. reflexivity.
  - intros w. reflexivity.
  - intros w. reflexivity.
  - intros t w. reflexivity.
  - intros p r w. reflexivity.
  - intros p H. inversion H. repeat split.
Qed.

(** Were the teacher called with gradient tracking on, back-propagating the
    logit loss would reach it: the contract above is not vacuous. *)
Example teacher_with_gradients_is_reached :
  fst (accelerator_backward collab
         (kd_cls_loss (1, false)%Z (logits (snd (teacher true true 1%Z w0)))) w0)
  <> fst w0.
Proof. vm_compute. discriminate. Qed.

(** In distillation mode the logged raw loss differs from the model's own
    task loss. *)
Example kd_logs_composite_not_task_loss :
  logged_raw_losses
    (events (train_step (config 2 None) 1 false None (Some teacher)
               (Some kd_cls_loss) (Some kd_reg_loss) 3 0 1%Z true w0))
  = [290%Z]
  /\ loss (snd (model_call collab true true 1%Z w0)) = Some (1%Z, false).
Proof. split; reflexivity. Qed.

(** Window 4 and 10 steps: updates at steps 3, 7 and 9. *)
Example ten_steps_window_four : update_steps 10 4 = [3; 7; 9]%nat.
Proof. reflexivity. Qed.

Lemma update_schedule_witness :
  Z.of_nat
    (count (@is_optimizer_step collab)
       (events (train (config 2 None) 1 false (Some pruner) (Some teacher)
                  (Some kd_cls_loss) (Some kd_reg_loss) batches true w0)))
  = 2%Z
  /\ last (update_steps 3 2) 0%nat = 2%nat.
Proof.
  destruct (update_schedule (config 2 None) 1 false (Some pruner) (Some teacher)
              (Some kd_cls_loss) (Some kd_reg_loss) batches true w0
              ltac:(simpl; lia) ltac:(simpl; lia))
    as (_ & _ & Hlast & Hcount).
  split.
  - exact (proj2 (Hcount _ (or_introl eq_refl)) _
             ltac:(vm_compute; reflexivity)).
  - exact Hlast.
Defined.

Lemma teacher_forward_without_gradients_witness :
  Forall (fun mode => mode = false)
    (teacher_grad_modes
       (events (train (config 2 None) 1 false (Some pruner) (Some teacher)
                  (Some kd_cls_loss) (Some kd_reg_loss) batches true w0)))
  /\ Forall (fun mode => mode = false)
       (teacher_grad_modes
          (events (train_step (config 2 None) 1 false (Some pruner) (Some teacher)
                     (Some kd_cls_loss) (Some kd_reg_loss) 3 1 2%Z true w0)))
  /\ fst (final (train_step (config 2 None) 1 false (Some pruner) (Some teacher)
                   (Some kd_cls_loss) (Some kd_reg_loss) 3 1 2%Z true w0))
     = fst w0.
Proof.
  exact (teacher_forward_without_gradients (config 2 None) 1 false batches
           3 1 2%Z true w0 toy_contract).
Defined.

Lemma epoch_loss_is_mean_of_step_losses_witness :
  145%Z
  = arithmetic_mean collab
      (map (item collab)
         (backward_args
            (events (train (config 2 None) 1 false (Some pruner) (Some teacher)
                       (Some kd_cls_loss) (Some kd_reg_loss) batches true w0))))
  /\ 2%Z
     = arithmetic_mean collab
         (forward_loss_items
            (events (val (config 2 None) 1 false false batches true w0))).
Proof.
  destruct (epoch_loss_is_mean_of_step_losses (config 2 None) 1 false false
              (Some pruner) (Some teacher) (Some kd_cls_loss) (Some kd_reg_loss)
              batches true w0) as [Htrain Hval].
  split.
  - exact (proj2 (Htrain 145%Z 0%Z [1; 1; 1]%Z ltac:(vm_compute; reflexivity))).
  - exact (proj2 (Hval 2%Z 0%Z ltac:(vm_compute; reflexivity))).
Defined.

Lemma kd_without_sub_losses_fails_fast_witness :
  res (train (config 2 None) 1 false (Some pruner) (Some teacher)
         None (Some kd_reg_loss) batches true w0)
  = Raise AssertionError
  /\ events (train (config 2 None) 1 false (Some pruner) (Some teacher)
               None (Some kd_reg_loss) batches true w0)
     = [EModelTrain collab]
  /\ filter (@is_step_work collab)
       (events (train (config 2 None) 1 false (Some pruner) (Some teacher)
                  None (Some kd_reg_loss) batches true w0))
     = [].
Proof.
  exact (kd_without_sub_losses_fails_fast (config 2 None) 1 false (Some pruner)
           teacher (kd_cls_loss := None) (kd_reg_loss := Some kd_reg_loss)
           batches true w0 (or_introl eq_refl)).
Defined.

(** Window 2, two steps per epoch, no clipping configured: step 0 only
    accumulates, and the gradient norm is measured on it all the same. *)
Lemma norm_measured_on_accumulating_step :
  ~ norm_only_on_update (config 2 None) 1 false None None None None.
Proof.
  intros H.
  specialize (H 2%nat 0%nat 1%Z true w0).
  assert (E : @Ok bool false = Ok true).
  { apply H. vm_compute. discriminate. }
  discriminate E.
Qed.

End ToyFacts.

(** * Beyond the claims: what else the two procedures do *)

Section ValNeverTrains.

Variable C : Collab.

Lemma val_step_never_trains (config : Config C) epoch is_regression teacher_mode
    len step b g w :
  let trace :=
    events (val_step config epoch is_regression teacher_mode len step b g w) in
  filter (@is_training_call C) trace = []
  /\ Forall (fun m => m = (false, false)) (forward_modes trace).
Proof.
  cbv zeta. rewrite val_step_events. cbv zeta. unfold forward_modes.
  cbn [filter flat_map is_training_call app].
  destruct (loss _); [|split; [reflexivity | repeat constructor]].
  rewrite filter_app, flat_map_app, events_for_evaluation. cbv zeta.
  repeat split_match; (split; [reflexivity | repeat constructor]).
Qed.

(** X1.  [val] only evaluates: whatever the dataloader and whether the epoch
    completes or raises, it never switches the model to training mode, runs
    no teacher, back-propagates nothing, neither clips nor measures
    gradients, updates no parameter or schedule, advances no progress bar and
    calls no pruner; and every forward pass of the model runs with gradient
    tracking disabled and without asking for hidden states or attentions. *)
Theorem val_never_trains :
  forall (config : Config C) epoch is_regression teacher_mode dataloader g w,
    let trace :=
      events (val config epoch is_regression teacher_mode dataloader g w) in
    filter (@is_training_call C) trace = []
    /\ Forall (fun m => m = (false, false)) (forward_modes trace).
Proof.
  intros. subst trace. unfold val.
  rewrite events_bind. cbn [act events res final app].
  rewrite events_bind. unfold forward_modes.
  cbn [filter flat_map is_training_call app].
  rewrite filter_app, flat_map_app.
  assert (Hloop :
    forall xs step s g0 w0,
      filter (@is_training_call C)
        (events (for_enumerate
                   (val_body config epoch is_regression teacher_mode
                      (length dataloader)) step xs s g0 w0)) = []
      /\ Forall (fun m => m = (false, false))
           (forward_modes
              (events (for_enumerate
                         (val_body config epoch is_regression teacher_mode
                            (length dataloader)) step xs s g0 w0)))).
  { apply for_enumerate_always with
      (Q := fun evs => filter (@is_training_call C) evs = []
                       /\ Forall (fun m => m = (false, false)) (forward_modes evs)).
    - split; [reflexivity | constructor].
    - intros e1 e2 [F1 M1] [F2 M2]. unfold forward_modes in *.
      rewrite filter_app, flat_map_app, F1, F2. split; [reflexivity|].
      apply Forall_app. now split.
    - intros step x s g0 w0. unfold val_body. rewrite events_bind.
      destruct (val_step_never_trains config epoch is_regression teacher_mode
                  (length dataloader) step x g0 w0) as [F M].
      cbv zeta in F, M. unfold forward_modes in *.
      rewrite filter_app, flat_map_app, F.
      destruct (res _); cbn; rewrite app_nil_r; auto. }
  destruct (Hloop dataloader 0%nat [] g (model_eval C w)) as [F M].
  unfold forward_modes in M. rewrite F.
  destruct (res (for_enumerate _ _ _ _ _ _)).
  - rewrite events_bind, events_lift, res_lift.
    destruct (py_mean _ _); rewrite ?events_bind; cbn;
      rewrite app_nil_r; auto.
  - cbn. rewrite app_nil_r. auto.
Qed.

End ValNeverTrains.

Ltac finish_with tac :=
  repeat (tac; try split_match); try reflexivity; try congruence.

Ltac finish_exit :=
  finish_with ltac:(cbn [flat_map filter app length fst snd
                           is_add_batch is_epoch_exit]).

Section EpochExit.

Variable C : Collab.

Lemma train_step_no_epoch_exit (config : Config C) epoch is_regression pruner
    teacher kd_cls_loss kd_reg_loss len step b g w :
  filter (@is_epoch_exit C)
    (events (train_step config epoch is_regression pruner teacher kd_cls_loss
               kd_reg_loss len step b g w)) = [].
Proof.
  rewrite train_step_events. cbv zeta.
  repeat split_match; read_trace; finish_exit.
Qed.

Lemma train_step_ok_add_batch (config : Config C) epoch is_regression pruner
    teacher kd_cls_loss kd_reg_loss len step b g w r :
  res (train_step config epoch is_regression pruner teacher kd_cls_loss
         kd_reg_loss len step b g w) = Ok r ->
  count (@is_add_batch C)
    (events (train_step config epoch is_regression pruner teacher kd_cls_loss
               kd_reg_loss len step b g w)) = 1%nat.
Proof.
  rewrite train_step_res, train_step_events. cbv zeta.
  destruct (res (forward_and_loss _ _ _ _ _ _ _)); [|discriminate].
  destruct (scale_loss _ _); [|discriminate].
  destruct (res (clip_gradient _ _ _)); [|discriminate].
  destruct (should_update _ _ _) as [update|]; [|discriminate].
  destruct (res (for_evaluation _ _ _ _ _ _)) eqn:HE; [|discriminate].
  rewrite res_for_evaluation in HE.
  destruct (batch_labels C b) eqn:Hl; [|discriminate].
  intros _. read_trace. rewrite Hl. finish_exit.
Qed.

Lemma val_step_no_epoch_exit (config : Config C) epoch is_regression teacher_mode
    len step b g w :
  filter (@is_epoch_exit C)
    (events (val_step config epoch is_regression teacher_mode len step b g w))
  = [].
Proof.
  rewrite val_step_events. cbv zeta.
  repeat split_match; read_trace; finish_exit.
Qed.

Lemma val_step_ok_add_batch (config : Config C) epoch is_regression teacher_mode
    len step b g w x :
  res (val_step config epoch is_regression teacher_mode len step b g w) = Ok x ->
  count (@is_add_batch C)
    (events (val_step config epoch is_regression teacher_mode len step b g w))
  = 1%nat.
Proof.
  rewrite val_step_events. unfold val_step. cbv zeta.
  rewrite res_bind. unfold no_grad at 1.
  rewrite res_bind. cbn [forward events res final].
  rewrite res_bind, res_lift, final_lift.
  destruct (loss (snd (model_call C false false b w))); [|discriminate].
  rewrite res_bind.
  destruct (res (for_evaluation _ _ _ _ _ _)) eqn:HE; [|discriminate].
  rewrite res_for_evaluation in HE.
  destruct (batch_labels C b) eqn:Hl; [|discriminate].
  intros _. read_trace. rewrite Hl. finish_exit.
Qed.

Section Train.

Variable config : Config C.
Variable epoch : Z.
Variable is_regression : bool.
Variable pruner : option (Pruner C).
Variable teacher : option (module C).
Variables kd_cls_loss kd_reg_loss : option (loss_fn C).

#[local] Abbreviation train_body :=
  (train_body config epoch is_regression pruner teacher kd_cls_loss kd_reg_loss).

Lemma train_loop_no_epoch_exit len xs step logs g w :
  filter (@is_epoch_exit C)
    (events (for_enumerate (train_body len) step xs logs g w)) = [].
Proof.
  apply for_enumerate_always with
    (Q := fun evs => filter (@is_epoch_exit C) evs = []).
  - reflexivity.
  - intros e1 e2 H1 H2. now rewrite filter_app, H1, H2.
  - intros. rewrite train_body_events. apply train_step_no_epoch_exit.
Qed.

Lemma train_loop_add_batch len xs step logs g w logs' :
  res (for_enumerate (train_body len) step xs logs g w) = Ok logs' ->
  count (@is_add_batch C)
    (events (for_enumerate (train_body len) step xs logs g w)) = length xs
  /\ length (snd logs') = (length (snd logs) + length xs)%nat.
Proof.
  intros Hok.
  apply (for_enumerate_ok (train_body len)
           (fun (k n : nat) s evs s' =>
              count (@is_add_batch C) evs = n
              /\ length (snd s') = (length (snd s) + n)%nat))
    with (s' := logs'); [ | | | exact Hok].
  - intros. cbn. split; [reflexivity | lia].
  - intros k n s e1 s1 e2 s2 [H1 L1] [H2 L2]. unfold count in *.
    rewrite filter_app, length_app, H1, H2. split; lia.
  - intros k x s g0 w0 s' H.
    apply train_body_ok in H. destruct H as (r & Hr & -> & He).
    rewrite He. split; [now apply train_step_ok_add_batch with (r := r)|].
    cbn [snd]. rewrite length_app. cbn. lia.
Qed.

(** X2.  How a training epoch ends.  When [train] returns, its trace is
    [model.train()], then the steps, then exactly
    [metric_computor.compute()], the epoch summary line and
    [torch.cuda.empty_cache()], in this order and nowhere earlier; the steps
    called [add_batch] once per batch, and the returned list of learning
    rates has one entry per batch.  When [train] raises, none of the three
    closing calls was made: the metric accumulator is left with whatever
    the steps added. *)
Theorem train_epoch_exit :
  forall dataloader g w,
    let o := train config epoch is_regression pruner teacher kd_cls_loss
               kd_reg_loss dataloader g w in
    match res o with
    | Ok (train_loss, results, step_lr) =>
        length step_lr = length dataloader
        /\ exists steps,
            events o
            = EModelTrain C :: steps
              ++ [ECompute C results;
                  ELog (LogTrainEpoch C epoch train_loss results);
                  EEmptyCache C]
            /\ filter (@is_epoch_exit C) steps = []
            /\ count (@is_add_batch C) steps = length dataloader
    | Raise _ => filter (@is_epoch_exit C) (events o) = []
    end.
Proof.
  intros dataloader g w o.
  destruct (res o) as [[[tl rs] lrs]|e] eqn:Ho; subst o.
  - apply train_ok in Ho. destruct Ho as (logs & Hloop & _ & -> & He).
    apply train_loop_add_batch in Hloop. destruct Hloop as [Hn Hl].
    split; [exact Hl|].
    eexists. split; [exact He|]. split; [apply train_loop_no_epoch_exit | exact Hn].
  - revert Ho. unfold train.
    rewrite events_bind, res_bind. cbn [act events res final app filter is_epoch_exit].
    rewrite events_bind, res_bind, filter_app, train_loop_no_epoch_exit.
    destruct (res (for_enumerate _ _ _ _ _ _)); [|reflexivity].
    rewrite events_bind, res_bind, events_lift, res_lift, final_lift.
    destruct (py_mean _ _); [|reflexivity].
    rewrite !res_bind. cbn. discriminate.
Qed.

End Train.

End EpochExit.

Section ValExit.

Variable C : Collab.
Variable config : Config C.
Variable epoch : Z.
Variables is_regression teacher_mode : bool.

#[local] Abbreviation val_body :=
  (val_body config epoch is_regression teacher_mode).

Lemma val_body_ok len step b batch_loss g w batch_loss' :
  res (val_body len step b batch_loss g w) = Ok batch_loss' ->
  exists l,
    res (val_step config epoch is_regression teacher_mode len step b g w) = Ok l
    /\ batch_loss' = batch_loss ++ [l]
    /\ events (val_body len step b batch_loss g w)
       = events (val_step config epoch is_regression teacher_mode len step b g w).
Proof.
  unfold val_body.
  intros H. apply bind_ok in H. destruct H as (l & H1 & H2 & He & _).
  exists l. split; [exact H1|]. cbn in H2. inversion H2. split; [reflexivity|].
  rewrite He. cbn. apply app_nil_r.
Qed.

Lemma val_body_events len step b batch_loss g w :
  events (val_body len step b batch_loss g w)
  = events (val_step config epoch is_regression teacher_mode len step b g w).
Proof.
  unfold val_body. rewrite events_bind.
  destruct (res _); cbn; apply app_nil_r.
Qed.

(** A completed validation epoch: the loop completed, the mean was
    defined, and the trace is the loop's between the mode switch and the
    epoch summary. *)
Lemma val_ok dataloader g w val_loss results :
  res (val config epoch is_regression teacher_mode dataloader g w)
  = Ok (val_loss, results) ->
  exists batch_loss,
    let loop := for_enumerate (val_body (length dataloader)) 0 dataloader
                  [] g (model_eval C w) in
    res loop = Ok batch_loss
    /\ py_mean C batch_loss = Ok val_loss
    /\ events (val config epoch is_regression teacher_mode dataloader g w)
       = EModelEval C :: events loop
         ++ [ECompute C results;
             ELog (LogValEpoch C teacher_mode epoch val_loss results);
             EEmptyCache C].
Proof.
  unfold val. intros H. cbv zeta.
  rewrite events_bind. rewrite res_bind in H.
  cbn [act events res final app] in *.
  rewrite events_bind. rewrite res_bind in H.
  destruct (res (for_enumerate _ _ _ _ _ _)) as [bl|]; [|discriminate].
  rewrite events_bind, events_lift, res_lift, final_lift.
  rewrite res_bind, res_lift, final_lift in H.
  destruct (py_mean C bl) as [vl|] eqn:Hmean; [|discriminate].
  rewrite !events_bind. rewrite !res_bind in H.
  cbn [call log act ret events res final app] in *.
  inversion H. subst.
  exists bl. repeat split; auto.
Qed.

Lemma val_loop_no_epoch_exit len xs step batch_loss g w :
  filter (@is_epoch_exit C)
    (events (for_enumerate (val_body len) step xs batch_loss g w)) = [].
Proof.
  apply for_enumerate_always with
    (Q := fun evs => filter (@is_epoch_exit C) evs = []).
  - reflexivity.
  - intros e1 e2 H1 H2. now rewrite filter_app, H1, H2.
  - intros. rewrite val_body_events. apply val_step_no_epoch_exit.
Qed.

Lemma val_loop_add_batch len xs step batch_loss g w batch_loss' :
  res (for_enumerate (val_body len) step xs batch_loss g w) = Ok batch_loss' ->
  count (@is_add_batch C)
    (events (for_enumerate (val_body len) step xs batch_loss g w)) = length xs.
Proof.
  intros Hok.
  apply (for_enumerate_ok (val_body len)
           (fun (k n : nat) (_ : list (pyfloat C)) evs (_ : list (pyfloat C)) =>
              count (@is_add_batch C) evs = n))
    with (s' := batch_loss'); [ | | | exact Hok].
  - reflexivity.
  - intros k n _ e1 _ e2 _ H1 H2. unfold count in *.
    rewrite filter_app, length_app, H1, H2. lia.
  - intros k x s g0 w0 s' H.
    apply val_body_ok in H. destruct H as (l & Hl & _ & He).
    rewrite He. now apply val_step_ok_add_batch with (x := l).
Qed.

(** X3.  How a validation epoch ends.  When [val] returns, its trace is
    [model.eval()], then the steps, then exactly
    [metric_computor.compute()], the epoch summary line and
    [torch.cuda.empty_cache()], in this order and nowhere earlier, and the
    steps called [add_batch] once per batch.  When [val] raises, none of the
    three closing calls was made. *)
Theorem val_epoch_exit :
  forall dataloader g w,
    let o := val config epoch is_regression teacher_mode dataloader g w in
    match res o with
    | Ok (val_loss, results) =>
        exists steps,
          events o
          = EModelEval C :: steps
            ++ [ECompute C results;
                ELog (LogValEpoch C teacher_mode epoch val_loss results);
                EEmptyCache C]
          /\ filter (@is_epoch_exit C) steps = []
          /\ count (@is_add_batch C) steps = length dataloader
    | Raise _ => filter (@is_epoch_exit C) (events o) = []
    end.
Proof.
  intros dataloader g w o.
  destruct (res o) as [[vl rs]|e] eqn:Ho; subst o.
  - apply val_ok in Ho. destruct Ho as (bl & Hloop & _ & He).
    apply val_loop_add_batch in Hloop.
    eexists. split; [exact He|]. split; [apply val_loop_no_epoch_exit | exact Hloop].
  - revert Ho. unfold val.
    rewrite events_bind, res_bind. cbn [act events res final app filter is_epoch_exit].
    rewrite events_bind, res_bind, filter_app, val_loop_no_epoch_exit.
    destruct (res (for_enumerate _ _ _ _ _ _)); [|reflexivity].
    rewrite events_bind, res_bind, events_lift, res_lift, final_lift.
    destruct (py_mean _ _); [|reflexivity].
    rewrite !res_bind. cbn. discriminate.
Qed.

End ValExit.

Section Telemetry.

Variable C : Collab.

Lemma log_steps_snoc (f : Z) (n : nat) :
  log_steps (S n) f
  = log_steps n f ++ (if (Z.of_nat n mod f =? 0)%Z then [n] else []).
Proof. unfold log_steps. now rewrite seq_S, filter_app. Qed.

(** Among the steps [0 .. n-1], the multiples of the stride number
    [ceil(n / f)]. *)
Lemma log_steps_count (f : Z) (n : nat) :
  (1 <= f)%Z ->
  Z.of_nat (length (log_steps n f)) = ceil_div (Z.of_nat n) f.
Proof.
  intros Hf. unfold ceil_div. induction n as [|n IH].
  - cbn. symmetry. apply Z.div_small. lia.
  - rewrite log_steps_snoc, length_app, Nat2Z.inj_add, IH.
    replace (Z.of_nat (S n) + f - 1)%Z with ((Z.of_nat n + f - 1) + 1)%Z by lia.
    rewrite (div_succ (a := Z.of_nat n + f - 1)) by lia.
    replace (Z.of_nat n + f - 1 + 1)%Z with (Z.of_nat n + 1 * f)%Z by lia.
    rewrite Z_mod_plus_full.
    destruct (Z.of_nat n mod f =? 0)%Z; reflexivity.
Qed.

Lemma not_mod_nonzero (a f : Z) :
  (f <> 0)%Z -> not_mod a f = Ok ((a mod f =? 0)%Z).
Proof.
  intros Hf. unfold not_mod. destruct (f =? 0)%Z eqn:E; [|reflexivity].
  apply Z.eqb_eq in E. contradiction.
Qed.

Lemma res_log_train_step (config : Config C) epoch step len lr gn raw l kd g w :
  res (log_train_step config epoch step len lr gn raw l kd g w) =
  match not_mod (Z.of_nat step) (PRINT_FREQ config) with
  | Ok true =>
      match kd_loss_info kd with
      | Ok _ => Ok tt
      | Raise e => Raise e
      end
  | Ok false => Ok tt
  | Raise e => Raise e
  end.
Proof.
  unfold log_train_step. rewrite res_bind, res_lift, final_lift.
  destruct (not_mod _ _) as [[|]|]; try reflexivity.
  rewrite res_bind, res_lift, final_lift.
  destruct (kd_loss_info kd); reflexivity.
Qed.

(** A completed training step logged its line exactly when its index is a
    multiple of the stride. *)
Lemma train_step_ok_logged (config : Config C) epoch is_regression pruner
    teacher kd_cls_loss kd_reg_loss len step b g w r :
  res (train_step config epoch is_regression pruner teacher kd_cls_loss
         kd_reg_loss len step b g w) = Ok r ->
  logged_train_steps
    (events (train_step config epoch is_regression pruner teacher kd_cls_loss
               kd_reg_loss len step b g w))
  = match not_mod (Z.of_nat step) (PRINT_FREQ config) with
    | Ok true => [step]
    | _ => []
    end.
Proof.
  rewrite train_step_res, train_step_events. cbv zeta.
  destruct (res (forward_and_loss _ _ _ _ _ _ _)); [|discriminate].
  destruct (scale_loss _ _); [|discriminate].
  destruct (res (clip_gradient _ _ _)); [|discriminate].
  destruct (should_update _ _ _) as [update|]; [|discriminate].
  destruct (res (for_evaluation _ _ _ _ _ _)); [|discriminate].
  rewrite res_log_train_step.
  unfold logged_train_steps. read_trace.
  destruct (not_mod _ _) as [[|]|]; [| |discriminate].
  - destruct (kd_loss_info _); [|discriminate]. intros _.
    finish_with ltac:(cbn [flat_map app]).
  - intros _. finish_with ltac:(cbn [flat_map app]).
Qed.

Lemma val_step_ok_logged (config : Config C) epoch is_regression teacher_mode
    len step b g w x :
  res (val_step config epoch is_regression teacher_mode len step b g w) = Ok x ->
  logged_val_steps
    (events (val_step config epoch is_regression teacher_mode len step b g w))
  = match not_mod (Z.of_nat step) (PRINT_FREQ config) with
    | Ok true => [step]
    | _ => []
    end.
Proof.
  rewrite val_step_events. unfold val_step. cbv zeta.
  rewrite res_bind. unfold no_grad at 1.
  rewrite res_bind. cbn [forward events res final].
  rewrite res_bind, res_lift, final_lift.
  destruct (loss (snd (model_call C false false b w))); [|discriminate].
  rewrite res_bind.
  destruct (res (for_evaluation _ _ _ _ _ _)); [|discriminate].
  cbn [ret events res final].
  rewrite res_bind, res_lift, final_lift.
  unfold logged_val_steps. cbn [flat_map app].
  rewrite flat_map_app, events_for_evaluation. cbv zeta.
  destruct (not_mod _ _) as [[|]|]; [| |discriminate]; intros _;
    finish_with ltac:(cbn [flat_map app]).
Qed.

Section Epoch.

Variable config : Config C.
Variable epoch : Z.
Variables is_regression teacher_mode : bool.
Variable pruner : option (Pruner C).
Variable teacher : option (module C).
Variables kd_cls_loss kd_reg_loss : option (loss_fn C).

Hypothesis stride : (1 <= PRINT_FREQ config)%Z.

Lemma train_loop_logged len xs step logs g w logs' :
  res (for_enumerate
         (train_body config epoch is_regression pruner teacher kd_cls_loss
            kd_reg_loss len) step xs logs g w) = Ok logs' ->
  logged_train_steps
    (events (for_enumerate
               (train_body config epoch is_regression pruner teacher kd_cls_loss
                  kd_reg_loss len) step xs logs g w))
  = filter (fun s => (Z.of_nat s mod PRINT_FREQ config =? 0)%Z)
      (seq step (length xs)).
Proof.
  intros Hok.
  apply (for_enumerate_ok
           (train_body config epoch is_regression pruner teacher kd_cls_loss
              kd_reg_loss len)
           (fun (k n : nat) (_ : list (pyfloat C) * list (pyfloat C)) evs _ =>
              logged_train_steps evs
              = filter (fun s => (Z.of_nat s mod PRINT_FREQ config =? 0)%Z)
                  (seq k n)))
    with (s' := logs'); [ | | | exact Hok].
  - reflexivity.
  - intros k n _ e1 _ e2 _ H1 H2. unfold logged_train_steps in *.
    rewrite flat_map_app, H1, H2. cbn [seq filter].
    destruct (Z.of_nat k mod _ =? 0)%Z; reflexivity.
  - intros k x s g0 w0 s' H.
    apply train_body_ok in H. destruct H as (r & Hr & _ & He).
    rewrite He, (train_step_ok_logged _ _ _ _ _ _ _ _ _ _ _ _ Hr).
    rewrite not_mod_nonzero by lia. cbn [seq filter].
    destruct (Z.of_nat k mod _ =? 0)%Z; reflexivity.
Qed.

Lemma val_loop_logged len xs step batch_loss g w batch_loss' :
  res (for_enumerate (val_body config epoch is_regression teacher_mode len)
         step xs batch_loss g w) = Ok batch_loss' ->
  logged_val_steps
    (events (for_enumerate (val_body config epoch is_regression teacher_mode len)
               step xs batch_loss g w))
  = filter (fun s => (Z.of_nat s mod PRINT_FREQ config =? 0)%Z)
      (seq step (length xs)).
Proof.
  intros Hok.
  apply (for_enumerate_ok
           (val_body config epoch is_regression teacher_mode len)
           (fun (k n : nat) (_ : list (pyfloat C)) evs (_ : list (pyfloat C)) =>
              logged_val_steps evs
              = filter (fun s => (Z.of_nat s mod PRINT_FREQ config =? 0)%Z)
                  (seq k n)))
    with (s' := batch_loss'); [ | | | exact Hok].
  - reflexivity.
  - intros k n _ e1 _ e2 _ H1 H2. unfold logged_val_steps in *.
    rewrite flat_map_app, H1, H2. cbn [seq filter].
    destruct (Z.of_nat k mod _ =? 0)%Z; reflexivity.
  - intros k x s g0 w0 s' H.
    apply val_body_ok in H. destruct H as (l & Hl & _ & He).
    rewrite He, (val_step_ok_logged _ _ _ _ _ _ _ _ _ Hl).
    rewrite not_mod_nonzero by lia. cbn [seq filter].
    destruct (Z.of_nat k mod _ =? 0)%Z; reflexivity.
Qed.

(** X4.  The telemetry stride of [train].  With [PRINT_FREQ >= 1], a
    training epoch that completes wrote its per-step line at exactly the
    steps whose index is a multiple of [PRINT_FREQ], in order, step 0
    included: [ceil(n / PRINT_FREQ)] lines for [n] batches. *)
Theorem train_log_cadence :
  forall dataloader g w r,
    res (train config epoch is_regression pruner teacher kd_cls_loss kd_reg_loss
           dataloader g w) = Ok r ->
    logged_train_steps
      (events (train config epoch is_regression pruner teacher kd_cls_loss
                 kd_reg_loss dataloader g w))
    = log_steps (length dataloader) (PRINT_FREQ config)
    /\ Z.of_nat (length (log_steps (length dataloader) (PRINT_FREQ config)))
       = ceil_div (Z.of_nat (length dataloader)) (PRINT_FREQ config).
Proof.
  intros dataloader g w [[tl rs] lrs] Hok.
  split; [|now apply log_steps_count].
  apply train_ok in Hok. destruct Hok as (logs & Hloop & _ & _ & He).
  rewrite He. unfold logged_train_steps. cbn [flat_map app].
  rewrite flat_map_app. cbn [flat_map app]. rewrite app_nil_r.
  eapply train_loop_logged; exact Hloop.
Qed.

(** X5.  The telemetry stride of [val].  With [PRINT_FREQ >= 1], a
    validation epoch that completes wrote its per-step line at exactly the
    steps whose index is a multiple of [PRINT_FREQ], in order:
    [ceil(n / PRINT_FREQ)] lines for [n] batches. *)
Theorem val_log_cadence :
  forall dataloader g w r,
    res (val config epoch is_regression teacher_mode dataloader g w) = Ok r ->
    logged_val_steps
      (events (val config epoch is_regression teacher_mode dataloader g w))
    = log_steps (length dataloader) (PRINT_FREQ config)
    /\ Z.of_nat (length (log_steps (length dataloader) (PRINT_FREQ config)))
       = ceil_div (Z.of_nat (length dataloader)) (PRINT_FREQ config).
Proof.
  intros dataloader g w [vl rs] Hok.
  split; [|now apply log_steps_count].
  apply val_ok in Hok. destruct Hok as (bl & Hloop & _ & He).
  rewrite He. unfold logged_val_steps. cbn [flat_map app].
  rewrite flat_map_app. cbn [flat_map app]. rewrite app_nil_r.
  eapply val_loop_logged; exact Hloop.
Qed.

End Epoch.

End Telemetry.

Section ZeroDivisors.

Variable C : Collab.

(** An epoch whose every step raises never returns: on an empty dataloader
    the mean raises instead. *)
Lemma train_raises_when_steps_raise (config : Config C) epoch is_regression
    pruner teacher kd_cls_loss kd_reg_loss :
  (forall len step b g w,
      exists e,
        res (train_step config epoch is_regression pruner teacher kd_cls_loss
               kd_reg_loss len step b g w) = Raise e) ->
  forall dataloader g w,
    exists e,
      res (train config epoch is_regression pruner teacher kd_cls_loss
             kd_reg_loss dataloader g w) = Raise e.
Proof.
  intros Hstep dataloader g w. unfold train.
  rewrite res_bind. cbn [act events res final].
  rewrite res_bind.
  destruct dataloader as [|b rest].
  - cbn. eauto.
  - cbn [for_enumerate]. unfold train_body at 1. rewrite !res_bind.
    destruct (Hstep (length (b :: rest)) 0%nat b g (model_train C w)) as [e He].
    rewrite He. eauto.
Qed.

Lemma val_raises_when_steps_raise (config : Config C) epoch is_regression
    teacher_mode :
  (forall len step b g w,
      exists e,
        res (val_step config epoch is_regression teacher_mode len step b g w)
        = Raise e) ->
  forall dataloader g w,
    exists e,
      res (val config epoch is_regression teacher_mode dataloader g w) = Raise e.
Proof.
  intros Hstep dataloader g w. unfold val.
  rewrite res_bind. cbn [act events res final].
  rewrite res_bind.
  destruct dataloader as [|b rest].
  - cbn. eauto.
  - cbn [for_enumerate]. unfold val_body at 1. rewrite !res_bind.
    destruct (Hstep (length (b :: rest)) 0%nat b g (model_eval C w)) as [e He].
    rewrite He. eauto.
Qed.

Lemma should_update_zero_window step len :
  should_update step len 0 = Raise ZeroDivisionError.
Proof. reflexivity. Qed.

Lemma train_step_zero_window clip begin_layer epochs print_freq epoch
    is_regression pruner teacher kd_cls_loss kd_reg_loss len step b g w :
  let config := @mkConfig C 0 clip begin_layer epochs print_freq in
  let o := train_step config epoch is_regression pruner teacher kd_cls_loss
             kd_reg_loss len step b g w in
  match composed_loss config teacher kd_cls_loss kd_reg_loss b g w with
  | Some (_, raw) =>
      res o = Raise ZeroDivisionError
      /\ backward_args (events o) = [tensor_div C raw 0]
      /\ norm_calls (events o) = [configured_norm config]
      /\ filter (@pruning_related C) (events o) = []
      /\ filter (@is_metric_call C) (events o) = []
  | None => exists e, res o = Raise e /\ backward_args (events o) = []
  end.
Proof.
  intros config o. subst o.
  rewrite train_step_res, train_step_events.
  unfold composed_loss, scale_loss. cbv zeta.
  destruct (res (forward_and_loss _ _ _ _ _ _ _)) as [c|e] eqn:HF.
  - destruct (loss_raw c) as [raw|].
    + cbn [fst snd GRADIENT_ACCUMULATION_STEPS config].
      rewrite should_update_zero_window.
      destruct (res_clip_gradient config g
                  (accelerator_backward C (tensor_div C raw 0)
                     (final (forward_and_loss config teacher kd_cls_loss
                               kd_reg_loss b g w)))) as [gn HK].
      rewrite HK.
      split; [reflexivity|].
      split; [|split; [|split]]; read_trace; finish_trace.
    + exists TypeError. split; [reflexivity|]. read_trace. finish_trace.
  - exists e. split; [reflexivity|]. read_trace. finish_trace.
Qed.

(** X6.  A zero accumulation window.  With
    [GRADIENT_ACCUMULATION_STEPS = 0] no training step and no training epoch
    ever returns.  A step that composes a loss still back-propagates that
    loss divided by zero and clips or measures the gradient norm; the update
    condition of line 79 then raises [ZeroDivisionError], so the step updates
    no parameter, calls no pruner, gathers nothing and adds no batch. *)
Theorem zero_window_raises_after_backward :
  forall clip begin_layer epochs print_freq epoch is_regression pruner teacher
         kd_cls_loss kd_reg_loss dataloader len step b g w,
    let config := @mkConfig C 0 clip begin_layer epochs print_freq in
    let o := train_step config epoch is_regression pruner teacher kd_cls_loss
               kd_reg_loss len step b g w in
    (exists e,
        res (train config epoch is_regression pruner teacher kd_cls_loss
               kd_reg_loss dataloader g w) = Raise e)
    /\ match composed_loss config teacher kd_cls_loss kd_reg_loss b g w with
       | Some (_, raw) =>
           res o = Raise ZeroDivisionError
           /\ backward_args (events o) = [tensor_div C raw 0]
           /\ norm_calls (events o) = [configured_norm config]
           /\ filter (@pruning_related C) (events o) = []
           /\ filter (@is_metric_call C) (events o) = []
       | None => exists e, res o = Raise e /\ backward_args (events o) = []
       end.
Proof.
  intros. split; [|apply train_step_zero_window].
  apply train_raises_when_steps_raise.
  intros len0 step0 b0 g0 w0.
  pose proof (train_step_zero_window clip begin_layer epochs print_freq epoch
                is_regression pruner teacher kd_cls_loss kd_reg_loss
                len0 step0 b0 g0 w0) as H.
  cbv zeta in H.
  destruct (composed_loss _ _ _ _ _ _ _) as [[? ?]|].
  - destruct H as [H _]. eauto.
  - destruct H as (e & H & _). eauto.
Qed.

End ZeroDivisors.

Section ZeroStride.

Variable C : Collab.

Lemma val_step_res (config : Config C) epoch is_regression teacher_mode
    len step b g w :
  res (val_step config epoch is_regression teacher_mode len step b g w) =
  let fwd := model_call C false false b w in
  match loss (snd fwd) with
  | None => Raise AttributeError
  | Some l =>
      match res (for_evaluation C is_regression (snd fwd) b false (fst fwd)) with
      | Raise e => Raise e
      | Ok _ =>
          match not_mod (Z.of_nat step) (PRINT_FREQ config) with
          | Raise e => Raise e
          | Ok _ => Ok (item C l)
          end
      end
  end.
Proof.
  unfold val_step. cbv zeta.
  rewrite res_bind. unfold no_grad at 1.
  rewrite res_bind. cbn [forward events res final].
  rewrite res_bind, res_lift, final_lift.
  destruct (loss (snd (model_call C false false b w))); [|reflexivity].
  rewrite res_bind.
  destruct (res (for_evaluation _ _ _ _ _ _)); [|reflexivity].
  cbn [ret events res final].
  rewrite res_bind, res_lift, final_lift.
  destruct (not_mod _ _) as [due|]; [|reflexivity].
  rewrite res_bind. destruct due; reflexivity.
Qed.

Lemma train_step_zero_stride window clip begin_layer epochs epoch
    is_regression pruner teacher kd_cls_loss kd_reg_loss len step b g w :
  let config := @mkConfig C window clip begin_layer epochs 0 in
  let o := train_step config epoch is_regression pruner teacher kd_cls_loss
             kd_reg_loss len step b g w in
  match update_decision config teacher kd_cls_loss kd_reg_loss len step b g w,
        batch_labels C b with
  | Some _, Some _ =>
      res o = Raise ZeroDivisionError
      /\ count (@is_add_batch C) (events o) = 1%nat
  | _, _ =>
      exists e, res o = Raise e /\ filter (@is_add_batch C) (events o) = []
  end.
Proof.
  intros config o. subst o.
  rewrite train_step_res, train_step_events.
  unfold update_decision, composed_loss, scale_loss. cbv zeta.
  destruct (res (forward_and_loss _ _ _ _ _ _ _)) as [c|e] eqn:HF.
  2:{ exists e. split; [reflexivity|]. read_trace. finish_exit. }
  destruct (loss_raw c) as [raw|].
  2:{ exists TypeError. split; [reflexivity|]. read_trace. finish_exit. }
  cbn [fst snd].
  destruct (res_clip_gradient config g
              (accelerator_backward C
                 (tensor_div C raw (GRADIENT_ACCUMULATION_STEPS config))
                 (final (forward_and_loss config teacher kd_cls_loss
                           kd_reg_loss b g w)))) as [gn HK].
  rewrite HK.
  destruct (should_update _ _ _) as [update|e].
  2:{ exists e. split; [reflexivity|]. read_trace. finish_exit. }
  rewrite res_for_evaluation, res_log_train_step.
  cbn [PRINT_FREQ config not_mod Z.eqb].
  destruct (batch_labels C b) as [labels|] eqn:Hl.
  - split; [reflexivity|]. read_trace. rewrite Hl. finish_exit.
  - exists KeyError. split; [reflexivity|]. read_trace. rewrite Hl. finish_exit.
Qed.

Lemma val_step_zero_stride window clip begin_layer epochs epoch
    is_regression teacher_mode len step b g w :
  let config := @mkConfig C window clip begin_layer epochs 0 in
  let o := val_step config epoch is_regression teacher_mode len step b g w in
  match loss (snd (model_call C false false b w)), batch_labels C b with
  | Some _, Some _ =>
      res o = Raise ZeroDivisionError
      /\ count (@is_add_batch C) (events o) = 1%nat
  | _, _ =>
      exists e, res o = Raise e /\ filter (@is_add_batch C) (events o) = []
  end.
Proof.
  intros config o. subst o.
  rewrite val_step_res, val_step_events. cbv zeta.
  destruct (loss _) as [l|].
  2:{ exists AttributeError. split; reflexivity. }
  rewrite res_for_evaluation.
  cbn [PRINT_FREQ config not_mod Z.eqb].
  destruct (batch_labels C b) as [labels|] eqn:Hl.
  - split; [reflexivity|]. read_trace. rewrite Hl. finish_exit.
  - exists KeyError. split; [reflexivity|]. read_trace. rewrite Hl. finish_exit.
Qed.

(** X7.  A zero telemetry stride.  With [PRINT_FREQ = 0] no step and no
    epoch of [train] or [val] ever returns.  A step whose batch has labels
    and that gets as far as the stride test (line 115, line 175) has by then
    done all its work, [add_batch] included, and raises
    [ZeroDivisionError] there; any other step raises earlier, before adding a
    batch. *)
Theorem zero_print_freq_raises_after_the_step :
  forall window clip begin_layer epochs epoch is_regression teacher_mode
         pruner teacher kd_cls_loss kd_reg_loss dataloader len step b g w,
    let config := @mkConfig C window clip begin_layer epochs 0 in
    (exists e,
        res (train config epoch is_regression pruner teacher kd_cls_loss
               kd_reg_loss dataloader g w) = Raise e)
    /\ (exists e,
           res (val config epoch is_regression teacher_mode dataloader g w)
           = Raise e)
    /\ (let o := train_step config epoch is_regression pruner teacher
                   kd_cls_loss kd_reg_loss len step b g w in
        match update_decision config teacher kd_cls_loss kd_reg_loss
                len step b g w,
              batch_labels C b with
        | Some _, Some _ =>
            res o = Raise ZeroDivisionError
            /\ count (@is_add_batch C) (events o) = 1%nat
        | _, _ =>
            exists e, res o = Raise e /\ filter (@is_add_batch C) (events o) = []
        end)
    /\ (let o := val_step config epoch is_regression teacher_mode len step b g w in
        match loss (snd (model_call C false false b w)), batch_labels C b with
        | Some _, Some _ =>
            res o = Raise ZeroDivisionError
            /\ count (@is_add_batch C) (events o) = 1%nat
        | _, _ =>
            exists e, res o = Raise e /\ filter (@is_add_batch C) (events o) = []
        end).
Proof.
  intros. repeat split.
  - apply train_raises_when_steps_raise. intros len0 step0 b0 g0 w0.
    pose proof (train_step_zero_stride window clip begin_layer epochs epoch
                  is_regression pruner teacher kd_cls_loss kd_reg_loss
                  len0 step0 b0 g0 w0) as H.
    cbv zeta in H.
    destruct (update_decision _ _ _ _ _ _ _ _ _) as [[? ?]|];
      [destruct (batch_labels C b0)|].
    + destruct H as [H _]. eauto.
    + destruct H as (e & H & _). eauto.
    + destruct H as (e & H & _). eauto.
  - apply val_raises_when_steps_raise. intros len0 step0 b0 g0 w0.
    pose proof (val_step_zero_stride window clip begin_layer epochs epoch
                  is_regression teacher_mode len0 step0 b0 g0 w0) as H.
    cbv zeta in H.
    destruct (loss _); [destruct (batch_labels C b0)|].
    + destruct H as [H _]. eauto.
    + destruct H as (e & H & _). eauto.
    + destruct H as (e & H & _). eauto.
  - apply train_step_zero_stride.
  - apply val_step_zero_stride.
Qed.

End ZeroStride.

Section StepEdges.

Variable C : Collab.

(** X8.  A model that produces no loss.  Without a teacher, a batch for
    which the model returns no loss stops the training step at line 62 with
    [TypeError], and the validation step at line 162 with [AttributeError]:
    in both cases the forward pass is the only call the step has made, so
    nothing is back-propagated, updated, gathered or accumulated. *)
Theorem missing_loss_is_fatal :
  forall (config : Config C) epoch is_regression teacher_mode pruner
         kd_cls_loss kd_reg_loss len step b g w,
    (forall g' w', loss (snd (model_call C g' false b w')) = None) ->
    (let o := train_step config epoch is_regression pruner None kd_cls_loss
                kd_reg_loss len step b g w in
     res o = Raise TypeError
     /\ events o = [EForward C g false b (snd (model_call C g false b w))])
    /\ (let o := val_step config epoch is_regression teacher_mode len step b g w in
        res o = Raise AttributeError
        /\ events o
           = [EForward C false false b (snd (model_call C false false b w))]).
Proof.
  intros config epoch is_regression teacher_mode pruner kd_cls_loss kd_reg_loss
         len step b g w Hnone.
  split; cbv zeta.
  - rewrite train_step_res, train_step_events. cbv zeta.
    rewrite res_forward_and_loss, events_forward_and_loss. cbv zeta.
    cbn [loss_raw scale_loss]. rewrite Hnone. split; reflexivity.
  - rewrite val_step_res, val_step_events. cbv zeta.
    rewrite Hnone. split; reflexivity.
Qed.

Lemma layer_loss_empty (f : loss_fn C) z xs ys :
  slice_from z xs = [] \/ slice_from z ys = [] ->
  layer_loss f z xs ys = PyFloat C (float_of_Z C 0).
Proof.
  unfold layer_loss. intros [-> | ->]; [reflexivity|].
  now rewrite combine_nil.
Qed.

Lemma kd_loss_info_float (l : tensor C) hs attn :
  (exists x, hs = PyFloat C x) \/ (exists x, attn = PyFloat C x) ->
  kd_loss_info (Some (l, hs, attn)) = Raise AttributeError.
Proof.
  intros [[x ->] | [x ->]]; [reflexivity|].
  destruct hs; reflexivity.
Qed.

(** X9.  Distillation from a layer that does not exist.  With a teacher,
    when the student's or the teacher's hidden states or attentions have no
    layer from [BEGIN_LAYER] onward, the corresponding sub-loss stays the
    Python float [0.]; the composite loss is still a tensor, so the step
    back-propagates, updates and accumulates as usual, but on a logging step
    (step 0 is one) [kd_loss_info] calls [.item()] on that float and the step
    raises [AttributeError] at line 119, without having written its line. *)
Theorem kd_empty_layer_slice_breaks_telemetry :
  forall (config : Config C) epoch is_regression pruner (teacher : module C)
         (kd_cls_loss kd_reg_loss : loss_fn C) len step b g w labels,
    let student_out := snd (model_call C g true b w) in
    let teacher_out := snd (teacher false true b (fst (model_call C g true b w))) in
    let o := train_step config epoch is_regression pruner (Some teacher)
               (Some kd_cls_loss) (Some kd_reg_loss) len step b g w in
    slice_from (BEGIN_LAYER config) (hidden_states student_out) = []
    \/ slice_from (BEGIN_LAYER config) (hidden_states teacher_out) = []
    \/ slice_from (BEGIN_LAYER config) (attentions student_out) = []
    \/ slice_from (BEGIN_LAYER config) (attentions teacher_out) = [] ->
    GRADIENT_ACCUMULATION_STEPS config <> 0%Z ->
    PRINT_FREQ config <> 0%Z ->
    (Z.of_nat step mod PRINT_FREQ config = 0)%Z ->
    batch_labels C b = Some labels ->
    res o = Raise AttributeError
    /\ length (backward_args (events o)) = 1%nat
    /\ count (@is_add_batch C) (events o) = 1%nat
    /\ count (@is_optimizer_step C) (events o)
       = (if update_rule step len (GRADIENT_ACCUMULATION_STEPS config)
          then 1 else 0)%nat
    /\ logged_train_steps (events o) = [].
Proof.
  intros config epoch is_regression pruner teacher kd_cls_loss kd_reg_loss
         len step b g w labels student_out teacher_out o Hempty Hw Hf Hstep Hl.
  assert (Hupd : should_update step len (GRADIENT_ACCUMULATION_STEPS config)
                 = Ok (update_rule step len (GRADIENT_ACCUMULATION_STEPS config))).
  { unfold should_update, update_rule. rewrite not_mod_nonzero by exact Hw.
    destruct (_ =? 0)%Z; reflexivity. }
  assert (Hdue : not_mod (Z.of_nat step) (PRINT_FREQ config) = Ok true).
  { rewrite not_mod_nonzero by exact Hf. rewrite Hstep. reflexivity. }
  assert (Hinfo :
    kd_loss_info
      (Some (kd_cls_loss (logits student_out) (logits teacher_out),
             layer_loss kd_reg_loss (BEGIN_LAYER config)
               (hidden_states student_out) (hidden_states teacher_out),
             layer_loss kd_reg_loss (BEGIN_LAYER config)
               (attentions student_out) (attentions teacher_out)))
    = Raise AttributeError).
  { apply kd_loss_info_float.
    destruct Hempty as [H|[H|[H|H]]];
      [left|left|right|right]; eexists; apply layer_loss_empty; auto. }
  subst o. rewrite train_step_res, train_step_events. cbv zeta.
  rewrite res_forward_and_loss. cbv zeta.
  cbn [loss_raw scale_loss outputs kd_losses fst snd].
  fold student_out teacher_out.
  destruct (res_clip_gradient config g
              (accelerator_backward C
                 (tensor_div C
                    (tensor_add_num
                       (tensor_add_num
                          (kd_cls_loss (logits student_out) (logits teacher_out))
                          (layer_loss kd_reg_loss (BEGIN_LAYER config)
                             (hidden_states student_out)
                             (hidden_states teacher_out)))
                       (layer_loss kd_reg_loss (BEGIN_LAYER config)
                          (attentions student_out) (attentions teacher_out)))
                    (GRADIENT_ACCUMULATION_STEPS config))
                 (final (forward_and_loss config (Some teacher)
                           (Some kd_cls_loss) (Some kd_reg_loss) b g w))))
    as [gn HK].
  rewrite HK, Hupd, res_for_evaluation, Hl, res_log_train_step, Hdue, Hinfo.
  split; [reflexivity|].
  unfold logged_train_steps.
  split; [|split; [|split]];
    read_trace; rewrite ?Hl, ?Hdue, ?Hinfo;
    destruct (update_rule _ _ _); finish_trace.
Qed.

(** X10.  A batch without labels.  [batch["labels"]] is first read at line
    108 (line 168 in [val]), after the predictions were gathered.  A training
    step on such a batch that gets as far as the update condition therefore
    raises [KeyError] only after its backward pass and, on an updating step,
    after its parameter update; [add_batch] is not called.  A validation
    step whose forward pass gave a loss raises [KeyError] in the same
    place. *)
Theorem missing_labels_raise_after_update :
  forall (config : Config C) epoch is_regression teacher_mode pruner teacher
         kd_cls_loss kd_reg_loss len step b g w,
    batch_labels C b = None ->
    (let o := train_step config epoch is_regression pruner teacher kd_cls_loss
                kd_reg_loss len step b g w in
     match update_decision config teacher kd_cls_loss kd_reg_loss len step b g w
     with
     | Some (_, update) =>
         res o = Raise KeyError
         /\ length (backward_args (events o)) = 1%nat
         /\ count (@is_optimizer_step C) (events o) = (if update then 1 else 0)%nat
         /\ count (@is_metric_call C) (events o) = 1%nat
         /\ filter (@is_add_batch C) (events o) = []
     | None => exists e, res o = Raise e /\ filter (@is_metric_call C) (events o) = []
     end)
    /\ (let o := val_step config epoch is_regression teacher_mode len step b g w in
        match loss (snd (model_call C false false b w)) with
        | Some _ =>
            res o = Raise KeyError
            /\ count (@is_metric_call C) (events o) = 1%nat
            /\ filter (@is_add_batch C) (events o) = []
        | None => res o = Raise AttributeError
        end).
Proof.
  intros config epoch is_regression teacher_mode pruner teacher kd_cls_loss
         kd_reg_loss len step b g w Hl.
  split; cbv zeta.
  - rewrite train_step_res, train_step_events.
    unfold update_decision, composed_loss, scale_loss. cbv zeta.
    destruct (res (forward_and_loss _ _ _ _ _ _ _)) as [c|e] eqn:HF.
    2:{ exists e. split; [reflexivity|]. read_trace. finish_trace. }
    destruct (loss_raw c) as [raw|].
    2:{ exists TypeError. split; [reflexivity|]. read_trace. finish_trace. }
    cbn [fst snd].
    destruct (res_clip_gradient config g
                (accelerator_backward C
                   (tensor_div C raw (GRADIENT_ACCUMULATION_STEPS config))
                   (final (forward_and_loss config teacher kd_cls_loss
                             kd_reg_loss b g w)))) as [gn HK].
    rewrite HK.
    destruct (should_update _ _ _) as [update|e].
    2:{ exists e. split; [reflexivity|]. read_trace. finish_trace. }
    rewrite res_for_evaluation, Hl.
    split; [reflexivity|].
    split; [|split; [|split]];
      read_trace; rewrite ?Hl; destruct update; finish_trace.
  - rewrite val_step_res, val_step_events. cbv zeta.
    destruct (loss _); [|reflexivity].
    rewrite res_for_evaluation, Hl.
    split; [reflexivity|].
    split; read_trace; rewrite ?Hl; finish_trace.
Qed.

End StepEdges.

(** * The edges on the concrete instances *)

Module EdgeFacts.

(** Stride 2 over three batches: lines at steps 0 and 2. *)
Lemma train_log_cadence_witness :
  logged_train_steps
    (events (train (@mkConfig Toy.collab 2 None 1 3 2) 1 false (Some Toy.pruner)
               (Some Toy.teacher) (Some Toy.kd_cls_loss) (Some Toy.kd_reg_loss)
               Toy.batches true Toy.w0))
  = [0; 2]%nat.
Proof.
  exact (proj1 (train_log_cadence (@mkConfig Toy.collab 2 None 1 3 2) 1 false
                  (Some Toy.pruner) (Some Toy.teacher) (Some Toy.kd_cls_loss)
                  (Some Toy.kd_reg_loss) ltac:(simpl; lia) Toy.batches true Toy.w0
                  (r := (145%Z, 0%Z, [1; 1; 1]%Z))
                  ltac:(vm_compute; reflexivity))).
Defined.

Lemma val_log_cadence_witness :
  logged_val_steps
    (events (val (@mkConfig Toy.collab 2 None 1 3 2) 1 false false
               Toy.batches true Toy.w0))
  = [0; 2]%nat.
Proof.
  exact (proj1 (val_log_cadence (@mkConfig Toy.collab 2 None 1 3 2) 1 false false
                  ltac:(simpl; lia) Toy.batches true Toy.w0
                  (r := (2%Z, 0%Z)) ltac:(vm_compute; reflexivity))).
Defined.

(** Batch 0 of the second instance has no loss. *)
Lemma missing_loss_is_fatal_witness :
  res (train_step (Edge.config 2 1 1) 1 false None None None None 3 0 0%Z
         true Edge.w0) = Raise TypeError
  /\ res (val_step (Edge.config 2 1 1) 1 false false 3 0 0%Z true Edge.w0)
     = Raise AttributeError.
Proof.
  destruct (missing_loss_is_fatal (Edge.config 2 1 1) 1 false false None None
              None 3 0 (0%Z : batch Edge.collab) true Edge.w0
              ltac:(intros; reflexivity)) as [[Ht _] [Hv _]].
  split; [exact Ht | exact Hv].
Defined.

(** Two attention layers and [BEGIN_LAYER = 2]: the first step crashes in
    its telemetry, after the work of the step. *)
Lemma kd_empty_layer_slice_breaks_telemetry_witness :
  res (train_step (Edge.config 2 1 2) 1 false None (Some Edge.teacher)
         (Some Toy.kd_cls_loss) (Some Toy.kd_reg_loss) 3 0 1%Z true Edge.w0)
  = Raise AttributeError.
Proof.
  exact (proj1 (kd_empty_layer_slice_breaks_telemetry (C := Edge.collab)
                  (Edge.config 2 1 2) 1 false None Edge.teacher
                  Toy.kd_cls_loss Toy.kd_reg_loss 3 0 (1%Z : batch Edge.collab)
                  true Edge.w0 (labels := (1%Z, false))
                  ltac:(right; right; left; reflexivity)
                  ltac:(simpl; lia) ltac:(simpl; lia)
                  ltac:(reflexivity) ltac:(reflexivity))).
Defined.

(** Batch -1 of the second instance has no labels; window 1, so that the
    step updates before it raises. *)
Lemma missing_labels_raise_after_update_witness :
  res (train_step (Edge.config 1 1 1) 1 false None None None None 3 0 (-1)%Z
         true Edge.w0) = Raise KeyError
  /\ count (@is_optimizer_step Edge.collab)
       (events (train_step (Edge.config 1 1 1) 1 false None None None None
                  3 0 (-1)%Z true Edge.w0)) = 1%nat
  /\ res (val_step (Edge.config 1 1 1) 1 false false 3 0 (-1)%Z true Edge.w0)
     = Raise KeyError.
Proof.
  destruct (missing_labels_raise_after_update (Edge.config 1 1 1) 1 false false
              None None None None 3 0 (-1)%Z true Edge.w0
              ltac:(reflexivity)) as [Ht Hv].
  cbv zeta in Ht, Hv.
  change (update_decision (Edge.config 1 1 1) None None None 3 0 (-1)%Z true
            Edge.w0)
    with (Some (mkComposed
                  (snd (model_call Edge.collab true false (-1)%Z Edge.w0))
                  (Some ((-1)%Z, false)) None, true)) in Ht.
  change (loss (snd (model_call Edge.collab false false (-1)%Z Edge.w0)))
    with (Some ((-1)%Z, false)) in Hv.
  destruct Ht as (Hr & _ & Ho & _). destruct Hv as (Hvr & _).
  split; [exact Hr|]. split; [exact Ho | exact Hvr].
Defined.

End EdgeFacts.


(** * The dataset preparation: facts about [data/glue/process.py] *)

Section DictFacts.

Import Process.

Variables K V : Type.
Variable eqb : K -> K -> bool.
Hypothesis eqb_eq : forall a b, eqb a b = true <-> a = b.

Lemma eqb_same (k : K) : eqb k k = true.
Proof. now apply eqb_eq. Qed.

Lemma eqb_other (k k' : K) : k <> k' -> eqb k k' = false.
Proof.
  intros Hne. destruct (eqb k k') eqn:E; [|reflexivity].
  apply eqb_eq in E. contradiction.
Qed.

Lemma dict_get_set_same (k : K) (v : V) (d : list (K * V)) :
  dict_get eqb k (dict_set eqb k v d) = Some v.
Proof.
  induction d as [|[k' v'] d IH]; cbn.
  - now rewrite eqb_same.
  - destruct (eqb k k') eqn:E; cbn; rewrite E; [reflexivity | exact IH].
Qed.

Lemma dict_get_set_other (k k' : K) (v : V) (d : list (K * V)) :
  k <> k' -> dict_get eqb k (dict_set eqb k' v d) = dict_get eqb k d.
Proof.
  intros Hne. induction d as [|[k0 v0] d IH]; cbn.
  - now rewrite (eqb_other Hne).
  - destruct (eqb k' k0) eqn:E; cbn.
    + apply eqb_eq in E. subst k0. now rewrite (eqb_other Hne).
    + now rewrite IH.
Qed.

Lemma dict_of_snoc (items : list (K * V)) (k : K) (v : V) :
  dict_of eqb (items ++ [(k, v)]) = dict_set eqb k v (dict_of eqb items).
Proof. unfold dict_of. now rewrite fold_left_app. Qed.

Lemma in_dict_set (p : K * V) (k : K) (v : V) (d : list (K * V)) :
  In p (dict_set eqb k v d) -> p = (k, v) \/ In p d.
Proof.
  induction d as [|[k' v'] d IH]; cbn.
  - intros [H|[]]. now left.
  - destruct (eqb k k') eqn:E; cbn.
    + apply eqb_eq in E. subst k'. intros [H|H]; [now left | now right; right].
    + intros [H|H]; [now right; left|].
      destruct (IH H) as [H'|H']; [now left | now right; right].
Qed.

Lemma dict_get_in (k : K) (v : V) (d : list (K * V)) :
  dict_get eqb k d = Some v -> In (k, v) d.
Proof.
  induction d as [|[k' v'] d IH]; cbn; [discriminate|].
  destruct (eqb k k') eqn:E.
  - apply eqb_eq in E. subst k'. intros [= ->]. now left.
  - intros H. right. now apply IH.
Qed.

Lemma dict_get_key (k : K) (d : list (K * V)) :
  In k (map fst d) -> exists v, dict_get eqb k d = Some v.
Proof.
  induction d as [|[k' v'] d IH]; cbn; [intros []|].
  intros [H|H].
  - subst k'. rewrite eqb_same. now exists v'.
  - destruct (eqb k k'); [now exists v' | now apply IH].
Qed.

End DictFacts.

Arguments dict_get_set_same [K V eqb] eqb_eq k v d.
Arguments dict_get_set_other [K V eqb] eqb_eq [k k'] v d _.
Arguments in_dict_set [K V eqb] eqb_eq [p k v d] _.
Arguments dict_get_in [K V eqb] eqb_eq [k v d] _.
Arguments dict_get_key [K V eqb] eqb_eq [k d] _.

Section LabelFacts.

Import Process.

Lemma pyval_eqb_eq (a b : pyval) : pyval_eqb a b = true <-> a = b.
Proof.
  destruct a as [x|x], b as [y|y]; cbn; split; try discriminate.
  - intros H. apply Z.eqb_eq in H. now subst.
  - intros [= ->]. apply Z.eqb_refl.
  - intros H. apply String.eqb_eq in H. now subst.
  - intros [= ->]. apply String.eqb_refl.
Qed.

Lemma list_eqb_eq (a b : list pyval) : list_eqb a b = true -> a = b.
Proof.
  revert b. induction a as [|x a IH]; intros [|y b]; cbn; try discriminate.
  - reflexivity.
  - intros H. apply andb_true_iff in H. destruct H as [H1 H2].
    apply pyval_eqb_eq in H1. subst y. now rewrite (IH b H2).
Qed.

Lemma list_eqb_same (a : list pyval) : list_eqb a a = true.
Proof.
  induction a as [|x a IH]; cbn; [reflexivity|].
  rewrite IH. now rewrite (proj2 (pyval_eqb_eq x x) eq_refl).
Qed.

Lemma index_inj (i j : nat) : index i = index j -> i = j.
Proof. unfold index. intros [= H]. now apply Nat2Z.inj. Qed.

Lemma existsb_pyval (v : pyval) (l : list pyval) :
  existsb (pyval_eqb v) l = true <-> In v l.
Proof.
  rewrite existsb_exists. split.
  - intros [x [Hin Hx]]. apply pyval_eqb_eq in Hx. now subst.
  - intros H. exists v. split; [exact H | now apply pyval_eqb_eq].
Qed.

(** *** [enumerate] *)

Lemma combine_seq_snoc (A : Type) (l : list A) (x : A) (s : nat) :
  combine (seq s (length (l ++ [x]))) (l ++ [x])
  = combine (seq s (length l)) l ++ [((s + length l)%nat, x)].
Proof.
  revert s. induction l as [|y l IH]; intros s; cbn.
  - now rewrite Nat.add_0_r.
  - rewrite IH. now rewrite Nat.add_succ_r.
Qed.

Lemma enumerate_snoc (A : Type) (l : list A) (x : A) :
  enumerate (l ++ [x]) = enumerate l ++ [(length l, x)].
Proof. unfold enumerate. now rewrite combine_seq_snoc. Qed.

Lemma enumerated_label_to_id_snoc (l : list pyval) (x : pyval) :
  enumerated_label_to_id (l ++ [x])
  = dict_set pyval_eqb x (index (length l)) (enumerated_label_to_id l).
Proof.
  unfold enumerated_label_to_id.
  rewrite enumerate_snoc, map_app. cbn [map fst snd].
  now rewrite dict_of_snoc.
Qed.


Lemma nth_error_snoc_last (A : Type) (l : list A) (x : A) :
  nth_error (l ++ [x]) (length l) = Some x.
Proof.
  rewrite nth_error_app2 by lia. now rewrite Nat.sub_diag.
Qed.

Lemma nth_error_snoc_before (A : Type) (l : list A) (x y : A) (i : nat) :
  nth_error l i = Some y -> nth_error (l ++ [x]) i = Some y.
Proof.
  intros H. rewrite nth_error_app1; [exact H|].
  apply nth_error_Some. now rewrite H.
Qed.

(** Every item of [{v: i for i, v in enumerate(label_list)}] pairs a label
    with a position where it stands. *)
Lemma enumerated_label_to_id_items (l : list pyval) (k w : pyval) :
  In (k, w) (enumerated_label_to_id l) ->
  exists i, w = index i /\ nth_error l i = Some k.
Proof.
  induction l as [|x l IH] using rev_ind; [intros []|].
  rewrite enumerated_label_to_id_snoc. intros H.
  apply (in_dict_set pyval_eqb_eq) in H. destruct H as [H|H].
  - inversion H. subst. exists (length l). split; [reflexivity|].
    apply nth_error_snoc_last.
  - destruct (IH H) as [i [Hw Hi]]. exists i. split; [exact Hw|].
    now apply nth_error_snoc_before.
Qed.

Lemma enumerated_label_to_id_get (l : list pyval) (v : pyval) :
  In v l ->
  exists i, lget v (enumerated_label_to_id l) = Some (index i)
            /\ nth_error l i = Some v.
Proof.
  unfold lget.
  induction l as [|x l IH] using rev_ind; [intros []|].
  rewrite enumerated_label_to_id_snoc. intros H.
  destruct (pyval_eqb v x) eqn:E.
  - apply pyval_eqb_eq in E. subst x. exists (length l).
    rewrite (dict_get_set_same pyval_eqb_eq). split; [reflexivity|].
    apply nth_error_snoc_last.
  - assert (Hne : v <> x).
    { intros ->. now rewrite (proj2 (pyval_eqb_eq x x) eq_refl) in E. }
    apply in_app_or in H. destruct H as [H|[H|[]]]; [|now subst].
    destruct (IH H) as [i [Hg Hi]]. exists i.
    rewrite (dict_get_set_other pyval_eqb_eq) by exact Hne.
    split; [exact Hg | now apply nth_error_snoc_before].
Qed.

Lemma enumerated_label_to_id_unknown (l : list pyval) (v : pyval) :
  existsb (pyval_eqb v) l = false -> lget v (enumerated_label_to_id l) = None.
Proof.
  intros H. unfold lget.
  destruct (dict_get pyval_eqb v (enumerated_label_to_id l)) as [w|] eqn:E;
    [|reflexivity].
  apply (dict_get_in pyval_eqb_eq) in E.
  apply enumerated_label_to_id_items in E. destruct E as [i [_ Hi]].
  apply nth_error_In in Hi. apply existsb_pyval in Hi. congruence.
Qed.


(** *** The inverse dict *)

Lemma inverted_snoc (d : ldict) (k w : pyval) :
  inverted (d ++ [(k, w)]) = dict_set pyval_eqb w k (inverted d).
Proof.
  unfold inverted. rewrite map_app. cbn [map fst snd].
  now rewrite dict_of_snoc.
Qed.

(** Where no two items share a value, the inverse dict answers each value
    with its key. *)
Lemma inverted_get (d : ldict) :
  (forall k k' w, In (k, w) d -> In (k', w) d -> k = k') ->
  forall k w, In (k, w) d -> lget w (inverted d) = Some k.
Proof.
  unfold lget.
  induction d as [|[k0 w0] d IH] using rev_ind; intros Hinj k w Hin;
    [destruct Hin|].
  rewrite inverted_snoc.
  destruct (pyval_eqb w w0) eqn:E.
  - apply pyval_eqb_eq in E. subst w0.
    assert (k = k0) as ->.
    { apply (Hinj k k0 w); [exact Hin|]. apply in_or_app. right. now left. }
    apply (dict_get_set_same pyval_eqb_eq).
  - assert (Hne : w <> w0).
    { intros ->. now rewrite (proj2 (pyval_eqb_eq w0 w0) eq_refl) in E. }
    rewrite (dict_get_set_other pyval_eqb_eq) by exact Hne.
    apply IH.
    + intros a b c Ha Hb.
      apply (Hinj a b c); apply in_or_app; now left.
    + apply in_app_or in Hin. destruct Hin as [Hin|[Hin|[]]]; [exact Hin|].
      inversion Hin. subst. contradiction.
Qed.

Lemma enumerated_round_trip (l : list pyval) (v : pyval) :
  In v l ->
  exists i, lget v (enumerated_label_to_id l) = Some (index i)
            /\ nth_error l i = Some v
            /\ lget (index i) (inverted (enumerated_label_to_id l)) = Some v.
Proof.
  intros Hin. destruct (enumerated_label_to_id_get l v Hin) as [i [Hg Hi]].
  exists i. split; [exact Hg|]. split; [exact Hi|].
  apply inverted_get.
  - intros k k' w Hk Hk'.
    apply enumerated_label_to_id_items in Hk, Hk'.
    destruct Hk as [a [-> Ha]], Hk' as [b [Hb Hb']].
    apply index_inj in Hb. subst b. congruence.
  - apply (dict_get_in pyval_eqb_eq). exact Hg.
Qed.

(** *** [sorted] keeps the elements *)

Lemma py_insert_in (x : pyval) (s s' : list pyval) :
  py_insert x s = Done s' -> forall y, In y s' <-> y = x \/ In y s.
Proof.
  revert s'. induction s as [|z s IH]; intros s'; cbn.
  - intros [= <-] y. cbn. intuition.
  - destruct (py_lt z x) as [[|]|] eqn:E; cbn; [| |discriminate].
    + destruct (py_insert x s) as [r|] eqn:Er; cbn; [|discriminate].
      intros [= <-] y. cbn. rewrite (IH r eq_refl y). intuition.
    + intros [= <-] y. cbn. intuition.
Qed.

Lemma py_sorted_in (l s : list pyval) :
  py_sorted l = Done s -> forall y, In y s <-> In y l.
Proof.
  revert s. induction l as [|x l IH]; intros s; cbn.
  - intros [= <-] y. reflexivity.
  - destruct (py_sorted l) as [r|] eqn:Er; cbn; [|discriminate].
    intros H y. rewrite (py_insert_in _ _ H y), (IH r eq_refl y).
    intuition.
Qed.

Section Model.

Variable lower : String.string -> String.string.

(** *** The model's labels, lower-cased *)

Lemma label_name_to_id_snoc (m : ldict) (kv : pyval * pyval) :
  label_name_to_id lower (m ++ [kv])
  = and_then (label_name_to_id lower m)
      (fun d => match fst kv with
                | PStr k => Done (dict_set pyval_eqb (PStr (lower k)) (snd kv) d)
                | PInt _ => Failed PyAttributeError
                end).
Proof. unfold label_name_to_id. now rewrite fold_left_app. Qed.

Lemma label_name_to_id_items (m n2i : ldict) (l id : pyval) :
  label_name_to_id lower m = Done n2i -> In (l, id) n2i ->
  exists k, In (PStr k, id) m /\ l = PStr (lower k).
Proof.
  revert n2i. induction m as [|[k0 v0] m IH] using rev_ind; intros n2i.
  - cbn. intros [= <-] [].
  - rewrite label_name_to_id_snoc.
    destruct (label_name_to_id lower m) as [d|] eqn:Ed; cbn; [|discriminate].
    destruct k0 as [z|k]; [discriminate|].
    intros [= <-] Hin.
    apply (in_dict_set pyval_eqb_eq) in Hin. destruct Hin as [Hin|Hin].
    + inversion Hin. subst. exists k. split; [|reflexivity].
      apply in_or_app. right. now left.
    + destruct (IH d eq_refl Hin) as [k' [Hk' Hl]]. exists k'.
      split; [|exact Hl]. apply in_or_app. now left.
Qed.

(** *** The ids of the dataset's labels, read from the model *)

Lemma model_label_to_id_S (n2i : ldict) (ll : list pyval) (k : nat) :
  model_label_to_id n2i ll (Z.of_nat (S k))
  = and_then (model_label_to_id n2i ll (Z.of_nat k)) (fun d =>
      match nth_error ll k with
      | None => Failed PyIndexError
      | Some label =>
          match lget label n2i with
          | None => Failed PyKeyError
          | Some id => Done (dict_set pyval_eqb (index k) id d)
          end
      end).
Proof.
  unfold model_label_to_id. rewrite !Nat2Z.id.
  now rewrite seq_S, fold_left_app.
Qed.

Lemma model_label_to_id_get (n2i : ldict) (ll : list pyval) (k : nat)
    (d : ldict) :
  model_label_to_id n2i ll (Z.of_nat k) = Done d ->
  forall i, (i < k)%nat ->
  exists label id, nth_error ll i = Some label
                   /\ lget label n2i = Some id
                   /\ lget (index i) d = Some id.
Proof.
  revert d. induction k as [|k IH]; intros d H i Hi; [lia|].
  rewrite model_label_to_id_S in H.
  destruct (model_label_to_id n2i ll (Z.of_nat k)) as [d0|] eqn:E0;
    cbn in H; [|discriminate].
  destruct (nth_error ll k) as [label|] eqn:El; [|discriminate].
  destruct (lget label n2i) as [id|] eqn:Eid; [|discriminate].
  inversion H. subst d. clear H.
  destruct (Nat.eq_dec i k) as [->|Hne].
  - exists label, id. split; [exact El|]. split; [exact Eid|].
    apply (dict_get_set_same pyval_eqb_eq).
  - destruct (IH d0 eq_refl i ltac:(lia)) as [l' [id' [H1 [H2 H3]]]].
    exists l', id'. split; [exact H1|]. split; [exact H2|].
    unfold lget.
    rewrite (dict_get_set_other pyval_eqb_eq)
      by (intros Hi'; apply index_inj in Hi'; contradiction).
    exact H3.
Qed.

(** With every dataset label among the model's, the ids are found as long as
    [label_list] has an entry to look at. *)
Lemma model_label_to_id_known (n2i : ldict) (ll : list pyval) :
  (forall l, In l ll -> In l (map fst n2i)) ->
  forall k,
    match model_label_to_id n2i ll (Z.of_nat k) with
    | Done _ => (k <= length ll)%nat
    | Failed e => e = PyIndexError /\ (length ll < k)%nat
    end.
Proof.
  intros Hall. induction k as [|k IH]; [cbn; lia|].
  rewrite model_label_to_id_S.
  destruct (model_label_to_id n2i ll (Z.of_nat k)) as [d0|e]; cbn.
  - destruct (nth_error ll k) as [label|] eqn:El.
    + assert (Hin : In label ll) by (eapply nth_error_In; exact El).
      destruct (dict_get_key pyval_eqb_eq (Hall _ Hin)) as [id Hid].
      unfold lget. rewrite Hid.
      apply Nat.le_succ_l. apply nth_error_Some. now rewrite El.
    + apply nth_error_None in El. split; [reflexivity | lia].
  - destruct IH as [-> Hlt]. split; [reflexivity | lia].
Qed.

End Model.

End LabelFacts.

Section Preparation.

Import Process.
Import String.StringSyntax.

Variable TASK_TO_KEYS : String.string -> option (String.string * option String.string).
Variable default_label2id : Z -> ldict.
Variable lower : String.string -> String.string.
Variable enc : Type.
Variable tokenizer : list (list pyval) -> bool -> Z -> list (String.string * enc).
Variable features : Type.
Variable data_map :
  (list (String.string * list pyval) -> attempt (list (String.string * column enc))) ->
  list String.string -> bool -> features.

#[local] Abbreviation sentence_keys := (sentence_keys TASK_TO_KEYS).
#[local] Abbreviation choose_label_to_id :=
  (choose_label_to_id default_label2id lower).
#[local] Abbreviation generate_features := (generate_features tokenizer).
#[local] Abbreviation preprocess_data :=
  (preprocess_data TASK_TO_KEYS default_label2id lower tokenizer data_map).

Lemma in_not_label (name : String.string) (columns : list String.string) :
  In name (filter not_label columns) ->
  In name columns /\ String.eqb name "label"%string = false.
Proof.
  intros H. apply filter_In in H. destruct H as [H1 H2]. split; [exact H1|].
  unfold not_label in H2. now apply negb_true_iff in H2.
Qed.

Lemma existsb_filter_not_label (name : String.string)
    (columns : list String.string) :
  not_label name = true ->
  existsb (String.eqb name) (filter not_label columns)
  = existsb (String.eqb name) columns.
Proof.
  intros Hname. induction columns as [|c columns IH]; cbn; [reflexivity|].
  destruct (not_label c) eqn:Ec; cbn; rewrite IH; [reflexivity|].
  destruct (String.eqb name c) eqn:E; [|reflexivity].
  apply String.eqb_eq in E. subst c. congruence.
Qed.

(** X11.  Without a task name the text columns are chosen among the columns
    of the train split: [sentence1] and [sentence2] when the split has both;
    else, of the columns other than [label] taken in their order, the first
    two, or the only one (and no second key), and [IndexError] when there is
    none.  So the [label] column is never chosen, and the choice fails
    exactly when [label] is all there is. *)
Theorem default_sentence_keys_choice (columns : list String.string) :
  sentence_keys None (Some columns)
  = (if existsb (String.eqb "sentence1"%string) columns
        && existsb (String.eqb "sentence2"%string) columns
     then Done ("sentence1"%string, Some "sentence2"%string)
     else match filter not_label columns with
          | first :: second :: _ => Done (first, Some second)
          | [only] => Done (only, None)
          | [] => Failed PyIndexError
          end)
  /\ match sentence_keys None (Some columns) with
     | Done (key1, key2) =>
         (In key1 columns /\ String.eqb key1 "label"%string = false)
         /\ match key2 with
            | Some key => In key columns /\ String.eqb key "label"%string = false
            | None => length (filter not_label columns) = 1%nat
            end
     | Failed e => e = PyIndexError /\ filter not_label columns = []
     end.
Proof.
  unfold Process.sentence_keys.
  rewrite !existsb_filter_not_label by reflexivity.
  destruct (existsb (String.eqb "sentence1"%string) columns
            && existsb (String.eqb "sentence2"%string) columns) eqn:Eboth.
  - split; [reflexivity|].
    apply andb_true_iff in Eboth. destruct Eboth as [E1 E2].
    apply existsb_exists in E1, E2.
    destruct E1 as [x1 [H1 X1]], E2 as [x2 [H2 X2]].
    apply String.eqb_eq in X1, X2. subst x1 x2.
    split; (split; [assumption | reflexivity]).
  - destruct (filter not_label columns) as [|k1 [|k2 rest]] eqn:Ef; cbn.
    + split; [reflexivity|]. now split.
    + split; [reflexivity|]. split; [|reflexivity].
      apply in_not_label. rewrite Ef. now left.
    + split; [reflexivity|].
      split; apply in_not_label; rewrite Ef; [now left | now right; left].
Qed.


Lemma choose_label_to_id_without_task (model_label2id : ldict)
    (is_regression : bool) (label_list : list pyval) (num_labels : Z) :
  choose_label_to_id model_label2id None is_regression label_list num_labels
  = ([], Done (Some (enumerated_label_to_id label_list))).
Proof.
  unfold Process.choose_label_to_id. now rewrite andb_false_r.
Qed.


Lemma labels_decode (label_list : list pyval) (labels : list pyval) :
  Forall2
    (fun label id =>
       match id with
       | Some i =>
           lget i (inverted (enumerated_label_to_id label_list)) = Some label
       | None => existsb (pyval_eqb label) label_list = false
       end)
    labels
    (map (fun l => lget l (enumerated_label_to_id label_list)) labels).
Proof.
  induction labels as [|l labels IH]; cbn; constructor; [|exact IH].
  destruct (existsb (pyval_eqb l) label_list) eqn:E.
  - apply existsb_pyval in E.
    destruct (enumerated_round_trip label_list l E) as [i [Hg [_ Hback]]].
    rewrite Hg. exact Hback.
  - now rewrite (enumerated_label_to_id_unknown label_list l E).
Qed.

Lemma generate_features_labels (keys : String.string * option String.string)
    (label_to_id : option ldict) (pad_to_max : bool) (max_seq_length : Z)
    (examples : list (String.string * list pyval)) (labels : list pyval)
    (result : list (String.string * column enc)) :
  generate_features keys label_to_id pad_to_max max_seq_length examples
  = Done result ->
  dict_get String.eqb "label"%string examples = Some labels ->
  dict_get String.eqb "labels"%string result
  = Some (Values (match label_to_id with
                  | Some d => map (fun l => lget l d) labels
                  | None => map Some labels
                  end)).
Proof.
  unfold Process.generate_features. intros H Hl. rewrite Hl in H.
  match type of H with
  | and_then ?m _ = _ => destruct m as [texts|e]; cbn in H; [|discriminate]
  end.
  inversion H. apply (dict_get_set_same String.eqb_eq).
Qed.

(** X13.  Without a task name the ids that [generate_features] writes under
    [labels] decode back: for every example whose label stands in
    [label_list], the id written is sent by the [id2label] of the updated
    configuration to that very label; every other label (a test split marked
    with -1, say) gets [None].  The [labels] column has one entry for each
    entry of the [label] column. *)
Theorem written_label_ids_decode
    (model_config : LabelConfig) (num_labels : Z) (label_list : list pyval)
    (is_regression pad_to_max : bool) (max_seq_length : Z)
    (keys : String.string * option String.string)
    (label_to_id : option ldict)
    (examples : list (String.string * list pyval)) (labels : list pyval)
    (result : list (String.string * column enc)) :
  snd (choose_label_to_id (label2id model_config) None is_regression
         label_list num_labels) = Done label_to_id ->
  generate_features keys label_to_id pad_to_max max_seq_length examples
  = Done result ->
  dict_get String.eqb "label"%string examples = Some labels ->
  exists ids,
    dict_get String.eqb "labels"%string result = Some (Values ids)
    /\ Forall2
         (fun label id =>
            match id with
            | Some i =>
                lget i (id2label (update_config model_config label_to_id None
                                    is_regression label_list)) = Some label
            | None => existsb (pyval_eqb label) label_list = false
            end)
         labels ids.
Proof.
  rewrite choose_label_to_id_without_task. cbn [snd].
  intros [= <-] Hg Hl.
  rewrite (generate_features_labels _ _ _ _ _ Hg Hl).
  eexists. split; [reflexivity|]. cbn.
  apply labels_decode.
Qed.

Lemma choose_label_to_id_from_model (model_label2id : ldict)
    (task : String.string) (is_regression : bool) (label_list : list pyval)
    (num_labels : Z) (d : ldict) :
  snd (choose_label_to_id model_label2id (Some task) is_regression label_list
         num_labels) = Done (Some d) ->
  exists name_to_id,
    label_name_to_id lower model_label2id = Done name_to_id
    /\ model_label_to_id name_to_id label_list num_labels = Done d.
Proof.
  unfold Process.choose_label_to_id.
  destruct (negb (dict_eqb model_label2id (default_label2id num_labels))
            && true && negb is_regression); [|discriminate].
  destruct (label_name_to_id lower model_label2id) as [n2i|]; [|discriminate].
  destruct (py_sorted (map fst n2i)) as [s1|]; [|discriminate].
  destruct (py_sorted label_list) as [s2|]; [|discriminate].
  destruct (list_eqb s1 s2); [|discriminate].
  cbn [snd].
  destruct (model_label_to_id n2i label_list num_labels) as [d'|] eqn:E;
    cbn; [|discriminate].
  intros [= <-]. now exists n2i.
Qed.

(** X14.  When the labels of the model are used (a task name is given and
    [label_to_id] comes from [model.config.label2id]), [label_to_id] sends
    each class index below [num_labels] to the id the model gives to the
    dataset's label at that index, the model's label names being compared
    in lower case. *)
Theorem model_ids_follow_dataset_order
    (model_label2id : ldict) (task : String.string) (is_regression : bool)
    (label_list : list pyval) (num_labels : Z) (d : ldict) (i : nat) :
  snd (choose_label_to_id model_label2id (Some task) is_regression label_list
         num_labels) = Done (Some d) ->
  (Z.of_nat i < num_labels)%Z ->
  exists name id,
    nth_error label_list i = Some (PStr (lower name))
    /\ In (PStr name, id) model_label2id
    /\ lget (index i) d = Some id.
Proof.
  intros H Hi.
  destruct (choose_label_to_id_from_model _ _ _ _ _ H) as [n2i [Hn Hd]].
  assert (Hn' : num_labels = Z.of_nat (Z.to_nat num_labels)) by lia.
  rewrite Hn' in Hd.
  destruct (@model_label_to_id_get n2i label_list (Z.to_nat num_labels) d Hd i
              ltac:(lia))
    as [label [id [H1 [H2 H3]]]].
  apply (dict_get_in pyval_eqb_eq) in H2.
  destruct (@label_name_to_id_items lower model_label2id n2i label id Hn H2) as [name [Hin ->]].
  exists name, id. split; [exact H1|]. split; [exact Hin | exact H3].
Qed.

(** X15.  When the model's label names, in lower case, are the dataset's
    labels, the only thing that can go wrong in reading the model's ids is
    [num_labels] exceeding the length of [label_list]: the result is then
    [IndexError]; otherwise [label_to_id] is built (no [KeyError] is
    possible). *)
Theorem matching_model_labels_outcome
    (model_label2id name_to_id : ldict) (task : String.string)
    (label_list sorted_labels : list pyval) (num_labels : Z) :
  dict_eqb model_label2id (default_label2id num_labels) = false ->
  label_name_to_id lower model_label2id = Done name_to_id ->
  py_sorted (map fst name_to_id) = Done sorted_labels ->
  py_sorted label_list = Done sorted_labels ->
  match snd (choose_label_to_id model_label2id (Some task) false label_list
               num_labels) with
  | Done (Some _) => (Z.to_nat num_labels <= length label_list)%nat
  | Done None => False
  | Failed e => e = PyIndexError
                /\ (length label_list < Z.to_nat num_labels)%nat
  end.
Proof.
  intros Hne Hn Hs1 Hs2.
  unfold Process.choose_label_to_id.
  rewrite Hne, Hn, Hs1, Hs2, list_eqb_same. cbn.
  assert (Hall : forall l, In l label_list -> In l (map fst name_to_id)).
  { intros l Hl. apply (py_sorted_in _ Hs1). now apply (py_sorted_in _ Hs2). }
  pose proof (model_label_to_id_known name_to_id label_list Hall
                (Z.to_nat num_labels)) as Hk.
  replace (model_label_to_id name_to_id label_list
             (Z.of_nat (Z.to_nat num_labels)))
    with (model_label_to_id name_to_id label_list num_labels) in Hk
    by (unfold model_label_to_id; now rewrite Nat2Z.id).
  destruct (model_label_to_id name_to_id label_list num_labels); cbn; exact Hk.
Qed.


(** X17.  For a regression task with a task name the labels are left alone:
    [model.config] keeps its [label2id] and [id2label], the one line logged
    shows them, and the function given to [data.map] copies the [label]
    column to [labels] value by value. *)
Theorem regression_leaves_labels_alone
    (columns : list String.string)
    (task : String.string) (keys : String.string * option String.string)
    (model_config : LabelConfig) (num_labels : Z) (label_list : list pyval)
    (pad_to_max : bool) (max_seq_length : Z) (load_from_cache : bool)
    (examples : list (String.string * list pyval)) (labels : list pyval) :
  TASK_TO_KEYS task = Some keys ->
  dict_get String.eqb "label"%string examples = Some labels ->
  let ran := preprocess_data (Some columns) model_config num_labels label_list
               true pad_to_max max_seq_length load_from_cache (Some task) in
  let transform := generate_features keys None pad_to_max max_seq_length in
  config_after ran = model_config
  /\ logged ran = [ConfigLabels (label2id model_config) (id2label model_config)]
  /\ returned ran = Done (data_map transform columns load_from_cache)
  /\ match transform examples with
     | Done result =>
         dict_get String.eqb "labels"%string result
         = Some (Values (map Some labels))
     | Failed e => e = PyKeyError
     end.
Proof.
  intros Hk Hl.
  unfold Process.preprocess_data, Process.sentence_keys,
    Process.choose_label_to_id.
  rewrite Hk, andb_false_r. cbn.
  split; [reflexivity|]. split; [reflexivity|]. split; [reflexivity|].
  destruct (generate_features keys None pad_to_max max_seq_length examples)
    as [res|e] eqn:E.
  - exact (generate_features_labels _ _ _ _ _ E Hl).
  - unfold Process.generate_features in E.
    destruct (snd keys);
      destruct (dict_get String.eqb (fst keys) examples); cbn in E;
      try (destruct (dict_get String.eqb s examples); cbn in E);
      try rewrite Hl in E; congruence.
Qed.

Lemma dict_get_encoded (k : String.string)
    (encoding : list (String.string * enc)) :
  dict_get String.eqb k (map (fun kx => (fst kx, Encoded (snd kx))) encoding)
  = option_map (@Encoded enc) (dict_get String.eqb k encoding).
Proof.
  induction encoding as [|[k' x] encoding IH]; cbn; [reflexivity|].
  now destruct (String.eqb k k').
Qed.

Lemma generate_features_other_key (k : String.string)
    (labels : option (list (option pyval)))
    (encoding : list (String.string * enc)) :
  String.eqb k "labels"%string = false ->
  dict_get String.eqb k
    (match labels with
     | Some ids =>
         dict_set String.eqb "labels"%string (Values ids)
           (map (fun kx => (fst kx, Encoded (snd kx))) encoding)
     | None => map (fun kx => (fst kx, Encoded (snd kx))) encoding
     end)
  = option_map (@Encoded enc) (dict_get String.eqb k encoding).
Proof.
  intros Hk. destruct labels as [ids|]; [|apply dict_get_encoded].
  rewrite (dict_get_set_other String.eqb_eq).
  - apply dict_get_encoded.
  - intros ->. now rewrite String.eqb_refl in Hk.
Qed.

(** X18.  [generate_features] fails only for want of a text column, with
    [KeyError]; otherwise it returns the tokenizer's encoding of those
    columns (one, or two in the order of the keys) with every key other than
    [labels] as the tokenizer gave it.  [labels] is the only key it writes. *)
Theorem generate_features_keeps_encoding
    (keys : String.string * option String.string)
    (label_to_id : option ldict) (pad_to_max : bool) (max_seq_length : Z)
    (examples : list (String.string * list pyval)) (k : String.string) :
  String.eqb k "labels"%string = false ->
  match generate_features keys label_to_id pad_to_max max_seq_length
          examples with
  | Done result =>
      exists texts,
        Forall2 (fun key text => dict_get String.eqb key examples = Some text)
          (fst keys :: match snd keys with Some key2 => [key2] | None => [] end)
          texts
        /\ dict_get String.eqb k result
           = option_map (@Encoded enc)
               (dict_get String.eqb k
                  (tokenizer texts pad_to_max max_seq_length))
  | Failed e =>
      e = PyKeyError
      /\ existsb
           (fun key => match dict_get String.eqb key examples with
                       | Some _ => false
                       | None => true
                       end)
           (fst keys :: match snd keys with Some key2 => [key2] | None => [] end)
         = true
  end.
Proof.
  intros Hk. unfold Process.generate_features.
  destruct keys as [key1 [key2|]]; cbn [fst snd existsb];
    destruct (dict_get String.eqb key1 examples) as [t1|] eqn:E1; cbn;
    try (split; reflexivity).
  - destruct (dict_get String.eqb key2 examples) as [t2|] eqn:E2; cbn.
    + match goal with
      | |- match (match ?l with Some _ => _ | None => _ end) with _ => _ end =>
          destruct l as [labels|]
      end.
      * exists [t1; t2]. split; [repeat constructor; assumption|].
        apply (generate_features_other_key k
                 (Some match label_to_id with
                       | Some d => map (fun l => lget l d) labels
                       | None => map Some labels
                       end) _ Hk).
      * exists [t1; t2]. split; [repeat constructor; assumption|].
        apply (generate_features_other_key k None _ Hk).
    + split; reflexivity.
  - match goal with
    | |- match (match ?l with Some _ => _ | None => _ end) with _ => _ end =>
        destruct l as [labels|]
    end.
    + exists [t1]. split; [repeat constructor; assumption|].
      apply (generate_features_other_key k
               (Some match label_to_id with
                     | Some d => map (fun l => lget l d) labels
                     | None => map Some labels
                     end) _ Hk).
    + exists [t1]. split; [repeat constructor; assumption|].
      apply (generate_features_other_key k None _ Hk).
Qed.

End Preparation.

Module GlueFacts.

Import Process.
Import String.StringSyntax.
#[local] Open Scope string_scope.

#[local] Abbreviation preprocess_data :=
  (preprocess_data Glue.TASK_TO_KEYS Glue.default_label2id Glue.lower
     Glue.tokenizer Glue.data_map).
#[local] Abbreviation choose_label_to_id :=
  (choose_label_to_id Glue.default_label2id Glue.lower).

Example mnli_model_labels_used :
  choose_label_to_id (label2id Glue.mnli_model) (Some "mnli"%string) false
    Glue.mnli_labels 3
  = ([UsingModelLabels
        [(PStr "contradiction", PInt 0); (PStr "entailment", PInt 1);
         (PStr "neutral", PInt 2)]],
     Done (Some [(PInt 0, PInt 1); (PInt 1, PInt 2); (PInt 2, PInt 0)])).
Proof. vm_compute. reflexivity. Qed.


(** The batch has a label that is not in the list: it is written as
    [None]. *)
Lemma written_label_ids_decode_witness :
  exists ids,
    dict_get String.eqb "labels"
      [("input_ids", Encoded
          [[PStr "a b"; PStr "c"; PStr "d e"]; [PStr "b"; PStr "f"; PStr "e"]]);
       ("labels", Values [Some (PInt 1); Some (PInt 0); None])]
    = Some (Values ids)
    /\ Forall2
         (fun label id =>
            match id with
            | Some i =>
                lget i (id2label
                          (update_config Glue.mnli_model
                             (Some [(PStr "entailment", PInt 0);
                                    (PStr "neutral", PInt 1)])
                             None false [PStr "entailment"; PStr "neutral"]))
                = Some label
            | None =>
                existsb (pyval_eqb label) [PStr "entailment"; PStr "neutral"]
                = false
            end)
         [PStr "neutral"; PStr "entailment"; PInt (-1)] ids.
Proof.
  exact (written_label_ids_decode Glue.default_label2id Glue.lower
           Glue.tokenizer Glue.mnli_model 2 [PStr "entailment"; PStr "neutral"]
           false true 128 ("premise", Some "hypothesis") Glue.batch
           ltac:(reflexivity) ltac:(reflexivity) ltac:(reflexivity)).
Defined.

(** Class 0 of the dataset, [entailment], is class 1 of the model. *)
Lemma model_ids_follow_dataset_order_witness :
  exists name id,
    nth_error Glue.mnli_labels 0 = Some (PStr (Glue.lower name))
    /\ In (PStr name, id) (label2id Glue.mnli_model)
    /\ lget (index 0) [(PInt 0, PInt 1); (PInt 1, PInt 2); (PInt 2, PInt 0)]
       = Some id.
Proof.
  exact (model_ids_follow_dataset_order Glue.default_label2id Glue.lower
           (label2id Glue.mnli_model) "mnli" false Glue.mnli_labels
           (num_labels := 3) 0 ltac:(vm_compute; reflexivity) ltac:(lia)).
Defined.

(** Four classes asked of a list of three labels. *)
Lemma matching_model_labels_outcome_witness :
  match snd (choose_label_to_id (label2id Glue.mnli_model) (Some "mnli") false
               Glue.mnli_labels 4) with
  | Done (Some _) => (Z.to_nat 4 <= length Glue.mnli_labels)%nat
  | Done None => False
  | Failed e => e = PyIndexError
                /\ (length Glue.mnli_labels < Z.to_nat 4)%nat
  end.
Proof.
  exact (matching_model_labels_outcome Glue.default_label2id Glue.lower
           (label2id Glue.mnli_model) "mnli" Glue.mnli_labels 4
           (name_to_id := [(PStr "contradiction", PInt 0);
                           (PStr "entailment", PInt 1);
                           (PStr "neutral", PInt 2)])
           (sorted_labels := [PStr "contradiction"; PStr "entailment";
                              PStr "neutral"])
           ltac:(vm_compute; reflexivity) ltac:(vm_compute; reflexivity)
           ltac:(vm_compute; reflexivity) ltac:(vm_compute; reflexivity)).
Defined.


(** STS-B: the scores are copied. *)
Lemma regression_leaves_labels_alone_witness :
  let ran := preprocess_data (Some ["sentence1"; "sentence2"; "label"])
               Glue.mnli_model 1 [] true true 128 true (Some "stsb") in
  let transform :=
    generate_features Glue.tokenizer ("sentence1", Some "sentence2") None true
      128 in
  config_after ran = Glue.mnli_model
  /\ logged ran = [ConfigLabels (label2id Glue.mnli_model)
                                (id2label Glue.mnli_model)]
  /\ returned ran
     = Done (Glue.data_map transform ["sentence1"; "sentence2"; "label"] true)
  /\ match transform Glue.stsb_batch with
     | Done result =>
         dict_get String.eqb "labels" result
         = Some (Values (map Some [PInt 5; PInt 0]))
     | Failed e => e = PyKeyError
     end.
Proof.
  exact (regression_leaves_labels_alone Glue.TASK_TO_KEYS
           Glue.default_label2id Glue.lower Glue.tokenizer Glue.data_map
           ["sentence1"; "sentence2"; "label"] "stsb"
           (keys := ("sentence1", Some "sentence2")) Glue.mnli_model 1 []
           true 128 true Glue.stsb_batch
           ltac:(reflexivity) ltac:(reflexivity)).
Defined.

(** The MNLI batch: [input_ids] is what the tokenizer made of the two text
    columns. *)
Lemma generate_features_keeps_encoding_witness :
  match generate_features Glue.tokenizer ("premise", Some "hypothesis")
          (Some [(PStr "entailment", PInt 0); (PStr "neutral", PInt 1)])
          true 128 Glue.batch with
  | Done result =>
      exists texts,
        Forall2
          (fun key text => dict_get String.eqb key Glue.batch = Some text)
          ["premise"; "hypothesis"] texts
        /\ dict_get String.eqb "input_ids" result
           = option_map (@Encoded Glue.enc)
               (dict_get String.eqb "input_ids"
                  (Glue.tokenizer texts true 128))
  | Failed e =>
      e = PyKeyError
      /\ existsb
           (fun key => match dict_get String.eqb key Glue.batch with
                       | Some _ => false
                       | None => true
                       end)
           ["premise"; "hypothesis"]
         = true
  end.
Proof.
  exact (generate_features_keeps_encoding Glue.tokenizer
           ("premise", Some "hypothesis")
           (Some [(PStr "entailment", PInt 0); (PStr "neutral", PInt 1)])
           true 128 Glue.batch "input_ids" ltac:(reflexivity)).
Defined.

End GlueFacts.
